(** * METAR map: airport status acquisition and LED indication engine

    A shallow embedding of [code.py] (the CircuitPython program that drives
    one RGB LED per airport from the aviationweather.gov flight category)
    and the proofs of its specified properties.

    Layout: the Python run-time pieces the program relies on (floats,
    exceptions, string helpers), the program itself class by class, and
    then the theorems. *)

From Stdlib Require Import ZArith QArith Qround Lia Ascii String.
From Stdlib Require Import Floats.SpecFloat.
From stdpp Require Import base option list strings gmap pretty.

Local Open Scope string_scope.
Local Open Scope list_scope.
Local Open Scope Z_scope.

(** ** Exceptions and results *)

(** The exception classes that can travel through the program.  All of them
    derive from [Exception] except [SystemExit]. *)
Inductive exn : Type :=
  | IndexError
  | ValueError
  | OverflowError
  | AttributeError (msg : string)
  | ConnectionError
  | TransportError (msg : string)   (* whatever the HTTP client raises *)
  | OSError (msg : string)
  | BareException                   (* [raise Exception] *)
  | SystemExit (code : Z).

Global Instance exn_eq_dec : EqDecision exn.
Proof. solve_decision. Defined.

(** [isinstance(e, Exception)] *)
Definition is_Exception (e : exn) : bool :=
  match e with
  | SystemExit _ => false
  | _ => true
  end.

(** [str(e)], as interpolated by an f-string. *)
Definition exn_str (e : exn) : string :=
  match e with
  | IndexError => "list index out of range"
  | ValueError => "invalid literal"
  | OverflowError => "cannot convert float infinity to integer"
  | AttributeError msg => msg
  | ConnectionError => "connection failed"
  | TransportError msg => msg
  | OSError msg => msg
  | BareException => ""
  | SystemExit code => pretty code
  end.

Inductive outcome (A : Type) : Type :=
  | Ok (a : A)
  | Raise (e : exn).
Arguments Ok {A} a.
Arguments Raise {A} e.

Global Instance outcome_eq_dec {A} `{EqDecision A} : EqDecision (outcome A).
Proof. solve_decision. Defined.

Global Instance outcome_ret : MRet outcome := λ A a, Ok a.
Global Instance outcome_bind : MBind outcome := λ A B k r,
  match r with
  | Ok a => k a
  | Raise e => Raise e
  end.

(** ** Python floats

    [float] is an IEEE-754 binary64 number; the arithmetic is the one
    specified by [SpecFloat] (round to nearest, ties to even). *)
Module PyFloat.

Definition prec : Z := 53.
Definition emax : Z := 1024.

Definition float : Type := spec_float.

(** Conversion of an [int] operand of a mixed [int * float] product. *)
Definition of_int (z : Z) : outcome float :=
  match binary_normalize prec emax z 0 false with
  | S754_infinity _ => Raise OverflowError
  | f => Ok f
  end.

Definition mul (x y : float) : float := SFmul prec emax x y.

(** [int(x)]: truncation toward zero; NaN and the infinities raise. *)
Definition to_int (x : float) : outcome Z :=
  match x with
  | S754_zero _ => Ok 0
  | S754_finite s m e => Ok (cond_Zopp s (Z.shiftl (Z.pos m) e))
  | S754_infinity _ => Raise OverflowError
  | S754_nan => Raise ValueError
  end.

(** [int(n * x)] for an [int] [n] and a [float] [x]. *)
Definition int_of_product (n : Z) (x : float) : outcome Z :=
  nf ← of_int n; to_int (mul nf x).

(** The rational number a finite float denotes. *)
Definition value (x : float) : option Q :=
  match x with
  | S754_zero _ => Some 0%Q
  | S754_finite s m e =>
      Some match e with
           | Z.neg p => Qmake (cond_Zopp s (Z.pos m)) (2 ^ p)%positive
           | _ => inject_Z (cond_Zopp s (Z.pos m) * 2 ^ e)
           end
  | _ => None
  end.

(** The float lies in the closed interval [[0, 1]]. *)
Definition in_unit_interval (x : float) : Prop :=
  exists q, value x = Some q /\ (0 <= q)%Q /\ (q <= 1)%Q.

(** The floor of the float product [n * x]: the product is rounded to the
    nearest float first, so this is not always the floor of the exact
    product of [n] and [x]. *)
Definition floor_of_product (n : Z) (x : float) : option Z :=
  match of_int n with
  | Ok nf => Qfloor <$> value (mul nf x)
  | Raise _ => None
  end.

Definition one : float := S754_finite false 4503599627370496 (-52).
Definition half : float := S754_finite false 4503599627370496 (-53).

End PyFloat.
Abbreviation float := PyFloat.float.

(** ** Python lists and strings *)

(** [l[i]] with Python's negative indices. *)
Definition py_getitem {A} (l : list A) (i : Z) : outcome A :=
  let n := Z.of_nat (length l) in
  let j := if i <? 0 then i + n else i in
  if (0 <=? j) && (j <? n)
  then match l !! Z.to_nat j with
       | Some a => Ok a
       | None => Raise IndexError
       end
  else Raise IndexError.

Definition code_of (c : ascii) : Z := Z.of_N (N_of_ascii c).

(** [c.isspace()] on the ASCII range; the blanks outside it, on which
    [split] also splits, are not modelled. *)
Definition is_space (c : ascii) : bool :=
  let n := code_of c in
  ((9 <=? n) && (n <=? 13)) || ((28 <=? n) && (n <=? 32)).

(** [s.split()]: the maximal runs of non-whitespace characters, in order. *)
Fixpoint split_from (cur : string) (s : string) : list string :=
  match s with
  | EmptyString => if decide (cur = "") then [] else [cur]
  | String c rest =>
      if is_space c
      then (if decide (cur = "") then split_from "" rest
            else cur :: split_from "" rest)
      else split_from (cur +:+ String c "") rest
  end.

Definition split (s : string) : list string := split_from "" s.

Definition digit_value (base : Z) (c : ascii) : option Z :=
  let n := code_of c in
  let d := if (48 <=? n) && (n <=? 57) then Some (n - 48)
           else if (97 <=? n) && (n <=? 122) then Some (n - 87)
           else if (65 <=? n) && (n <=? 90) then Some (n - 55)
           else None in
  d ≫= (fun v => if v <? base then Some v else None).

(** Digits with single underscores allowed between them. *)
Fixpoint parse_digits (base acc : Z) (after_digit : bool) (s : string) : option Z :=
  match s with
  | EmptyString => if after_digit then Some acc else None
  | String c rest =>
      if decide (c = "_"%char)
      then (if after_digit then parse_digits base acc false rest else None)
      else match digit_value base c with
           | Some d => parse_digits base (acc * base + d) true rest
           | None => None
           end
  end.

Definition strip_sign (s : string) : bool * string :=
  match s with
  | String "-" rest => (true, rest)
  | String "+" rest => (false, rest)
  | _ => (false, s)
  end.

Definition strip_hex_prefix (s : string) : string :=
  match s with
  | String "0" (String "x" rest) | String "0" (String "X" rest) =>
      match rest with
      | String "_" rest' => rest'
      | _ => rest
      end
  | _ => s
  end.

(** [int(s)] and [int(s, 16)] on a token without surrounding whitespace
    (ASCII digits only). *)
Definition py_int (base : Z) (s : string) : outcome Z :=
  let '(negative, body) := strip_sign s in
  let body := if base =? 16 then strip_hex_prefix body else body in
  match parse_digits base 0 false body with
  | Some n => Ok (if negative then - n else n)
  | None => Raise ValueError
  end.

(** *** The regular expression of [update_flight_category]

    An opening [<flight_category>] tag, a greedy group of any characters
    but newline, and a closing [</flight_category>] tag. *)

Definition open_tag : string := "<flight_category>".
Definition close_tag : string := "</flight_category>".

Fixpoint strip_prefix (p s : string) : option string :=
  match p, s with
  | EmptyString, _ => Some s
  | String a p', String b s' => if decide (a = b) then strip_prefix p' s' else None
  | String _ _, EmptyString => None
  end.

(** The characters the group may consume: everything up to the next
    newline. *)
Fixpoint line_prefix (s : string) : string :=
  match s with
  | EmptyString => ""
  | String c rest => if decide (c = "010"%char) then "" else String c (line_prefix rest)
  end.

(** The greedy group followed by the closing tag: the group ends where the
    last closing tag of the segment starts. *)
Fixpoint greedy_group (seg : string) : option string :=
  match seg with
  | EmptyString => None
  | String c rest =>
      match greedy_group rest with
      | Some g => Some (String c g)
      | None => if decide (is_Some (strip_prefix close_tag seg)) then Some "" else None
      end
  end.

(** [re.search(pattern, text)]: the leftmost position where the pattern
    matches; the result is [group(1)], [None] when there is no match. *)
Fixpoint re_search_flight_category (text : string) : option string :=
  match text with
  | EmptyString => None
  | String _ rest =>
      match strip_prefix open_tag text with
      | Some after =>
          match greedy_group (line_prefix after) with
          | Some g => Some g
          | None => re_search_flight_category rest
          end
      | None => re_search_flight_category rest
      end
  end.

(** ** Hardware, network and the event log *)

(** An I2C bus, identified by its two pins (a pin pair can be claimed by
    one [busio.I2C] object only, so the pins stand for the object). *)
Module I2CController.
Record t : Type := mk { scl : nat; sda : nat }.

Global Instance eq_dec : EqDecision t.
Proof. solve_decision. Defined.
End I2CController.

Module LEDDriverBoard.
Record t : Type := mk { controller : I2CController.t; addr : Z }.

Global Instance eq_dec : EqDecision t.
Proof. solve_decision. Defined.

Global Instance countable : Countable t.
Proof.
  apply (inj_countable'
           (λ b, (I2CController.scl (controller b),
                  I2CController.sda (controller b), addr b))
           (λ p, mk (I2CController.mk p.1.1 p.1.2) p.2)).
  by intros [[] ?].
Defined.
End LEDDriverBoard.

(** Everything the program does to its environment, in order. *)
Inductive event : Type :=
  | EvBoardInit (board : LEDDriverBoard.t)              (* AW9523(...), LED_modes *)
  | EvPinOutput (board : LEDDriverBoard.t) (pin : Z)    (* switch_to_output(True) *)
  | EvSetCurrent (board : LEDDriverBoard.t) (pin value : Z)
  | EvHttpGet (url : string)
  | EvClose (request_no : nat)
  | EvWifiConnect
  | EvPrint (line : string)
  | EvSleep (seconds : Z).

Global Instance event_eq_dec : EqDecision event.
Proof. solve_decision. Defined.

(** What the weather service answers to a request: the client raises, or
    it returns a response whose body can be read ([inr]) or whose read
    fails ([inl]). *)
Inductive http_result : Type :=
  | GetRaises (msg : string)
  | GetReturns (body : string + string).

Module Response.
Record t : Type := mk { request_no : nat; body : string + string }.

(** The [text] property. *)
Definition text (self : t) : outcome string :=
  match body self with
  | inl msg => Raise (TransportError msg)
  | inr s => Ok s
  end.
End Response.

Record World : Type := mkWorld {
  log : list event;
  http_n : nat;      (* requests issued so far *)
  wifi_n : nat       (* connection attempts made so far *)
}.

(** ** Stateful, failing computations *)

Record M (S A : Type) : Type := Action { run : S -> outcome A * S }.
Arguments Action {S A} _.
Arguments run {S A} _ _.

Global Instance M_ret {S} : MRet (M S) := λ A a, Action (λ s, (Ok a, s)).
Global Instance M_bind {S} : MBind (M S) := λ A B k m,
  Action (λ s, match run m s with
               | (Ok a, s') => run (k a) s'
               | (Raise e, s') => (Raise e, s')
               end).

Definition raise {S A} (e : exn) : M S A := Action (λ s, (Raise e, s)).

(** The outcome of [m] as a value: the body of a [try]. *)
Definition try_ {S A} (m : M S A) : M S (outcome A) :=
  Action (λ s, let '(r, s') := run m s in (Ok r, s')).

Definition of_outcome {S A} (r : outcome A) : M S A := Action (λ s, (r, s)).

(** An action on the world, run next to a piece of program state. *)
Definition in_world {T A} (m : M World A) : M (T * World) A :=
  Action (λ '(t, w), let '(r, w') := run m w in (r, (t, w'))).

Definition get_self {T} : M (T * World) T := Action (λ '(t, w), (Ok t, (t, w))).
Definition set_self {T} (t : T) : M (T * World) unit := Action (λ '(_, w), (Ok (), (t, w))).

(** A [for] loop over a list of mutable objects: the body runs on each
    object in turn and the loop stops at the first exception. *)
Fixpoint for_each_from {T} (body : M (T * World) unit) (items : list T) (w : World)
    : outcome unit * (list T * World) :=
  match items with
  | [] => (Ok (), ([], w))
  | x :: rest =>
      match run body (x, w) with
      | (Ok _, (x', w')) =>
          let '(r, (rest', w'')) := for_each_from body rest w' in
          (r, (x' :: rest', w''))
      | (Raise e, (x', w')) => (Raise e, (x' :: rest, w'))
      end
  end.

Definition for_each {T} (body : M (T * World) unit) : M (list T * World) unit :=
  Action (λ '(items, w), for_each_from body items w).

Definition emit (e : event) : M World unit :=
  Action (λ w, (Ok (), mkWorld (log w ++ [e]) (http_n w) (wifi_n w))).

Definition print (line : string) : M World unit := emit (EvPrint line).
Definition sleep (seconds : Z) : M World unit := emit (EvSleep seconds).

Module Session.
(** The HTTP session: its [n]-th request, to [url], has the given result. *)
Record t : Type := mk { responses : nat -> string -> http_result }.

Definition get (self : t) (url : string) : M World Response.t :=
  Action (λ w,
    let w' := mkWorld (log w ++ [EvHttpGet url]) (S (http_n w)) (wifi_n w) in
    match responses self (http_n w) url with
    | GetRaises msg => (Raise (TransportError msg), w')
    | GetReturns body => (Ok (Response.mk (http_n w) body), w')
    end).
End Session.

(** [resp.close()] *)
Definition close (resp : Response.t) : M World unit :=
  emit (EvClose (Response.request_no resp)).

(** The process environment: what [os.getenv], the radio, the file system
    and the network hold for this run. *)
Record Env : Type := mkEnv {
  LED_BRIGHTNESS : float;                       (* float(os.getenv("LED_BRIGHTNESS")) *)
  wifi_radio_connect : nat -> outcome unit;     (* the [n]-th wifi.radio.connect *)
  files : string -> option (list string);       (* readlines() of a file *)
  internet : Session.t
}.

(** The constant-current registers after the events of a log. *)
Definition apply_event (regs : gmap (LEDDriverBoard.t * Z) Z) (e : event)
    : gmap (LEDDriverBoard.t * Z) Z :=
  match e with
  | EvSetCurrent board pin value => <[(board, pin) := value]> regs
  | _ => regs
  end.

Definition registers (evs : list event) : gmap (LEDDriverBoard.t * Z) Z :=
  foldl apply_event ∅ evs.

Definition is_set_current (e : event) : bool :=
  match e with
  | EvSetCurrent _ _ _ => true
  | _ => false
  end.

Definition is_http_get (e : event) : bool :=
  match e with
  | EvHttpGet _ => true
  | _ => false
  end.

(** The events a run added to the log. *)
Definition events_since (w w' : World) : list event :=
  drop (length (log w)) (log w').

(** * The program *)

(** Constants for LED colors *)
Module LEDColors.
Definition GREEN : Z := 0x00FF00.
Definition RED : Z := 0xFF0000.
Definition BLUE : Z := 0x0000FF.
Definition PURPLE : Z := 0xFF00FF.
Definition YELLOW : Z := 0xFF2200.
Definition WIFI_BLUE : Z := 0x00F9E9.
End LEDColors.

Module BoardManager.
Record t : Type := mk {
  controllers : list I2CController.t;
  boards : list LEDDriverBoard.t
}.

Definition __init__ (controllers : list I2CController.t) : t := mk controllers [].

Definition add_board (self : t) (controller : I2CController.t) (addr : Z) : M World t :=
  let board := LEDDriverBoard.mk controller addr in
  emit (EvBoardInit board);;
  mret (mk (controllers self) (boards self ++ [board])).

Fixpoint get_board_in (controllers : list I2CController.t) (boards : list LEDDriverBoard.t)
    (controller_index addr : Z) : outcome (option LEDDriverBoard.t) :=
  match boards with
  | [] => Ok None
  | board :: rest =>
      c ← py_getitem controllers controller_index;
      if decide (LEDDriverBoard.controller board = c ∧ LEDDriverBoard.addr board = addr)
      then Ok (Some board)
      else get_board_in controllers rest controller_index addr
  end.

Definition get_board (self : t) (controller_index addr : Z)
    : outcome (option LEDDriverBoard.t) :=
  get_board_in (controllers self) (boards self) controller_index addr.
End BoardManager.

Module RGBLED.
Record t : Type := mk {
  host : LEDDriverBoard.t;
  red_pin_num : Z;
  green_pin_num : Z;
  blue_pin_num : Z
}.

(** The driver behind [get_pin] has the pins 0 to 15 and refuses others;
    the refusal is not part of the model, which takes the pins for pins
    of the driver. *)
Definition __init__ (host : option LEDDriverBoard.t) (red_pin green_pin blue_pin : Z)
    : M World t :=
  match host with
  | None => raise (AttributeError "'NoneType' object has no attribute 'get_pin'")
  | Some host =>
      emit (EvPinOutput host red_pin);;
      emit (EvPinOutput host green_pin);;
      emit (EvPinOutput host blue_pin);;
      mret (mk host red_pin green_pin blue_pin)
  end.

(** The driver takes the values 0 to 255 and refuses others; the refusal
    is not part of the model.  For a brightness in the unit interval no
    other value is written. *)
Definition set_constant_current (host : LEDDriverBoard.t) (pin value : Z) : M World unit :=
  emit (EvSetCurrent host pin value).

Definition set_color (self : t) (color : Z) (brightness : float) : M World unit :=
  let r := Z.shiftr color 16 in
  let g := Z.shiftr (Z.land color 0x00FF00) 8 in
  let b := Z.land color 0x0000FF in
  vr ← of_outcome (PyFloat.int_of_product r brightness);
  set_constant_current (host self) (red_pin_num self) vr;;
  vg ← of_outcome (PyFloat.int_of_product g brightness);
  set_constant_current (host self) (green_pin_num self) vg;;
  vb ← of_outcome (PyFloat.int_of_product b brightness);
  set_constant_current (host self) (blue_pin_num self) vb.
End RGBLED.

Module FlightCategory.
Definition t : Type := string.

Definition UNKNOWN : t := "UNKNOWN".
Definition VFR : t := "VFR".
Definition MVFR : t := "MVFR".
Definition IFR : t := "IFR".
Definition LIFR : t := "LIFR".

Definition values : list t := [UNKNOWN; VFR; MVFR; IFR; LIFR].

Definition str_map : gmap string string :=
  {[ "UNKNOWN" := UNKNOWN; "VFR" := VFR; "MVFR" := MVFR; "IFR" := IFR; "LIFR" := LIFR ]}.

Definition from_string (name : string) : t := default UNKNOWN (str_map !! name).
End FlightCategory.

Definition metar_url (code : string) : string :=
  "https://aviationweather.gov/api/data/metar?ids=" +:+ code +:+ "&format=xml".

Module Airport.
Record t : Type := mk {
  airport_code : string;
  led : RGBLED.t;
  flight_category : FlightCategory.t;
  alternate : string
}.

Definition color_map : gmap string Z :=
  {[ "VFR" := LEDColors.GREEN; "MVFR" := LEDColors.BLUE; "IFR" := LEDColors.RED;
     "LIFR" := LEDColors.PURPLE; "UNKNOWN" := LEDColors.YELLOW ]}.

Definition _get_color_from_flight_category (category : FlightCategory.t) : Z :=
  default LEDColors.YELLOW (color_map !! category).

(** The statements both [try] blocks share: the request, the search of
    the body and the parse.  [resp] is the local variable of that name;
    its value after the statements is returned next to their outcome. *)
Definition fetch (requests_session : Session.t) (code : string)
    (resp : option Response.t) : M World (option Response.t * outcome FlightCategory.t) :=
  r ← try_ (Session.get requests_session (metar_url code));
  match r with
  | Raise e => mret (resp, Raise e)
  | Ok resp' =>
      mret (Some resp',
            text ← Response.text resp';
            match re_search_flight_category text with
            | None => Raise (AttributeError "'NoneType' object has no attribute 'group'")
            | Some group1 => Ok (FlightCategory.from_string group1)
            end)
  end.

(** [resp.close()] when [resp] is set. *)
Definition close_if (resp : option Response.t) : M World unit :=
  match resp with
  | Some r => close r
  | None => mret ()
  end.

Section WithEnv.
Context (env : Env).

Definition __init__ (airport_code : string) (red_pin green_pin blue_pin : Z)
    (alternate : string) (host : option LEDDriverBoard.t) : M World t :=
  led ← RGBLED.__init__ host red_pin green_pin blue_pin;
  RGBLED.set_color led LEDColors.YELLOW (LED_BRIGHTNESS env);;
  mret (mk airport_code led FlightCategory.UNKNOWN alternate).

Definition from_config_line (line : string) (board_manager : BoardManager.t)
    : M World t :=
  let split_line := split line in
  controller_index ← of_outcome (py_getitem split_line 1 ≫= py_int 10);
  addr ← of_outcome (py_getitem split_line 2 ≫= py_int 16);
  host ← of_outcome (BoardManager.get_board board_manager controller_index addr);
  airport_code ← of_outcome (py_getitem split_line 0);
  red_pin ← of_outcome (py_getitem split_line 3 ≫= py_int 10);
  green_pin ← of_outcome (py_getitem split_line 4 ≫= py_int 10);
  blue_pin ← of_outcome (py_getitem split_line 5 ≫= py_int 10);
  alternate ← of_outcome (py_getitem split_line 6);
  __init__ airport_code red_pin green_pin blue_pin alternate host.

(** The [try] / [except] / [finally] statement of
    [update_flight_category]: the category the airport resolves to. *)
Definition resolve_flight_category (self : t) (requests_session : Session.t)
    : M World FlightCategory.t :=
  '(resp, r) ← fetch requests_session (airport_code self) None;
  let r := c ← r;
           if decide (c = FlightCategory.UNKNOWN) then Raise BareException else Ok c in
  match r with
  | Ok flight_category => close_if resp;; mret flight_category
  | Raise ex =>
      if is_Exception ex then
        close_if resp;;
        print ("Trying alternate for " +:+ airport_code self
               +:+ " (" +:+ alternate self +:+ ")");;
        '(resp, r) ← fetch requests_session (alternate self) resp;
        match r with
        | Ok flight_category => close_if resp;; mret flight_category
        | Raise ex =>
            if is_Exception ex then
              print ("[Error (" +:+ airport_code self +:+ ")] " +:+ exn_str ex);;
              close_if resp;;
              mret FlightCategory.UNKNOWN
            else close_if resp;; raise ex
        end
      else close_if resp;; raise ex
  end.

Definition update_flight_category (requests_session : Session.t)
    : M (t * World) unit :=
  self ← get_self;
  flight_category ← in_world (resolve_flight_category self requests_session);
  if decide (flight_category ≠ Airport.flight_category self) then
    set_self (mk (airport_code self) (led self) flight_category (alternate self));;
    in_world (RGBLED.set_color (led self)
                (_get_color_from_flight_category flight_category)
                (LED_BRIGHTNESS env))
  else mret ().
End WithEnv.
End Airport.

Module AirportManager.
Section WithEnv.
Context (env : Env).

Definition append (airport : Airport.t) : M (list Airport.t * World) unit :=
  Action (λ '(airport_list, w), (Ok (), (airport_list ++ [airport], w))).

Fixpoint load_lines (lines : list string) (board_manager : BoardManager.t)
    : M (list Airport.t * World) unit :=
  match lines with
  | [] => mret ()
  | line :: rest =>
      airport ← in_world (Airport.from_config_line env line board_manager);
      append airport;;
      load_lines rest board_manager
  end.

Definition load_airports (filename : string) (board_manager : BoardManager.t)
    : M (list Airport.t * World) unit :=
  match files env filename with
  | None => raise (OSError "[Errno 2] No such file/directory")
  | Some lines => load_lines lines board_manager
  end.

Definition update_airport_flight_categories (requests_session : Session.t)
    : M (list Airport.t * World) unit :=
  for_each (Airport.update_flight_category env requests_session).
End WithEnv.
End AirportManager.

Module Map.
Definition show_color (color : Z) (brightness : float) : M (list Airport.t * World) unit :=
  for_each (airport ← get_self;
            in_world (RGBLED.set_color (Airport.led airport) color brightness)).

Section WithEnv.
Context (env : Env).

Definition show_error_state (error : string) : M (list Airport.t * World) unit :=
  show_color LEDColors.YELLOW (LED_BRIGHTNESS env);;
  in_world (print ("[Error] " +:+ error)).

(** [wifi.radio.connect(ssid, password)] *)
Definition wifi_radio_connect_call : M World unit :=
  Action (λ w, (wifi_radio_connect env (wifi_n w),
                mkWorld (log w ++ [EvWifiConnect]) (http_n w) (S (wifi_n w)))).

(** The [for attempt in ...: ... else: return False] loop. *)
Fixpoint connect_wifi_for (attempts : list Z) : M (list Airport.t * World) bool :=
  match attempts with
  | [] => mret false
  | attempt :: rest =>
      show_color LEDColors.WIFI_BLUE (LED_BRIGHTNESS env);;
      in_world (print ("Attempting to connect to WIFI (attempt "
                       +:+ pretty attempt +:+ ")..."));;
      r ← in_world (try_ wifi_radio_connect_call);
      match r with
      | Ok _ => in_world (print "Connected to WIFI");; mret true
      | Raise ConnectionError => in_world (sleep 1);; connect_wifi_for rest
      | Raise e => raise e
      end
  end.

Definition connect_wifi : M (list Airport.t * World) bool :=
  connect_wifi_for (seqZ 1 5).
End WithEnv.
End Map.

Section Main.
Context (env : Env).

Definition i2c0 : I2CController.t := I2CController.mk 1 0.
Definition i2c1 : I2CController.t := I2CController.mk 27 26.

Fixpoint add_boards (board_manager : BoardManager.t)
    (places : list (I2CController.t * Z)) : M World BoardManager.t :=
  match places with
  | [] => mret board_manager
  | (controller, addr) :: rest =>
      board_manager ← BoardManager.add_board board_manager controller addr;
      add_boards board_manager rest
  end.

(** The pairs the two nested [for] loops of [main] go through. *)
Definition board_places : list (I2CController.t * Z) :=
  controller ← [i2c0; i2c1]; addr ← [0x58; 0x59; 0x5A; 0x5B]; [(controller, addr)].

(** The first [cycles] iterations of the [while True] loop. *)
Fixpoint poll (cycles : nat) : M (list Airport.t * World) unit :=
  match cycles with
  | O => mret ()
  | S n =>
      AirportManager.update_airport_flight_categories env (internet env);;
      in_world (sleep 45);;
      poll n
  end.

Definition sys_exit {S A} (code : Z) : M S A := raise (SystemExit code).

(** [main] up to the polling loop. *)
Definition startup : M (list Airport.t * World) unit :=
  board_manager ← in_world (add_boards (BoardManager.__init__ [i2c0; i2c1]) board_places);
  AirportManager.load_airports env "./lib/config.txt" board_manager;;
  wifi_result ← Map.connect_wifi env;
  (if wifi_result : bool
   then Map.show_color LEDColors.GREEN (LED_BRIGHTNESS env)
   else Map.show_color LEDColors.RED (LED_BRIGHTNESS env);; sys_exit 1);;
  in_world (sleep 1);;
  Map.show_color LEDColors.YELLOW (LED_BRIGHTNESS env).

(** [main], observed through the first [cycles] iterations of its loop:
    [Ok] means the loop is still running, [Raise] that the process ended
    with that exception. *)
Definition main (cycles : nat) : M (list Airport.t * World) unit :=
  startup;; poll cycles.

Definition initial_world : World := mkWorld [] 0 0.
End Main.

(** * Auxiliary notions of the statements *)

(** The register writes of one [set_color] call that sends [vr], [vg] and
    [vb] to the red, green and blue channel. *)
Definition channel_writes (led : RGBLED.t) (vr vg vb : Z) : list event :=
  [EvSetCurrent (RGBLED.host led) (RGBLED.red_pin_num led) vr;
   EvSetCurrent (RGBLED.host led) (RGBLED.green_pin_num led) vg;
   EvSetCurrent (RGBLED.host led) (RGBLED.blue_pin_num led) vb].


(** The world after the events [evs], no request or connection made. *)
Definition logged (w : World) (evs : list event) : World :=
  mkWorld (log w ++ evs) (http_n w) (wifi_n w).

(** What the shared statements of the two [try] blocks yield for an answer
    of the service. *)
Definition category_of_response (r : http_result) : outcome FlightCategory.t :=
  match r with
  | GetRaises msg | GetReturns (inl msg) => Raise (TransportError msg)
  | GetReturns (inr text) =>
      match re_search_flight_category text with
      | None => Raise (AttributeError "'NoneType' object has no attribute 'group'")
      | Some group1 => Ok (FlightCategory.from_string group1)
      end
  end.

(** The value of [resp] after the [n]-th request was answered by [r]. *)
Definition response_of (r : http_result) (n : nat) (resp : option Response.t)
    : option Response.t :=
  match r with
  | GetRaises _ => resp
  | GetReturns body => Some (Response.mk n body)
  end.

Definition closes (resp : option Response.t) : list event :=
  match resp with
  | Some r => [EvClose (Response.request_no r)]
  | None => []
  end.

Definition trying_alternate_line (self : Airport.t) : string :=
  "Trying alternate for " +:+ Airport.airport_code self
  +:+ " (" +:+ Airport.alternate self +:+ ")".

Definition error_line (self : Airport.t) (ex : exn) : string :=
  "[Error (" +:+ Airport.airport_code self +:+ ")] " +:+ exn_str ex.

(** The primary attempt failed, in the words of the specification: the
    request raised a transport error (when sent or when the body was
    read), the body has no flight-category marker, or the marked text
    parses to Unknown. *)
Definition primary_failed (r : http_result) : Prop :=
  (exists msg, r = GetRaises msg) \/
  (exists msg, r = GetReturns (inl msg)) \/
  (exists text, r = GetReturns (inr text) /\ re_search_flight_category text = None) \/
  (exists text group1, r = GetReturns (inr text) /\
     re_search_flight_category text = Some group1 /\
     FlightCategory.from_string group1 = FlightCategory.UNKNOWN).

(** The primary attempt yields a recognized category other than Unknown. *)
Definition primary_recognized (r : http_result) (c : FlightCategory.t) : Prop :=
  exists text group1, r = GetReturns (inr text) /\
    re_search_flight_category text = Some group1 /\
    FlightCategory.from_string group1 = c /\ c <> FlightCategory.UNKNOWN.

(** The requests among the events of a run. *)
Definition requests_in (evs : list event) : list event := List.filter is_http_get evs.

(** The register writes among the events of a run. *)
Definition hardware_writes (evs : list event) : list event := List.filter is_set_current evs.

(** What the alternate attempt resolves to when it is answered by [r]. *)
Definition alternate_category (r : http_result) : FlightCategory.t :=
  match category_of_response r with
  | Ok c => c
  | Raise _ => FlightCategory.UNKNOWN
  end.

(** The events of a fallback chain whose primary attempt failed: [primary]
    and [alternate] are the answers to the requests number [n] and
    [S n]. *)
Definition alternate_events (self : Airport.t) (primary alternate : http_result) (n : nat)
    : list event :=
  let resp1 := response_of primary n None in
  [EvHttpGet (metar_url (Airport.airport_code self))] ++ closes resp1
  ++ [EvPrint (trying_alternate_line self); EvHttpGet (metar_url (Airport.alternate self))]
  ++ match category_of_response alternate with
     | Ok _ => []
     | Raise ex => [EvPrint (error_line self ex)]
     end
  ++ closes (response_of alternate (S n) resp1).

(** The state and the result a computation ends with. *)
Definition after {S A} (m : M S A) (s : S) : S := (run m s).2.
Definition result {S A} (m : M S A) (s : S) : outcome A := (run m s).1.

(** The airport with its stored category replaced. *)
Definition with_category (self : Airport.t) (c : FlightCategory.t) : Airport.t :=
  Airport.mk (Airport.airport_code self) (Airport.led self) c (Airport.alternate self).

(** The register writes of [show_color]: every airport's LED in turn, the
    same three channel values each. *)
Definition show_color_writes (airports : list Airport.t) (vr vg vb : Z) : list event :=
  airport ← airports; channel_writes (Airport.led airport) vr vg vb.

Definition is_wifi_connect (e : event) : bool :=
  match e with
  | EvWifiConnect => true
  | _ => false
  end.

Definition is_connect_or_sleep (e : event) : bool :=
  match e with
  | EvWifiConnect | EvSleep _ => true
  | _ => false
  end.

(** The connection attempts and the waits among the events of a run. *)
Definition connectivity_events (evs : list event) : list event :=
  List.filter is_connect_or_sleep evs.

(** The number of connection attempts among the events of a run. *)
Definition connection_attempts (evs : list event) : nat :=
  length (List.filter is_wifi_connect evs).

Definition attempt_line (attempt : Z) : string :=
  "Attempting to connect to WIFI (attempt " +:+ pretty attempt +:+ ")...".

(** [k] failed attempts, each followed by its one-second wait. *)
Definition failed_attempts (k : nat) : list event :=
  mjoin (replicate k [EvWifiConnect; EvSleep 1]).

(** The board manager [main] builds: both controllers, four boards each. *)
Definition main_board_manager : BoardManager.t :=
  BoardManager.mk [i2c0; i2c1] (map (λ p, LEDDriverBoard.mk p.1 p.2) board_places).

(** The first two steps of [main]: the boards and the airports. *)
Definition configure (env : Env) : M (list Airport.t * World) unit :=
  board_manager ← in_world (add_boards (BoardManager.__init__ [i2c0; i2c1]) board_places);
  AirportManager.load_airports env "./lib/config.txt" board_manager.

(** The steps of [main] between the configuration and the polling loop. *)
Definition connect_and_indicate (env : Env) : M (list Airport.t * World) unit :=
  wifi_result ← Map.connect_wifi env;
  (if wifi_result : bool
   then Map.show_color LEDColors.GREEN (LED_BRIGHTNESS env)
   else Map.show_color LEDColors.RED (LED_BRIGHTNESS env);; sys_exit 1);;
  in_world (sleep 1);;
  Map.show_color LEDColors.YELLOW (LED_BRIGHTNESS env).

(** The board [(controller_index, addr)] resolves to. *)
Definition board_matches (controllers : list I2CController.t) (controller_index addr : Z)
    (board : LEDDriverBoard.t) : Prop :=
  py_getitem controllers controller_index = Ok (LEDDriverBoard.controller board) /\
  LEDDriverBoard.addr board = addr.

(** The second and third field of a configuration line, as numbers. *)
Definition controller_field (line : string) : outcome Z :=
  py_getitem (split line) 1 ≫= py_int 10.
Definition addr_field (line : string) : outcome Z :=
  py_getitem (split line) 2 ≫= py_int 16.

Definition is_hardware_event (e : event) : bool :=
  match e with
  | EvBoardInit _ | EvPinOutput _ _ | EvSetCurrent _ _ _ => true
  | _ => false
  end.

(** The events of [RGBLED.__init__]. *)
Definition pin_outputs (led : RGBLED.t) : list event :=
  [EvPinOutput (RGBLED.host led) (RGBLED.red_pin_num led);
   EvPinOutput (RGBLED.host led) (RGBLED.green_pin_num led);
   EvPinOutput (RGBLED.host led) (RGBLED.blue_pin_num led)].

(** The registers behind the three channels of an LED. *)
Definition led_keys (led : RGBLED.t) : list (LEDDriverBoard.t * Z) :=
  [(RGBLED.host led, RGBLED.red_pin_num led);
   (RGBLED.host led, RGBLED.green_pin_num led);
   (RGBLED.host led, RGBLED.blue_pin_num led)].

(** The LED displays [color] at [brightness]: its three registers hold
    what [set_color] writes for that color. *)
Definition led_shows (regs : gmap (LEDDriverBoard.t * Z) Z) (led : RGBLED.t)
    (color : Z) (brightness : float) : Prop :=
  exists vr vg vb,
    PyFloat.int_of_product (Z.shiftr color 16) brightness = Ok vr /\
    PyFloat.int_of_product (Z.shiftr (Z.land color 0x00FF00) 8) brightness = Ok vg /\
    PyFloat.int_of_product (Z.land color 0x0000FF) brightness = Ok vb /\
    regs !! (RGBLED.host led, RGBLED.red_pin_num led) = Some vr /\
    regs !! (RGBLED.host led, RGBLED.green_pin_num led) = Some vg /\
    regs !! (RGBLED.host led, RGBLED.blue_pin_num led) = Some vb.

(** The stored category of the airport is the one its LED displays. *)
Definition displays_category (env : Env) (w : World) (airport : Airport.t) : Prop :=
  led_shows (registers (log w)) (Airport.led airport)
    (Airport._get_color_from_flight_category (Airport.flight_category airport))
    (LED_BRIGHTNESS env).

Definition display_invariant (env : Env) (airports : list Airport.t) (w : World) : Prop :=
  Forall (displays_category env w) airports.

(** No register is shared: the channels of all the LEDs are distinct. *)
Definition distinct_leds (airports : list Airport.t) : Prop :=
  NoDup (airport ← airports; led_keys (Airport.led airport)).

(** An event of the fallback chain: a request, a close or a printed line. *)
Definition is_chain_event (e : event) : bool :=
  match e with
  | EvHttpGet _ | EvClose _ | EvPrint _ => true
  | _ => false
  end.

(** An event of an update: one of the fallback chain or a register write. *)
Definition is_update_event (e : event) : bool := is_chain_event e || is_set_current e.

Definition is_poll_sleep (e : event) : bool :=
  match e with
  | EvSleep seconds => seconds =? 45
  | _ => false
  end.

(** The number of completed waits of the polling loop among the events. *)
Definition poll_sleeps (evs : list event) : nat := length (List.filter is_poll_sleep evs).

(** Every airport of the list is stored as Unknown. *)
Definition all_unknown (airports : list Airport.t) : Prop :=
  Forall (λ a, Airport.flight_category a = FlightCategory.UNKNOWN) airports.

(** ** Sample runs *)

Definition newline : string := String "010"%char "".

Definition sample_session : Session.t :=
  Session.mk (λ n url,
    if decide (url = metar_url "KLGA")
    then GetReturns (inr "<METAR><flight_category>VFR</flight_category></METAR>")
    else if decide (url = metar_url "KABC")
    then GetReturns (inr "<METAR><flight_category>CLR</flight_category></METAR>")
    else GetRaises "timed out").

Definition config_file (lines : list string) (name : string) : option (list string) :=
  if decide (name = "./lib/config.txt") then Some lines else None.

Definition sample_config : list string :=
  ["KJFK 0 58 0 1 2 KLGA" +:+ newline; "KXYZ 1 5B 3 4 5 KABC" +:+ newline].

(** Full brightness; the third connection attempt succeeds. *)
Definition sample_env : Env :=
  mkEnv PyFloat.one
    (λ n, if decide (n = 2%nat) then Ok () else Raise ConnectionError)
    (config_file sample_config) sample_session.

(** The same, without a network to connect to. *)
Definition offline_env : Env :=
  mkEnv PyFloat.one (λ n, Raise ConnectionError) (config_file sample_config) sample_session.

(** A configuration with a blank second line. *)
Definition blank_line_env : Env :=
  mkEnv PyFloat.one (λ n, Ok ())
    (config_file ["KJFK 0 58 0 1 2 KLGA" +:+ newline; newline; "KXYZ 1 5B 3 4 5 KABC" +:+ newline])
    sample_session.

(** A configuration whose second line names a board that is not there. *)
Definition unresolved_env : Env :=
  mkEnv PyFloat.one (λ n, Ok ())
    (config_file ["KJFK 0 58 0 1 2 KLGA" +:+ newline; "KXYZ 1 60 3 4 5 KABC" +:+ newline])
    sample_session.

(** The airports and the world of the sample run once configured. *)
Definition sample_airports : list Airport.t :=
  (after (configure sample_env) ([], initial_world)).1.
Definition sample_world : World :=
  (after (configure sample_env) ([], initial_world)).2.

Definition sample_airport : Airport.t :=
  Airport.mk "KJFK" (RGBLED.mk (LEDDriverBoard.mk i2c0 0x58) 0 1 2) FlightCategory.UNKNOWN "KLGA".

Definition sample_airport_xyz : Airport.t :=
  Airport.mk "KXYZ" (RGBLED.mk (LEDDriverBoard.mk i2c1 0x5B) 3 4 5) FlightCategory.VFR "KABC".

(** The float of a channel value: zero, or a positive float of at most
    eight binary digits before the point. *)
Definition small_float (x : float) : bool :=
  match x with
  | S754_zero false => true
  | S754_finite false m e => (Z.pos (digits2_pos m) + e <=? 8) && (e <=? 0)
  | _ => false
  end.

Definition of_int_small (n : Z) : bool :=
  match PyFloat.of_int n with
  | Ok x => small_float x
  | Raise _ => false
  end.

(** Zero of either sign, or a positive finite float. *)
Definition nonneg_float (x : float) : Prop :=
  (exists s, x = S754_zero s) \/ (exists m e, x = S754_finite false m e).

(** ** Further notions *)

(** The controller a valid index of [main]'s controller list denotes. *)
Definition main_controller (controller_index : Z) : I2CController.t :=
  if decide (controller_index = 0 \/ controller_index = -2) then i2c0 else i2c1.

(** The index is valid for a list of [n] elements, negative indices
    counting from the end. *)
Definition index_in_range (n : nat) (i : Z) : Prop := - Z.of_nat n <= i < Z.of_nat n.

(** The attempt answered by [r] ends in the exception [ex]: the request or
    the read of the body raised, or the body has no flight-category
    marker. *)
Definition attempt_raises (r : http_result) (ex : exn) : Prop :=
  (exists msg, (r = GetRaises msg \/ r = GetReturns (inl msg)) /\ ex = TransportError msg) \/
  (exists text, r = GetReturns (inr text) /\ re_search_flight_category text = None /\
     ex = AttributeError "'NoneType' object has no attribute 'group'").

(** The request was answered with a response object. *)
Definition returns_response (r : http_result) : Prop := exists body, r = GetReturns body.

Definition printed_line (e : event) : option string :=
  match e with
  | EvPrint line => Some line
  | _ => None
  end.

(** The lines printed during a run, in order. *)
Definition printed (evs : list event) : list string := omap printed_line evs.

Definition closed_response (e : event) : option nat :=
  match e with
  | EvClose request_no => Some request_no
  | _ => None
  end.

(** The responses closed during a run, by the number of their request. *)
Definition closed (evs : list event) : list nat := omap closed_response evs.

(** The events of one update of [self] from the world [w]. *)
Definition update_events_of (env : Env) (session : Session.t) (self : Airport.t) (w : World)
    : list event :=
  events_since w (after (Airport.update_flight_category env session) (self, w)).2.

(** An airport neither of whose stations the sample service knows. *)
Definition sample_airport_down : Airport.t :=
  Airport.mk "KDWN" (RGBLED.mk (LEDDriverBoard.mk i2c0 0x59) 0 1 2) FlightCategory.IFR "KOFF".

(** A service that answers the first request with a body that has no
    marker and fails the second. *)
Definition flaky_session : Session.t :=
  Session.mk (λ n url, if decide (n = 0%nat) then GetReturns (inr "<response/>")
                       else GetRaises "timed out").

(** The events of one connection attempt: the indicator on every LED, the
    notice, the attempt, and what follows it. *)
Definition attempt_events (airports : list Airport.t) (vr vg vb : Z) (attempt : Z)
    (ending : list event) : list event :=
  show_color_writes airports vr vg vb
  ++ [EvPrint (attempt_line attempt); EvWifiConnect] ++ ending.

(** The events of the failed attempts numbered [attempts]. *)
Definition failed_attempt_events (airports : list Airport.t) (vr vg vb : Z)
    (attempts : list Z) : list event :=
  attempt ← attempts; attempt_events airports vr vg vb attempt [EvSleep 1].

(** The three channel values [set_color] writes for [color]. *)
Definition channel_values (color : Z) (brightness : float) (vr vg vb : Z) : Prop :=
  PyFloat.int_of_product (Z.shiftr color 16) brightness = Ok vr /\
  PyFloat.int_of_product (Z.shiftr (Z.land color 0x00FF00) 8) brightness = Ok vg /\
  PyFloat.int_of_product (Z.land color 0x0000FF) brightness = Ok vb.

(** A radio that fails twice to connect and then breaks down. *)
Definition broken_radio_env : Env :=
  mkEnv PyFloat.one
    (λ n, if decide (n < 2)%nat then Raise ConnectionError else Raise (OSError "radio error"))
    (config_file sample_config) sample_session.

(** The configuration line describes [airport] on the registry: it has
    seven fields or more, the numeric ones parse, the second and third
    name a registered board, which hosts the LED, and the airport starts
    Unknown. *)
Definition describes (board_manager : BoardManager.t) (line : string) (airport : Airport.t)
    : Prop :=
  exists code ci addr r g b alt extra i a,
    split line = code :: ci :: addr :: r :: g :: b :: alt :: extra /\
    py_int 10 ci = Ok i /\ py_int 16 addr = Ok a /\
    BoardManager.get_board board_manager i a
    = Ok (Some (RGBLED.host (Airport.led airport))) /\
    py_int 10 r = Ok (RGBLED.red_pin_num (Airport.led airport)) /\
    py_int 10 g = Ok (RGBLED.green_pin_num (Airport.led airport)) /\
    py_int 10 b = Ok (RGBLED.blue_pin_num (Airport.led airport)) /\
    Airport.airport_code airport = code /\
    Airport.alternate airport = alt /\
    Airport.flight_category airport = FlightCategory.UNKNOWN.


(** [a'] is the airport [a] with, possibly, another stored category. *)
Definition same_airport (a a' : Airport.t) : Prop :=
  a' = with_category a (Airport.flight_category a').

(** The brightness is not a number or is infinite, as [float("nan")] and
    [float("inf")] are. *)
Definition non_finite (x : float) : Prop :=
  x = S754_nan \/ exists s, x = S754_infinity s.

(** The exception [int(n * x)] raises for a non-finite [x] and a channel
    value [n]. *)
Definition non_finite_error (n : Z) (x : float) : exn :=
  match x with
  | S754_infinity _ => if decide (n = 0) then ValueError else OverflowError
  | _ => ValueError
  end.

Definition of_int_finite (n : Z) : bool :=
  match PyFloat.of_int n with
  | Ok (S754_finite _ _ _) => true
  | _ => false
  end.

(** The string has no line break. *)
Definition single_line (s : string) : Prop :=
  forall a b, s <> a +:+ String "010"%char b.

(** The pattern of [update_flight_category] matches [text] at the position
    after [pre], with [g] for the group: an opening tag, the group on one
    line, a closing tag. *)
Definition matches_at (text pre g post : string) : Prop :=
  text = pre +:+ open_tag +:+ g +:+ close_tag +:+ post /\ single_line g.

(** [of_int] is exact on a channel value: the float is zero, or its
    mantissa, shifted by its exponent, is the value. *)
Definition of_int_exact (n : Z) : bool :=
  match PyFloat.of_int n with
  | Ok (S754_zero _) => n =? 0
  | Ok (S754_finite false m e) => (e <=? 0) && (Z.pos m =? n * 2 ^ (- e))
  | _ => false
  end.

(** The register write carries a value of eight bits. *)
Definition write_in_range (e : event) : Prop :=
  match e with
  | EvSetCurrent _ _ value => 0 <= value <= 255
  | _ => True
  end.

(** From [w] to [w'] the log has grown, and only by events whose register
    writes carry bytes. *)
Definition in_range_since (w w' : World) : Prop :=
  exists evs, log w' = log w ++ evs /\ Forall write_in_range evs.

(** No character of the string is whitespace. *)
Definition no_space (s : string) : Prop :=
  forall a c b, s = a +:+ String c b -> is_space c = false.

(** A field of a line: not empty and without whitespace. *)
Definition is_field (s : string) : Prop := s <> "" /\ no_space s.

(** Every character of the string is an ASCII character. *)
Fixpoint is_ascii (s : string) : bool :=
  match s with
  | EmptyString => true
  | String c rest => (code_of c <? 128) && is_ascii rest
  end.





(** * Proofs *)

(** ** Rounding of small products

    Facts about the rounding function of [SpecFloat], for any binary
    format: what a right shift does to a mantissa, and that rounding a
    number of small magnitude cannot overflow. *)
Section RoundingBounds.
Variables prec emax : Z.

Lemma digits2_pos_bounds (m : positive) :
  2 ^ (Z.pos (digits2_pos m) - 1) <= Z.pos m < 2 ^ Z.pos (digits2_pos m).
Proof.
  induction m as [m IH | m IH |]; cbn [digits2_pos].
  - rewrite Pos2Z.inj_succ.
    replace (Z.succ (Z.pos (digits2_pos m)) - 1) with (Z.succ (Z.pos (digits2_pos m) - 1)) by lia.
    rewrite !Z.pow_succ_r by lia. lia.
  - rewrite Pos2Z.inj_succ.
    replace (Z.succ (Z.pos (digits2_pos m)) - 1) with (Z.succ (Z.pos (digits2_pos m) - 1)) by lia.
    rewrite !Z.pow_succ_r by lia. lia.
  - cbn. lia.
Qed.

Lemma Zdigits2_nonneg (m : Z) : 0 <= Zdigits2 m.
Proof. destruct m; cbn; lia. Qed.

Lemma Zdigits2_le_iff (m k : Z) :
  0 <= m -> 0 <= k -> Zdigits2 m <= k <-> m < 2 ^ k.
Proof.
  intros Hm Hk. destruct m as [| p | p]; cbn [Zdigits2]; try lia.
  pose proof (digits2_pos_bounds p) as [Hlo Hhi]. split; intros H.
  - eapply Z.lt_le_trans; [exact Hhi |]. apply Z.pow_le_mono_r; lia.
  - assert (2 ^ (Z.pos (digits2_pos p) - 1) < 2 ^ k) as Hlt by lia.
    apply Z.pow_lt_mono_r_iff in Hlt; lia.
Qed.

Lemma iter_pos_nat {A} (f : A -> A) (p : positive) (x : A) :
  SpecFloat.iter_pos f p x = Nat.iter (Pos.to_nat p) f x.
Proof.
  revert x. induction p as [p IH | p IH |]; intros x; cbn [SpecFloat.iter_pos].
  - rewrite !IH, Pos2Nat.inj_xI.
    replace (S (2 * Pos.to_nat p)) with (Pos.to_nat p + (Pos.to_nat p + 1))%nat by lia.
    now rewrite !Nat.iter_add.
  - rewrite !IH, Pos2Nat.inj_xO.
    replace (2 * Pos.to_nat p)%nat with (Pos.to_nat p + Pos.to_nat p)%nat by lia.
    now rewrite Nat.iter_add.
  - reflexivity.
Qed.

Lemma shr_1_m (mrs : shr_record) :
  0 <= shr_m mrs -> shr_m (shr_1 mrs) = shr_m mrs / 2.
Proof.
  destruct mrs as [m r s]; cbn [shr_m shr_1]. intros Hm.
  destruct m as [| [p | p |] | p]; cbn [shr_m]; try lia;
    try reflexivity.
  - apply (Z.div_unique _ _ _ 1); lia.
  - apply (Z.div_unique _ _ _ 0); lia.
Qed.

Lemma shr_iter_m (n : nat) (mrs : shr_record) :
  0 <= shr_m mrs ->
  shr_m (Nat.iter n shr_1 mrs) = shr_m mrs / 2 ^ Z.of_nat n.
Proof.
  intros Hm. induction n as [| n IH].
  - cbn. now rewrite Z.div_1_r.
  - change (Nat.iter (S n) shr_1 mrs) with (shr_1 (Nat.iter n shr_1 mrs)).
    rewrite shr_1_m.
    + rewrite IH, Nat2Z.inj_succ, Z.pow_succ_r by lia.
      rewrite Z.div_div by (try apply Z.pow_pos_nonneg; lia).
      f_equal. lia.
    + rewrite IH. apply Z.div_pos; [lia | apply Z.pow_pos_nonneg; lia].
Qed.

(** Mantissa and exponent produced by one call of [shr_fexp]. *)
Lemma shr_fexp_m (m e : Z) (l : location) :
  0 <= m ->
  let n := fexp prec emax (Zdigits2 m + e) - e in
  shr_m (fst (shr_fexp prec emax m e l)) = m / 2 ^ Z.max 0 n /\
  snd (shr_fexp prec emax m e l) = e + Z.max 0 n.
Proof.
  intros Hm n. unfold shr_fexp. fold n.
  assert (shr_m (shr_record_of_loc m l) = m) as Hrec
    by (destruct l as [| []]; reflexivity).
  destruct n as [| p | p] eqn:Hn; cbn [shr fst snd].
  - rewrite Hrec. cbn. rewrite Z.div_1_r. lia.
  - rewrite iter_pos_nat, shr_iter_m by lia.
    rewrite Hrec, positive_nat_Z. rewrite Z.max_r by lia. lia.
  - rewrite Hrec. cbn. rewrite Z.div_1_r. lia.
Qed.

Lemma round_nearest_even_bounds (m : Z) (l : location) :
  m <= round_nearest_even m l <= m + 1.
Proof. destruct l as [| []]; cbn; try destruct (Z.even m); lia. Qed.

Lemma fexp_le (x : Z) :
  2 <= emax -> x <= emax -> fexp prec emax x <= emax - prec.
Proof. unfold fexp, emin. lia. Qed.

Lemma div_pow2_digits (m s : Z) :
  0 <= m -> 0 <= s ->
  m / 2 ^ s < 2 ^ Z.max 0 (Zdigits2 m - s).
Proof.
  intros Hm Hs.
  assert (m < 2 ^ Zdigits2 m) as Hlt
    by (apply Zdigits2_le_iff; [lia | apply Zdigits2_nonneg | lia]).
  pose proof (Zdigits2_nonneg m) as Hd.
  assert (0 < 2 ^ s) as Hpos by (apply Z.pow_pos_nonneg; lia).
  destruct (Z.le_gt_cases s (Zdigits2 m)) as [Hle | Hgt].
  - rewrite Z.max_r by lia. apply Z.div_lt_upper_bound; [lia |].
    rewrite <- Z.pow_add_r by lia.
    now replace (s + (Zdigits2 m - s)) with (Zdigits2 m) by lia.
  - rewrite Z.max_l by lia. rewrite Z.div_small; [cbn; lia |].
    split; [lia |]. eapply Z.lt_le_trans; [exact Hlt |].
    apply Z.pow_le_mono_r; lia.
Qed.

(** A product whose magnitude is far below the overflow threshold rounds
    to zero or to a finite float, never to an infinity or a NaN. *)
Lemma binary_round_aux_finite (sx : bool) (M : positive) (E B : Z) :
  0 < prec -> 2 <= emax ->
  E <= emax - prec ->
  Z.pos (digits2_pos M) + E <= B -> B < emax ->
  binary_round_aux prec emax sx (Z.pos M) E loc_Exact = S754_zero sx \/
  exists m e, binary_round_aux prec emax sx (Z.pos M) E loc_Exact = S754_finite sx m e.
Proof.
  intros Hprec Hemax HE HD HB. unfold binary_round_aux.
  pose proof (shr_fexp_m (Z.pos M) E loc_Exact) as H1.
  destruct (shr_fexp prec emax (Z.pos M) E loc_Exact) as [mrs1 e1].
  cbn [fst snd] in H1. destruct H1 as [Hm1 He1]; [lia |].
  set (s := Z.max 0 (fexp prec emax (Zdigits2 (Z.pos M) + E) - E)) in *.
  set (m1 := round_nearest_even (shr_m mrs1) (loc_of_shr_record mrs1)).
  pose proof (round_nearest_even_bounds (shr_m mrs1) (loc_of_shr_record mrs1)) as Hr.
  fold m1 in Hr.
  assert (0 <= s) as Hs by (unfold s; lia).
  assert (0 <= shr_m mrs1) as Hm1pos
    by (rewrite Hm1; apply Z.div_pos; [lia | apply Z.pow_pos_nonneg; lia]).
  assert (e1 <= emax - prec) as He1le.
  { rewrite He1. unfold s.
    pose proof (fexp_le (Zdigits2 (Z.pos M) + E)) as Hf. cbn [Zdigits2] in *. lia. }
  assert (Zdigits2 m1 + e1 <= emax) as Hd1.
  { pose proof (div_pow2_digits (Z.pos M) s) as Hdiv.
    set (k := Z.max 0 (Zdigits2 (Z.pos M) - s)) in *.
    assert (Zdigits2 m1 <= k + 1) as Hk.
    { apply Zdigits2_le_iff; [lia | unfold k; lia |].
      rewrite Z.pow_add_r by (unfold k; lia). rewrite Hm1 in Hr.
      change (2 ^ 1) with 2. lia. }
    unfold k in Hk. cbn [Zdigits2] in Hk. lia. }
  pose proof (shr_fexp_m m1 e1 loc_Exact) as H2.
  destruct (shr_fexp prec emax m1 e1 loc_Exact) as [mrs2 e2].
  cbn [fst snd] in H2. destruct H2 as [Hm2 He2]; [lia |].
  assert (0 <= shr_m mrs2) as Hm2pos
    by (rewrite Hm2; apply Z.div_pos; [lia | apply Z.pow_pos_nonneg; lia]).
  destruct (shr_m mrs2) as [| m2 | m2]; [now left | right | lia].
  assert (e2 <= emax - prec) as He2le.
  { rewrite He2. pose proof (fexp_le (Zdigits2 m1 + e1)) as Hf. lia. }
  apply Z.leb_le in He2le. rewrite He2le. eauto.
Qed.

End RoundingBounds.


(** ** Python floats *)

Section PyFloatFacts.
Import PyFloat.

Lemma digits2_pos_mul (a b : positive) :
  Z.pos (digits2_pos (a * b)) <= Z.pos (digits2_pos a) + Z.pos (digits2_pos b).
Proof.
  pose proof (digits2_pos_bounds a) as [_ Ha].
  pose proof (digits2_pos_bounds b) as [_ Hb].
  change (Z.pos (digits2_pos (a * b))) with (Zdigits2 (Z.pos (a * b))).
  apply Zdigits2_le_iff; [lia | lia |].
  rewrite Z.pow_add_r, Pos2Z.inj_mul by lia. nia.
Qed.

Lemma of_int_channel (n : Z) :
  0 <= n <= 255 -> exists x, of_int n = Ok x /\ small_float x = true.
Proof.
  intros Hn.
  assert (forallb of_int_small (seqZ 0 256) = true) as Hall by (vm_compute; reflexivity).
  rewrite forallb_forall in Hall.
  specialize (Hall n). unfold of_int_small in Hall.
  destruct (of_int n) as [x |]; [exists x; split; [done |] | exfalso].
  - apply Hall, list_elem_of_In, elem_of_seqZ. lia.
  - assert (false = true); [| done].
    apply Hall, list_elem_of_In, elem_of_seqZ. lia.
Qed.

Lemma in_unit_interval_cases (x : float) :
  in_unit_interval x ->
  (exists s, x = S754_zero s) \/
  (exists m e, x = S754_finite false m e /\ Z.pos (digits2_pos m) + e <= 1 /\ e <= 0).
Proof.
  intros (q & Hq & H0 & H1). destruct x as [s | s | | s m e]; try done.
  - left. eauto.
  - right. exists m, e. cbn in Hq. injection Hq as <-.
    destruct s.
    { exfalso. destruct e; unfold Qle in H0; cbn in H0; lia. }
    split; [done |]. cbn [cond_Zopp] in *.
    destruct e as [| p | p].
    + unfold Qle in H1. cbn in H1.
      assert (m = 1%positive) as -> by lia. cbn. lia.
    + unfold Qle in H1. cbn in H1.
      assert (0 < 2 ^ Z.pos p) by (apply Z.pow_pos_nonneg; lia).
      assert (2 ^ 1 <= 2 ^ Z.pos p) by (apply Z.pow_le_mono_r; lia).
      change (2 ^ 1) with 2 in *. nia.
    + unfold Qle in H1. cbn in H1. rewrite Pos2Z.inj_pow in H1.
      split; [| lia].
      assert (Zdigits2 (Z.pos m) <= Z.pos p + 1) as Hd.
      { apply Zdigits2_le_iff; [lia | lia |].
        rewrite Z.pow_add_r by lia. change (2 ^ 1) with 2.
        assert (0 < 2 ^ Z.pos p) by (apply Z.pow_pos_nonneg; lia). lia. }
      cbn [Zdigits2] in Hd. lia.
Qed.

Lemma mul_channel (nf x : float) :
  small_float nf = true -> in_unit_interval x -> nonneg_float (mul nf x).
Proof.
  intros Hnf Hx. apply in_unit_interval_cases in Hx.
  destruct nf as [[] | | | [] mn en]; try done.
  - destruct Hx as [[s ->] | (m & e & -> & _)]; left; cbn; eauto.
  - cbn in Hnf. apply andb_true_iff in Hnf as [Hd He].
    apply Z.leb_le in Hd, He.
    destruct Hx as [[s ->] | (m & e & -> & Hdx & Hex)]; [left; cbn; eauto |].
    unfold mul, SFmul. cbn [xorb].
    pose proof (digits2_pos_mul mn m) as Hmul.
    destruct (binary_round_aux_finite prec emax false (mn * m) (en + e) 9)
      as [Hz | (m' & e' & Hf)]; [unfold prec, emax; lia .. | |].
    + left. rewrite Hz. eauto.
    + right. rewrite Hf. eauto.
Qed.

Lemma to_int_nonneg (x : float) :
  nonneg_float x -> exists v, to_int x = Ok v /\ Qfloor <$> value x = Some v.
Proof.
  intros [[s ->] | (m & e & ->)]; cbn [to_int value fmap option_fmap option_map].
  - exists 0. split; reflexivity.
  - exists (Z.shiftl (Z.pos m) e). split; [reflexivity |]. f_equal.
    cbn [cond_Zopp]. destruct e as [| p | p].
    + rewrite Qfloor_Z. rewrite Z.shiftl_mul_pow2; lia.
    + rewrite Qfloor_Z. rewrite Z.shiftl_mul_pow2; lia.
    + change (Z.shiftl (Z.pos m) (Z.neg p)) with (Z.shiftr (Z.pos m) (Z.pos p)).
      rewrite Z.shiftr_div_pow2 by lia. cbn [Qfloor].
      now rewrite Pos2Z.inj_pow.
Qed.

(** For a channel value and a brightness in [[0, 1]], [int(n * x)] does
    not raise and is the floor of the product. *)
Lemma int_of_product_floor (n : Z) (x : float) :
  0 <= n <= 255 -> in_unit_interval x ->
  exists v, int_of_product n x = Ok v /\ floor_of_product n x = Some v.
Proof.
  intros Hn Hx. destruct (of_int_channel n Hn) as (nf & Hnf & Hsmall).
  destruct (to_int_nonneg (mul nf x) (mul_channel nf x Hsmall Hx)) as (v & Hv & Hfl).
  exists v. unfold int_of_product, floor_of_product. rewrite Hnf. cbn. auto.
Qed.

(** The product is the product of floats, rounded to nearest: 3 times
    0.3333333333333333 (the float next below one third) is 1.0, and [int]
    of it is 1. *)
Remark int_of_product_rounds :
  in_unit_interval (S754_finite false 6004799503160661 (-54)) /\
  int_of_product 3 (S754_finite false 6004799503160661 (-54)) = Ok 1 /\
  floor_of_product 3 (S754_finite false 6004799503160661 (-54)) = Some 1.
Proof.
  split; [| split; vm_compute; reflexivity].
  eexists. split; [reflexivity |]. split; unfold Qle; cbn; lia.
Qed.

Lemma in_unit_interval_one : in_unit_interval one.
Proof. eexists. split; [reflexivity |]. split; unfold Qle; cbn; lia. Qed.

Lemma in_unit_interval_half : in_unit_interval half.
Proof. eexists. split; [reflexivity |]. split; unfold Qle; cbn; lia. Qed.

End PyFloatFacts.

(** ** The color policy *)

Lemma from_string_unrecognized (name : string) :
  name ∉ ["UNKNOWN"; "VFR"; "MVFR"; "IFR"; "LIFR"] ->
  FlightCategory.from_string name = FlightCategory.UNKNOWN.
Proof.
  intros Hname. repeat (apply not_elem_of_cons in Hname as [? Hname]).
  unfold FlightCategory.from_string, FlightCategory.str_map.
  rewrite !lookup_insert_ne by done. by rewrite lookup_singleton_ne.
Qed.

Lemma from_string_recognized (name : string) :
  name ∈ ["UNKNOWN"; "VFR"; "MVFR"; "IFR"; "LIFR"] ->
  FlightCategory.from_string name = name.
Proof.
  intros Hname. repeat (apply elem_of_cons in Hname as [-> | Hname]; [reflexivity |]).
  by apply elem_of_nil in Hname.
Qed.

Lemma from_string_value (name : string) :
  FlightCategory.from_string name ∈ FlightCategory.values.
Proof.
  destruct (decide (name ∈ ["UNKNOWN"; "VFR"; "MVFR"; "IFR"; "LIFR"])) as [Hin | Hout].
  - rewrite from_string_recognized by done. exact Hin.
  - rewrite from_string_unrecognized by done. apply elem_of_cons. by left.
Qed.

(** C3. The color policy is total: each of the five flight categories has
    exactly the color of the table (VFR green, MVFR blue, IFR red, LIFR
    purple, Unknown yellow); [from_string] always yields a flight
    category, and a string that is none of UNKNOWN, VFR, MVFR, IFR, LIFR
    parses to Unknown and is therefore shown yellow. *)
Theorem color_policy_total (name : string) :
  (Airport._get_color_from_flight_category FlightCategory.VFR = LEDColors.GREEN /\
   Airport._get_color_from_flight_category FlightCategory.MVFR = LEDColors.BLUE /\
   Airport._get_color_from_flight_category FlightCategory.IFR = LEDColors.RED /\
   Airport._get_color_from_flight_category FlightCategory.LIFR = LEDColors.PURPLE /\
   Airport._get_color_from_flight_category FlightCategory.UNKNOWN = LEDColors.YELLOW) /\
  FlightCategory.from_string name ∈ FlightCategory.values /\
  ((name ∉ ["UNKNOWN"; "VFR"; "MVFR"; "IFR"; "LIFR"]) ->
   FlightCategory.from_string name = FlightCategory.UNKNOWN /\
   Airport._get_color_from_flight_category (FlightCategory.from_string name)
   = LEDColors.YELLOW).
Proof.
  split; [by repeat split |]. split; [apply from_string_value |].
  intros Hname. rewrite from_string_unrecognized by done. by split.
Qed.

Lemma color_policy_total_witness :
  ("SKC" ∉ ["UNKNOWN"; "VFR"; "MVFR"; "IFR"; "LIFR"]) /\
  FlightCategory.from_string "SKC" = FlightCategory.UNKNOWN /\
  Airport._get_color_from_flight_category (FlightCategory.from_string "SKC")
  = LEDColors.YELLOW.
Proof.
  assert ("SKC" ∉ ["UNKNOWN"; "VFR"; "MVFR"; "IFR"; "LIFR"]) as Hname
    by (intros Hin; repeat (apply elem_of_cons in Hin as [Heq | Hin]; [discriminate Heq |]);
        by apply elem_of_nil in Hin).
  split; [exact Hname |].
  exact (proj2 (proj2 (color_policy_total "SKC")) Hname).
Defined.

(** ** Channel decomposition and [set_color] *)

Lemma red_channel (color : Z) :
  0 <= color < 2 ^ 24 ->
  0 <= Z.shiftr color 16 <= 255 /\
  forall i, 0 <= i -> Z.testbit (Z.shiftr color 16) i = (i <? 8) && Z.testbit color (16 + i).
Proof.
  intros Hc. rewrite Z.shiftr_div_pow2 by lia. split.
  - split; [apply Z.div_pos; lia |].
    assert (color / 2 ^ 16 < 256); [| lia].
    apply Z.div_lt_upper_bound; [lia |]. change (2 ^ 16 * 256) with (2 ^ 24). lia.
  - intros i Hi. rewrite <- Z.shiftr_div_pow2, Z.shiftr_spec by lia.
    rewrite (Z.add_comm i 16). destruct (Z.ltb_spec i 8) as [Hlt | Hge]; [done |].
    cbn [andb]. apply (Z.bits_above_log2 color (16 + i)); [lia |].
    destruct (decide (color = 0)) as [-> | Hne]; [cbn; lia |].
    assert (Z.log2 color < 24) by (apply Z.log2_lt_pow2; lia). lia.
Qed.

Lemma mask_bit (i : Z) : 0 <= i -> Z.testbit 0x00FF00 (i + 8) = (i <? 8).
Proof.
  intros Hi. change 0x00FF00 with (Z.shiftl (Z.ones 8) 8).
  rewrite Z.shiftl_spec by lia. replace (i + 8 - 8) with i by lia.
  rewrite Z.testbit_ones by lia.
  destruct (Z.leb_spec 0 i); [done | lia].
Qed.

Lemma green_channel (color : Z) :
  0 <= color ->
  0 <= Z.shiftr (Z.land color 0x00FF00) 8 <= 255 /\
  forall i, 0 <= i ->
    Z.testbit (Z.shiftr (Z.land color 0x00FF00) 8) i = (i <? 8) && Z.testbit color (8 + i).
Proof.
  intros Hc.
  assert (forall i, 0 <= i ->
    Z.testbit (Z.shiftr (Z.land color 0x00FF00) 8) i = (i <? 8) && Z.testbit color (8 + i))
    as Hbits.
  { intros i Hi. rewrite Z.shiftr_spec, Z.land_spec, mask_bit by lia.
    rewrite (Z.add_comm i 8). apply andb_comm. }
  split; [| exact Hbits].
  assert (Z.shiftr (Z.land color 0x00FF00) 8 = Z.land (Z.shiftr color 8) (Z.ones 8)) as ->.
  { apply Z.bits_inj'. intros i Hi. rewrite Hbits by lia.
    rewrite Z.land_spec, Z.shiftr_spec, Z.testbit_ones by lia.
    rewrite (Z.add_comm i 8). destruct (Z.leb_spec 0 i); [| lia]. cbn. apply andb_comm. }
  rewrite Z.land_ones by lia.
  pose proof (Z.mod_pos_bound (Z.shiftr color 8) (2 ^ 8)). lia.
Qed.

Lemma blue_channel (color : Z) :
  0 <= Z.land color 0x0000FF <= 255 /\
  forall i, 0 <= i -> Z.testbit (Z.land color 0x0000FF) i = (i <? 8) && Z.testbit color i.
Proof.
  change (Z.land color 0x0000FF) with (Z.land color (Z.ones 8)). split.
  - rewrite Z.land_ones by lia. pose proof (Z.mod_pos_bound color (2 ^ 8)). lia.
  - intros i Hi. rewrite Z.land_spec, Z.testbit_ones by lia.
    destruct (Z.leb_spec 0 i); [| lia]. cbn. apply andb_comm.
Qed.

(** The three register writes of one [set_color] call. *)
Lemma set_color_run (self : RGBLED.t) (color : Z) (brightness : float) (w : World)
    (vr vg vb : Z) :
  PyFloat.int_of_product (Z.shiftr color 16) brightness = Ok vr ->
  PyFloat.int_of_product (Z.shiftr (Z.land color 0x00FF00) 8) brightness = Ok vg ->
  PyFloat.int_of_product (Z.land color 0x0000FF) brightness = Ok vb ->
  run (RGBLED.set_color self color brightness) w =
  (Ok (), logged w (channel_writes self vr vg vb)).
Proof.
  intros Hr Hg Hb. unfold RGBLED.set_color. cbn. rewrite Hr. cbn. rewrite Hg. cbn.
  rewrite Hb. cbn. unfold logged, channel_writes. by rewrite <- !app_assoc.
Qed.

Lemma set_color_in_range (self : RGBLED.t) (color : Z) (brightness : float) (w : World) :
  0 <= color < 2 ^ 24 ->
  PyFloat.in_unit_interval brightness ->
  exists vr vg vb,
    PyFloat.floor_of_product (Z.shiftr color 16) brightness = Some vr /\
    PyFloat.floor_of_product (Z.shiftr (Z.land color 0x00FF00) 8) brightness = Some vg /\
    PyFloat.floor_of_product (Z.land color 0x0000FF) brightness = Some vb /\
    run (RGBLED.set_color self color brightness) w
    = (Ok (), logged w (channel_writes self vr vg vb)).
Proof.
  intros Hcolor Hbright.
  destruct (red_channel color Hcolor) as [Hr _].
  destruct (green_channel color) as [Hg _]; [lia |].
  destruct (blue_channel color) as [Hb _].
  destruct (int_of_product_floor _ brightness Hr Hbright) as (vr & Hvr & Hfr).
  destruct (int_of_product_floor _ brightness Hg Hbright) as (vg & Hvg & Hfg).
  destruct (int_of_product_floor _ brightness Hb Hbright) as (vb & Hvb & Hfb).
  exists vr, vg, vb. split_and!; try done. by apply set_color_run.
Qed.

(** ** Running computations *)

Lemma run_bind {S A B} (m : M S A) (k : A -> M S B) (s : S) :
  run (m ≫= k) s = match run m s with
                   | (Ok a, s') => run (k a) s'
                   | (Raise e, s') => (Raise e, s')
                   end.
Proof. reflexivity. Qed.

Lemma run_ret {S A} (a : A) (s : S) : run (mret a : M S A) s = (Ok a, s).
Proof. reflexivity. Qed.

Lemma run_emit (e : event) (w : World) : run (emit e) w = (Ok (), logged w [e]).
Proof. reflexivity. Qed.

Lemma run_print (line : string) (w : World) :
  run (print line) w = (Ok (), logged w [EvPrint line]).
Proof. reflexivity. Qed.

Lemma run_sleep (seconds : Z) (w : World) :
  run (sleep seconds) w = (Ok (), logged w [EvSleep seconds]).
Proof. reflexivity. Qed.

Lemma run_raise {S A} (e : exn) (s : S) : run (raise e : M S A) s = (Raise e, s).
Proof. reflexivity. Qed.

Lemma run_try {S A} (m : M S A) (s : S) : run (try_ m) s = (Ok (run m s).1, (run m s).2).
Proof. cbn. by destruct (run m s). Qed.

Lemma logged_logged (w : World) (evs evs' : list event) :
  logged (logged w evs) evs' = logged w (evs ++ evs').
Proof. unfold logged. cbn. by rewrite app_assoc. Qed.

Lemma logged_nil (w : World) : logged w [] = w.
Proof. unfold logged. rewrite app_nil_r. by destruct w. Qed.

Lemma run_in_world {T A} (m : M World A) (t : T) (w : World) :
  run (in_world m) (t, w) = ((run m w).1, (t, (run m w).2)).
Proof. cbn. by destruct (run m w). Qed.

Lemma run_get_self {T} (t : T) (w : World) : run get_self (t, w) = (Ok t, (t, w)).
Proof. reflexivity. Qed.

Lemma run_set_self {T} (t t' : T) (w : World) : run (set_self t') (t, w) = (Ok (), (t', w)).
Proof. reflexivity. Qed.

(** One step of symbolic execution of a computation. *)
Ltac run_simpl :=
  repeat first
    [ rewrite run_bind | rewrite run_ret | rewrite run_in_world | rewrite run_print
    | rewrite run_sleep | rewrite run_emit | rewrite run_try | rewrite run_raise
    | rewrite run_get_self | rewrite run_set_self | rewrite logged_logged
    | progress cbn [fst snd] ].

(** ** Logs *)

Lemma events_since_app (w : World) (evs : list event) (h n : nat) :
  events_since w (mkWorld (log w ++ evs) h n) = evs.
Proof. unfold events_since. cbn. by rewrite drop_app_length. Qed.

Lemma events_since_logged (w : World) (evs : list event) :
  events_since w (logged w evs) = evs.
Proof. apply events_since_app. Qed.

Lemma events_since_refl (w : World) : events_since w w = [].
Proof. unfold events_since. by rewrite drop_all. Qed.

(** Whatever its outcome, [set_color] only adds register writes. *)
Lemma set_color_adds_writes (self : RGBLED.t) (color : Z) (brightness : float) (w : World) :
  exists evs, (run (RGBLED.set_color self color brightness) w).2 = logged w evs /\
              Forall (λ e, is_set_current e = true) evs.
Proof.
  unfold RGBLED.set_color. cbn.
  destruct (PyFloat.int_of_product _ brightness) as [vr |]; cbn;
    [| exists []; unfold logged; rewrite app_nil_r; by destruct w].
  destruct (PyFloat.int_of_product _ brightness) as [vg |]; cbn;
    [| eexists [_]; unfold logged; cbn; split; [done | by repeat constructor]].
  destruct (PyFloat.int_of_product _ brightness) as [vb |]; cbn.
  - eexists [_; _; _]. unfold logged. cbn. rewrite <- !app_assoc. cbn.
    split; [done | by repeat constructor].
  - eexists [_; _]. unfold logged. cbn. rewrite <- !app_assoc. cbn.
    split; [done | by repeat constructor].
Qed.

Lemma policy_color_range (category : FlightCategory.t) :
  0 <= Airport._get_color_from_flight_category category < 2 ^ 24.
Proof.
  unfold Airport._get_color_from_flight_category.
  destruct (Airport.color_map !! category) as [v |] eqn:Hv; cbn; [| done].
  unfold Airport.color_map in Hv.
  repeat (apply lookup_insert_Some in Hv as [[_ <-] | [_ Hv]]; [done |]).
  by apply lookup_singleton_Some in Hv as [_ <-].
Qed.

(** With a brightness in [[0, 1]], showing a 24-bit color cannot fail. *)
Lemma set_color_ok (self : RGBLED.t) (color : Z) (brightness : float) (w : World) :
  0 <= color < 2 ^ 24 -> PyFloat.in_unit_interval brightness ->
  exists vr vg vb,
    run (RGBLED.set_color self color brightness) w
    = (Ok (), logged w (channel_writes self vr vg vb)).
Proof.
  intros Hc Hb.
  destruct (set_color_in_range self color brightness w Hc Hb)
    as (vr & vg & vb & _ & _ & _ & Hrun).
  eauto.
Qed.

(** ** The fallback chain of [update_flight_category] *)

Lemma fetch_run (session : Session.t) (code : string) (resp : option Response.t) (w : World) :
  let r := Session.responses session (http_n w) (metar_url code) in
  run (Airport.fetch session code resp) w =
  (Ok (response_of r (http_n w) resp, category_of_response r),
   mkWorld (log w ++ [EvHttpGet (metar_url code)]) (S (http_n w)) (wifi_n w)).
Proof.
  unfold Airport.fetch. cbn.
  by destruct (Session.responses session (http_n w) (metar_url code)) as [msg | [msg | text]].
Qed.

Lemma category_of_response_Exception (r : http_result) (e : exn) :
  category_of_response r = Raise e -> is_Exception e = true.
Proof.
  destruct r as [msg | [msg | text]]; cbn; [by intros [= <-] .. |].
  destruct (re_search_flight_category text); [done | by intros [= <-]].
Qed.

Lemma close_if_run (resp : option Response.t) (w : World) :
  run (Airport.close_if resp) w = (Ok (), logged w (closes resp)).
Proof.
  destruct resp as [r |]; cbn; [done |].
  unfold logged. rewrite app_nil_r. by destruct w.
Qed.

Lemma primary_failed_iff (r : http_result) :
  primary_failed r <->
  category_of_response r = Ok FlightCategory.UNKNOWN \/
  exists e, category_of_response r = Raise e.
Proof.
  unfold primary_failed. split.
  - intros [[msg ->] | [[msg ->] | [(text & -> & Hs) | (text & g & -> & Hs & Hg)]]]; cbn.
    + right. eauto.
    + right. eauto.
    + rewrite Hs. right. eauto.
    + rewrite Hs, Hg. by left.
  - destruct r as [msg | [msg | text]]; cbn; [eauto | eauto |].
    destruct (re_search_flight_category text) as [g |] eqn:Hs.
    + intros [[= Hg] | [e [=]]]. right. right. right. eauto.
    + intros _. right. right. left. eauto.
Qed.

Lemma primary_recognized_iff (r : http_result) (c : FlightCategory.t) :
  primary_recognized r c <->
  category_of_response r = Ok c /\ c <> FlightCategory.UNKNOWN.
Proof.
  unfold primary_recognized. split.
  - intros (text & g & -> & Hs & <- & Hc). cbn. by rewrite Hs.
  - intros [Hr Hc]. destruct r as [msg | [msg | text]]; cbn in Hr; try done.
    destruct (re_search_flight_category text) as [g |] eqn:Hs; [| done].
    injection Hr as <-. eauto 6.
Qed.

Lemma primary_failed_or_recognized (r : http_result) :
  primary_failed r \/ exists c, primary_recognized r c.
Proof.
  destruct (category_of_response r) as [c | e] eqn:Hr.
  - destruct (decide (c = FlightCategory.UNKNOWN)) as [-> | Hc].
    + left. apply primary_failed_iff. by left.
    + right. exists c. by apply primary_recognized_iff.
  - left. apply primary_failed_iff. eauto.
Qed.

Lemma primary_failed_not_recognized (r : http_result) (c : FlightCategory.t) :
  primary_failed r -> primary_recognized r c -> False.
Proof.
  intros Hf%primary_failed_iff [Hr Hc]%primary_recognized_iff.
  destruct Hf as [Hf | [e Hf]]; congruence.
Qed.


Section Resolve.
Context (self : Airport.t) (session : Session.t) (w : World).

Let n : nat := http_n w.
Let primary : http_result :=
  Session.responses session n (metar_url (Airport.airport_code self)).
Let alternate : http_result :=
  Session.responses session (S n) (metar_url (Airport.alternate self)).

(** The primary answer is a recognized category: one request, one close. *)
Lemma resolve_primary_recognized (c : FlightCategory.t) :
  primary_recognized primary c ->
  run (Airport.resolve_flight_category self session) w =
  (Ok c, mkWorld (log w ++ [EvHttpGet (metar_url (Airport.airport_code self)); EvClose n])
           (S n) (wifi_n w)).
Proof.
  intros [Hr Hc]%primary_recognized_iff.
  unfold Airport.resolve_flight_category. rewrite run_bind, fetch_run.
  fold n primary. rewrite Hr. cbn [mbind outcome_bind].
  rewrite decide_False by done. rewrite run_bind, close_if_run, run_ret.
  destruct primary as [msg | body]; [done |]. unfold logged. cbn.
  by rewrite <- app_assoc.
Qed.

(** The primary attempt failed: the alternate is queried and decides. *)
Lemma resolve_primary_failed :
  primary_failed primary ->
  run (Airport.resolve_flight_category self session) w =
  (Ok (alternate_category alternate),
   mkWorld (log w ++ alternate_events self primary alternate n) (S (S n)) (wifi_n w)).
Proof.
  intros Hf%primary_failed_iff.
  unfold Airport.resolve_flight_category. rewrite run_bind, fetch_run.
  fold n primary.
  assert (exists ex, (category_of_response primary ≫= λ c : FlightCategory.t,
            if decide (c = FlightCategory.UNKNOWN) then Raise BareException else Ok c)
          = Raise ex /\ is_Exception ex = true) as (ex & -> & Hex).
  { destruct Hf as [-> | [e He]].
    - exists BareException. by cbn.
    - exists e. rewrite He. split; [done |]. by eapply category_of_response_Exception. }
  rewrite Hex. rewrite run_bind, close_if_run.
  unfold print. rewrite run_bind, run_emit, run_bind, fetch_run.
  cbn [logged log http_n wifi_n]. fold n alternate.
  unfold alternate_category, alternate_events.
  destruct (category_of_response alternate) as [c | ex2] eqn:Halt.
  - rewrite run_bind, close_if_run, run_ret.
    unfold logged, trying_alternate_line. cbn. by rewrite <- !app_assoc.
  - rewrite (category_of_response_Exception _ _ Halt).
    rewrite run_bind, run_emit, run_bind, close_if_run, run_ret.
    unfold logged, trying_alternate_line, error_line. cbn. by rewrite <- !app_assoc.
Qed.

(** The fallback chain never raises and never touches the LEDs. *)
Lemma resolve_total :
  exists c evs h,
    run (Airport.resolve_flight_category self session) w
    = (Ok c, mkWorld (log w ++ evs) h (wifi_n w)) /\
    hardware_writes evs = [].
Proof.
  destruct (primary_failed_or_recognized primary) as [Hf | [c Hc]].
  - eexists _, _, _. split; [by apply resolve_primary_failed |].
    unfold alternate_events, hardware_writes, closes.
    destruct (response_of primary n None), (category_of_response alternate),
      (response_of alternate (S n) _); reflexivity.
  - eexists _, _, _. split; [by apply resolve_primary_recognized | reflexivity].
Qed.
End Resolve.

(** ** [update_flight_category] *)

Section Update.
Context (env : Env) (session : Session.t).

(** The comparison with the stored category, after the chain resolved
    to [c]. *)
Lemma update_run (self : Airport.t) (w w1 : World) (c : FlightCategory.t) :
  run (Airport.resolve_flight_category self session) w = (Ok c, w1) ->
  run (Airport.update_flight_category env session) (self, w) =
  if decide (c = Airport.flight_category self)
  then (Ok (), (self, w1))
  else ((run (RGBLED.set_color (Airport.led self)
                (Airport._get_color_from_flight_category c) (LED_BRIGHTNESS env)) w1).1,
        (with_category self c,
         (run (RGBLED.set_color (Airport.led self)
                 (Airport._get_color_from_flight_category c) (LED_BRIGHTNESS env)) w1).2)).
Proof.
  intros Hres. unfold Airport.update_flight_category.
  rewrite run_bind, run_get_self, run_bind, run_in_world, Hres. cbn [fst snd].
  destruct (decide (c = Airport.flight_category self)) as [-> | Hne].
  - rewrite decide_False by tauto. by rewrite run_ret.
  - rewrite decide_True by done. by rewrite run_bind, run_set_self, run_in_world.
Qed.

(** The events of an update: those of the fallback chain, then register
    writes only. *)
Lemma update_events (self : Airport.t) (w : World) :
  exists c h evs1 evs2,
    run (Airport.resolve_flight_category self session) w
    = (Ok c, mkWorld (log w ++ evs1) h (wifi_n w)) /\
    hardware_writes evs1 = [] /\
    (after (Airport.update_flight_category env session) (self, w)).2
    = mkWorld (log w ++ evs1 ++ evs2) h (wifi_n w) /\
    Forall (λ e, is_set_current e = true) evs2.
Proof.
  destruct (resolve_total self session w) as (c & evs1 & h & Hres & Hw).
  exists c, h, evs1. unfold after. rewrite (update_run _ _ _ _ Hres).
  destruct (decide (c = Airport.flight_category self)).
  - exists []. by rewrite app_nil_r.
  - destruct (set_color_adds_writes (Airport.led self)
                (Airport._get_color_from_flight_category c) (LED_BRIGHTNESS env)
                (mkWorld (log w ++ evs1) h (wifi_n w))) as (evs2 & Hevs2 & Hall).
    exists evs2. cbn [snd]. rewrite Hevs2. unfold logged. cbn.
    by rewrite app_assoc.
Qed.

Lemma requests_in_writes (evs : list event) :
  Forall (λ e, is_set_current e = true) evs -> requests_in evs = [].
Proof.
  induction 1 as [| e evs He _ IH]; [done |].
  unfold requests_in in *. cbn. by destruct e.
Qed.

Lemma requests_in_app (evs evs' : list event) :
  requests_in (evs ++ evs') = requests_in evs ++ requests_in evs'.
Proof. apply List.filter_app. Qed.

Lemma requests_in_alternate_events (self : Airport.t) (primary alternate : http_result)
    (n : nat) :
  requests_in (alternate_events self primary alternate n)
  = [EvHttpGet (metar_url (Airport.airport_code self));
     EvHttpGet (metar_url (Airport.alternate self))].
Proof.
  unfold alternate_events, closes.
  by destruct (response_of primary n None), (category_of_response alternate),
    (response_of alternate (S n) _).
Qed.

(** C1. The alternate airport code is queried if and only if the primary
    attempt failed (the request raised, the body has no flight-category
    marker, or the marked text parses to Unknown): the requests of an
    update are the primary one followed by the alternate one exactly in
    that case, and the primary one alone exactly when the primary answer
    is a recognized category other than Unknown. *)
Theorem alternate_queried_iff_primary_failed (self : Airport.t) (w : World) :
  (requests_in
     (events_since w (after (Airport.update_flight_category env session) (self, w)).2)
   = [EvHttpGet (metar_url (Airport.airport_code self));
      EvHttpGet (metar_url (Airport.alternate self))]
   <-> primary_failed
         (Session.responses session (http_n w) (metar_url (Airport.airport_code self)))) /\
  (requests_in
     (events_since w (after (Airport.update_flight_category env session) (self, w)).2)
   = [EvHttpGet (metar_url (Airport.airport_code self))]
   <-> exists c, primary_recognized
         (Session.responses session (http_n w) (metar_url (Airport.airport_code self))) c).
Proof.
  destruct (update_events self w) as (c & h & evs1 & evs2 & Hres & _ & -> & Hall).
  rewrite events_since_app, requests_in_app, (requests_in_writes evs2 Hall), app_nil_r.
  set (primary := Session.responses session (http_n w) _).
  destruct (primary_failed_or_recognized primary) as [Hf | [c' Hc']].
  - pose proof (resolve_primary_failed self session w Hf) as Hres'.
    rewrite Hres in Hres'. injection Hres' as _ Hevs _.
    apply app_inv_head in Hevs as ->. rewrite requests_in_alternate_events.
    split; split; try done.
    intros [c' Hc']. by destruct (primary_failed_not_recognized primary c').
  - pose proof (resolve_primary_recognized self session w c' Hc') as Hres'.
    rewrite Hres in Hres'. injection Hres' as _ Hevs _.
    apply app_inv_head in Hevs as ->. cbn.
    split; split; try done; [| eauto].
    intros Hf. by destruct (primary_failed_not_recognized primary c').
Qed.

Lemma hardware_writes_app (evs evs' : list event) :
  hardware_writes (evs ++ evs') = hardware_writes evs ++ hardware_writes evs'.
Proof. apply List.filter_app. Qed.

Lemma hardware_writes_channel_writes (led : RGBLED.t) (vr vg vb : Z) :
  hardware_writes (channel_writes led vr vg vb) = channel_writes led vr vg vb.
Proof. reflexivity. Qed.

(** One update under a brightness in [[0, 1]]: it returns, stores the
    resolved category, and writes the LED exactly when the category
    changed. *)
Lemma update_once (self : Airport.t) (w : World) :
  PyFloat.in_unit_interval (LED_BRIGHTNESS env) ->
  exists c w1 w',
    run (Airport.resolve_flight_category self session) w = (Ok c, w1) /\
    run (Airport.update_flight_category env session) (self, w)
    = (Ok (), (with_category self c, w')) /\
    (c = Airport.flight_category self ->
     w' = w1 /\ hardware_writes (events_since w w') = []) /\
    (c <> Airport.flight_category self ->
     exists vr vg vb,
       PyFloat.floor_of_product
         (Z.shiftr (Airport._get_color_from_flight_category c) 16)
         (LED_BRIGHTNESS env) = Some vr /\
       PyFloat.floor_of_product
         (Z.shiftr (Z.land (Airport._get_color_from_flight_category c) 0x00FF00) 8)
         (LED_BRIGHTNESS env) = Some vg /\
       PyFloat.floor_of_product
         (Z.land (Airport._get_color_from_flight_category c) 0x0000FF)
         (LED_BRIGHTNESS env) = Some vb /\
       w' = logged w1 (channel_writes (Airport.led self) vr vg vb) /\
       hardware_writes (events_since w w') = channel_writes (Airport.led self) vr vg vb).
Proof.
  intros Hb. destruct (resolve_total self session w) as (c & evs1 & h & Hres & Hw).
  exists c, (mkWorld (log w ++ evs1) h (wifi_n w)).
  rewrite (update_run _ _ _ _ Hres).
  destruct (decide (c = Airport.flight_category self)) as [-> | Hne].
  - eexists. split_and!; try done; [by destruct self |].
    intros _. by rewrite events_since_app.
  - destruct (set_color_in_range (Airport.led self)
                (Airport._get_color_from_flight_category c) (LED_BRIGHTNESS env)
                (mkWorld (log w ++ evs1) h (wifi_n w)) (policy_color_range c) Hb)
      as (vr & vg & vb & Hr & Hg & Hbl & Hrun).
    rewrite Hrun. cbn [fst snd]. eexists. split_and!; try done.
    intros _. exists vr, vg, vb. split_and!; try done.
    unfold logged. cbn [fst snd log http_n wifi_n]. rewrite <- app_assoc, events_since_app.
    by rewrite hardware_writes_app, Hw.
Qed.

(** C2. Two updates in succession, the service reporting the same
    category [c] both times: both return; the first one performs exactly
    one hardware write (the three channel values of the color of [c]) if
    [c] differs from the stored category and none if it equals it; the
    second one performs no hardware write. *)
Theorem repeated_update_writes_once (self : Airport.t) (w : World) (c : FlightCategory.t) :
  PyFloat.in_unit_interval (LED_BRIGHTNESS env) ->
  result (Airport.resolve_flight_category self session) w = Ok c ->
  result (Airport.resolve_flight_category
            (after (Airport.update_flight_category env session) (self, w)).1 session)
    (after (Airport.update_flight_category env session) (self, w)).2 = Ok c ->
  exists self1 w1 self2 w2,
    run (Airport.update_flight_category env session) (self, w) = (Ok (), (self1, w1)) /\
    run (Airport.update_flight_category env session) (self1, w1) = (Ok (), (self2, w2)) /\
    (c = Airport.flight_category self -> hardware_writes (events_since w w1) = []) /\
    (c <> Airport.flight_category self ->
     exists vr vg vb,
       PyFloat.floor_of_product
         (Z.shiftr (Airport._get_color_from_flight_category c) 16)
         (LED_BRIGHTNESS env) = Some vr /\
       PyFloat.floor_of_product
         (Z.shiftr (Z.land (Airport._get_color_from_flight_category c) 0x00FF00) 8)
         (LED_BRIGHTNESS env) = Some vg /\
       PyFloat.floor_of_product
         (Z.land (Airport._get_color_from_flight_category c) 0x0000FF)
         (LED_BRIGHTNESS env) = Some vb /\
       hardware_writes (events_since w w1) = channel_writes (Airport.led self) vr vg vb) /\
    hardware_writes (events_since w1 w2) = [] /\
    Airport.flight_category self1 = c /\ Airport.flight_category self2 = c.
Proof.
  intros Hb Hc1 Hc2.
  destruct (update_once self w Hb) as (c1 & wr & w1 & Hres1 & Hrun1 & Heq1 & Hne1).
  unfold result in Hc1. rewrite Hres1 in Hc1. injection Hc1 as ->.
  unfold after in Hc2. rewrite Hrun1 in Hc2. cbn [fst snd] in Hc2.
  destruct (update_once (with_category self c) w1 Hb)
    as (c2 & wr2 & w2 & Hres2 & Hrun2 & Heq2 & _).
  unfold result in Hc2. rewrite Hres2 in Hc2. injection Hc2 as ->.
  destruct (Heq2 eq_refl) as [-> Hw2].
  exists (with_category self c), w1, (with_category (with_category self c) c), wr2.
  split_and!; try done.
  - intros Hc. by destruct (Heq1 Hc).
  - intros Hc. destruct (Hne1 Hc) as (vr & vg & vb & Hr & Hg & Hbl & _ & Hw).
    by exists vr, vg, vb.
Qed.

Lemma error_line_not_trying (self : Airport.t) (ex : exn) :
  error_line self ex <> trying_alternate_line self.
Proof. unfold error_line, trying_alternate_line. cbn. discriminate. Qed.

(** C10. The primary attempt failed and the alternate request returns a
    body whose marker text is none of the five recognized strings: the
    chain resolves to Unknown with the events request, close of the
    primary response if there is one, the fallback notice, request and
    close, so without error line and without a third request; the update
    returns, stores Unknown, and writes the LED (yellow) exactly when the
    stored category was not already Unknown. *)
Theorem unrecognized_alternate_resolves_unknown
    (self : Airport.t) (w : World) (text group1 : string) :
  PyFloat.in_unit_interval (LED_BRIGHTNESS env) ->
  primary_failed
    (Session.responses session (http_n w) (metar_url (Airport.airport_code self))) ->
  Session.responses session (S (http_n w)) (metar_url (Airport.alternate self))
  = GetReturns (inr text) ->
  re_search_flight_category text = Some group1 ->
  (group1 ∉ ["UNKNOWN"; "VFR"; "MVFR"; "IFR"; "LIFR"]) ->
  exists w1 w',
    run (Airport.resolve_flight_category self session) w = (Ok FlightCategory.UNKNOWN, w1) /\
    events_since w w1
    = [EvHttpGet (metar_url (Airport.airport_code self))]
      ++ closes (response_of
                   (Session.responses session (http_n w)
                      (metar_url (Airport.airport_code self))) (http_n w) None)
      ++ [EvPrint (trying_alternate_line self);
          EvHttpGet (metar_url (Airport.alternate self));
          EvClose (S (http_n w))] /\
    (forall ex, EvPrint (error_line self ex) ∉ events_since w w') /\
    requests_in (events_since w w')
    = [EvHttpGet (metar_url (Airport.airport_code self));
       EvHttpGet (metar_url (Airport.alternate self))] /\
    run (Airport.update_flight_category env session) (self, w)
    = (Ok (), (with_category self FlightCategory.UNKNOWN, w')) /\
    (Airport.flight_category self = FlightCategory.UNKNOWN -> w' = w1) /\
    (Airport.flight_category self <> FlightCategory.UNKNOWN ->
     exists vr vg vb,
       PyFloat.floor_of_product (Z.shiftr LEDColors.YELLOW 16) (LED_BRIGHTNESS env) = Some vr /\
       PyFloat.floor_of_product (Z.shiftr (Z.land LEDColors.YELLOW 0x00FF00) 8)
         (LED_BRIGHTNESS env) = Some vg /\
       PyFloat.floor_of_product (Z.land LEDColors.YELLOW 0x0000FF) (LED_BRIGHTNESS env)
       = Some vb /\
       w' = logged w1 (channel_writes (Airport.led self) vr vg vb)).
Proof.
  intros Hb Hf Halt Hsearch Hgroup.
  pose proof (resolve_primary_failed self session w Hf) as Hres.
  set (primary := Session.responses session (http_n w) _) in *.
  assert (category_of_response (GetReturns (inr text)) = Ok FlightCategory.UNKNOWN) as Hcat
    by (cbn; by rewrite Hsearch, from_string_unrecognized).
  rewrite Halt in Hres. unfold alternate_category, alternate_events in Hres.
  rewrite Hcat in Hres. cbn [response_of Response.request_no] in Hres.
  change (closes (Some ?r)) with [EvClose (Response.request_no r)] in Hres.
  cbn [Response.request_no] in Hres. rewrite app_nil_l in Hres.
  set (evs := [EvHttpGet (metar_url (Airport.airport_code self))] ++ _) in Hres.
  destruct (update_once self w Hb) as (c & w1 & w' & Hres1 & Hrun & Heq & Hne).
  rewrite Hres in Hres1. injection Hres1 as <- Hw1.
  assert (events_since w w1 = evs) as Hevs by (by rewrite <- Hw1, events_since_app).
  assert (exists evs2, events_since w w' = evs ++ evs2 /\
                       Forall (λ e, is_set_current e = true) evs2) as (evs2 & Hw' & Hevs2).
  { destruct (decide (FlightCategory.UNKNOWN = Airport.flight_category self)) as [Hc | Hc].
    - exists []. destruct (Heq Hc) as [-> _]. by rewrite app_nil_r.
    - destruct (Hne Hc) as (vr & vg & vb & _ & _ & _ & -> & _).
      eexists. rewrite <- Hw1. unfold logged. cbn [log].
      rewrite <- app_assoc, events_since_app. split; [reflexivity |].
      by repeat constructor. }
  exists w1, w'. split_and!.
  - by rewrite Hres, Hw1.
  - exact Hevs.
  - intros ex Hin. rewrite Hw' in Hin.
    apply elem_of_app in Hin as [Hin | Hin].
    + unfold evs in Hin. apply elem_of_app in Hin as [Hin | Hin].
      * apply list_elem_of_singleton in Hin. discriminate.
      * apply elem_of_app in Hin as [Hin | Hin].
        -- unfold closes in Hin. destruct (response_of primary (http_n w) None).
           ++ apply list_elem_of_singleton in Hin. discriminate.
           ++ by apply elem_of_nil in Hin.
        -- repeat (apply elem_of_cons in Hin as [Hin | Hin];
                   [try discriminate; injection Hin as Hin;
                    by apply error_line_not_trying in Hin |]).
           by apply elem_of_nil in Hin.
    + rewrite Forall_forall in Hevs2. specialize (Hevs2 _ Hin). done.
  - rewrite Hw', requests_in_app, (requests_in_writes evs2 Hevs2), app_nil_r.
    unfold evs, closes. by destruct (response_of primary (http_n w) None).
  - exact Hrun.
  - intros Hc. symmetry in Hc. by destruct (Heq Hc).
  - intros Hc. destruct (Hne (not_eq_sym Hc)) as (vr & vg & vb & Hr & Hg & Hbl & Hw & _).
    by exists vr, vg, vb.
Qed.
End Update.

(** ** [show_color] *)

Lemma run_for_each {T} (body : M (T * World) unit) (items : list T) (w : World) :
  run (for_each body) (items, w) = for_each_from body items w.
Proof. reflexivity. Qed.

(** Whatever its outcome, [show_color] leaves the airports as they are and
    only adds register writes. *)
Lemma show_color_adds_writes (color : Z) (brightness : float)
    (airports : list Airport.t) (w : World) :
  exists evs, after (Map.show_color color brightness) (airports, w)
              = (airports, logged w evs) /\
              Forall (λ e, is_set_current e = true) evs.
Proof.
  unfold after, Map.show_color. rewrite run_for_each.
  revert w. induction airports as [| a rest IH]; intros w; cbn [for_each_from].
  - exists []. by rewrite logged_nil.
  - rewrite run_bind, run_get_self, run_in_world.
    destruct (set_color_adds_writes (Airport.led a) color brightness w)
      as (evs1 & Hevs1 & Hall1).
    destruct (run (RGBLED.set_color (Airport.led a) color brightness) w) as [[[] | e] w1];
      cbn [fst snd] in *; subst w1.
    + destruct (IH (logged w evs1)) as (evs2 & Hevs2 & Hall2).
      destruct (for_each_from _ rest (logged w evs1)) as [r [rest' w2]].
      cbn [snd] in *. injection Hevs2 as -> ->.
      exists (evs1 ++ evs2). rewrite logged_logged. split; [done |].
      by apply Forall_app.
    + by exists evs1.
Qed.

(** With a brightness in [[0, 1]], [show_color] writes every LED. *)
Lemma show_color_ok (color : Z) (brightness : float) (airports : list Airport.t) :
  0 <= color < 2 ^ 24 -> PyFloat.in_unit_interval brightness ->
  exists vr vg vb,
    (PyFloat.int_of_product (Z.shiftr color 16) brightness = Ok vr /\
     PyFloat.int_of_product (Z.shiftr (Z.land color 0x00FF00) 8) brightness = Ok vg /\
     PyFloat.int_of_product (Z.land color 0x0000FF) brightness = Ok vb) /\
    (PyFloat.floor_of_product (Z.shiftr color 16) brightness = Some vr /\
     PyFloat.floor_of_product (Z.shiftr (Z.land color 0x00FF00) 8) brightness = Some vg /\
     PyFloat.floor_of_product (Z.land color 0x0000FF) brightness = Some vb) /\
    forall w, run (Map.show_color color brightness) (airports, w)
              = (Ok (), (airports, logged w (show_color_writes airports vr vg vb))).
Proof.
  intros Hc Hb.
  destruct (red_channel color Hc) as [Hr _].
  destruct (green_channel color) as [Hg _]; [lia |].
  destruct (blue_channel color) as [Hbl _].
  destruct (int_of_product_floor _ brightness Hr Hb) as (vr & Hvr & Hfr).
  destruct (int_of_product_floor _ brightness Hg Hb) as (vg & Hvg & Hfg).
  destruct (int_of_product_floor _ brightness Hbl Hb) as (vb & Hvb & Hfb).
  exists vr, vg, vb. split_and!; try done.
  intros w. unfold Map.show_color. rewrite run_for_each.
  revert w. induction airports as [| a rest IH]; intros w; cbn [for_each_from].
  - by rewrite logged_nil.
  - rewrite run_bind, run_get_self, run_in_world.
    rewrite (set_color_run _ _ _ _ vr vg vb) by done.
    cbn [fst snd]. by rewrite IH, logged_logged.
Qed.

Lemma connectivity_events_writes (evs : list event) :
  Forall (λ e, is_set_current e = true) evs -> connectivity_events evs = [].
Proof.
  induction 1 as [| e evs He _ IH]; [done |].
  unfold connectivity_events in *. cbn. by destruct e.
Qed.

Lemma show_color_writes_are_writes (airports : list Airport.t) (vr vg vb : Z) :
  Forall (λ e, is_set_current e = true) (show_color_writes airports vr vg vb).
Proof.
  unfold show_color_writes. induction airports as [| a rest IH]; cbn; [done |].
  by repeat constructor.
Qed.

(** ** [connect_wifi] *)

Section ConnectWifi.
Context (env : Env).

Lemma run_wifi_radio_connect_call (w : World) :
  run (Map.wifi_radio_connect_call env) w
  = (wifi_radio_connect env (wifi_n w),
     mkWorld (log w ++ [EvWifiConnect]) (http_n w) (S (wifi_n w))).
Proof. reflexivity. Qed.

(** Whatever the radio and the LEDs do, the loop makes at most one
    connection attempt per element of [attempts]. *)
Lemma connect_wifi_for_attempts (attempts : list Z) (airports : list Airport.t) (w : World) :
  exists evs h,
    after (Map.connect_wifi_for env attempts) (airports, w)
    = (airports, mkWorld (log w ++ evs) (http_n w) h) /\
    (connection_attempts evs <= length attempts)%nat.
Proof.
  revert w. induction attempts as [| attempt rest IH]; intros w.
  - exists [], (wifi_n w). unfold after. cbn. rewrite app_nil_r. split; [by destruct w | lia].
  - unfold after. cbn [Map.connect_wifi_for]. rewrite run_bind.
    destruct (show_color_adds_writes LEDColors.WIFI_BLUE (LED_BRIGHTNESS env) airports w)
      as (evs0 & Hevs0 & Hall0).
    unfold after in Hevs0.
    assert (connection_attempts evs0 = 0%nat) as Hzero.
    { unfold connection_attempts. clear Hevs0.
      induction Hall0 as [| e evs He _ IHa]; [done |]. cbn. by destruct e. }
    destruct (run (Map.show_color _ _) (airports, w)) as [[[] | e] s0];
      cbn [snd] in Hevs0; subst s0; [| exists evs0, (wifi_n w); split; [done | lia]].
    run_simpl. rewrite run_wifi_radio_connect_call. run_simpl.
    cbn [logged log http_n wifi_n].
    set (w1 := mkWorld _ _ _).
    assert (exists evs1, w1 = mkWorld (log w ++ evs1) (http_n w) (S (wifi_n w)) /\
                         connection_attempts evs1 = 1%nat) as (evs1 & Hw1 & Hone).
    { eexists. unfold w1. rewrite <- app_assoc. split; [reflexivity |].
      unfold connection_attempts in *. rewrite !List.filter_app, !length_app, Hzero.
      reflexivity. }
    clearbody w1. subst w1.
    destruct (wifi_radio_connect env (wifi_n w)) as [[] | e].
    + run_simpl. unfold logged. cbn [log http_n wifi_n].
      eexists _, _. rewrite <- app_assoc. split; [reflexivity |].
      unfold connection_attempts in *. rewrite List.filter_app, length_app, Hone.
      cbn. lia.
    + destruct (decide (e = ConnectionError)) as [-> | Hne].
      * run_simpl. unfold logged. cbn [log http_n wifi_n].
        destruct (IH (mkWorld ((log w ++ evs1) ++ [EvSleep 1]) (http_n w) (S (wifi_n w))))
          as (evs & h & Hafter & Hle).
        unfold after in Hafter. rewrite Hafter. cbn [log http_n].
        eexists _, _. rewrite <- !app_assoc. split; [reflexivity |].
        unfold connection_attempts in *. rewrite !List.filter_app, !length_app, Hone.
        cbn. lia.
      * assert (run (match e with
                     | ConnectionError =>
                         in_world (sleep 1) ≫= λ _ : (), Map.connect_wifi_for env rest
                     | _ => raise e
                     end)
                  (airports, mkWorld (log w ++ evs1) (http_n w) (S (wifi_n w)))
                = (Raise e, (airports, mkWorld (log w ++ evs1) (http_n w) (S (wifi_n w)))))
          as Hraise by (by destruct e).
        rewrite Hraise. cbn [snd].
        eexists _, _. split; [reflexivity |]. rewrite Hone. cbn. lia.
Qed.

Context (Hbrightness : PyFloat.in_unit_interval (LED_BRIGHTNESS env)).

Lemma wifi_blue_range : 0 <= LEDColors.WIFI_BLUE < 2 ^ 24.
Proof. unfold LEDColors.WIFI_BLUE. lia. Qed.

(** A failed attempt: the indicator, the notice, the attempt, the wait,
    and on to the remaining attempts. *)
Lemma connect_wifi_for_failed (attempt : Z) (rest : list Z)
    (airports : list Airport.t) (w : World) :
  wifi_radio_connect env (wifi_n w) = Raise ConnectionError ->
  exists evs,
    connectivity_events evs = [EvWifiConnect; EvSleep 1] /\
    run (Map.connect_wifi_for env (attempt :: rest)) (airports, w)
    = run (Map.connect_wifi_for env rest)
        (airports, mkWorld (log w ++ evs) (http_n w) (S (wifi_n w))).
Proof.
  intros Hfail.
  destruct (show_color_ok LEDColors.WIFI_BLUE (LED_BRIGHTNESS env) airports
              wifi_blue_range Hbrightness) as (vr & vg & vb & _ & _ & Hshow).
  exists (show_color_writes airports vr vg vb
          ++ [EvPrint (attempt_line attempt); EvWifiConnect; EvSleep 1]).
  split.
  - unfold connectivity_events. rewrite List.filter_app.
    fold (connectivity_events (show_color_writes airports vr vg vb)).
    by rewrite connectivity_events_writes by apply show_color_writes_are_writes.
  - cbn [Map.connect_wifi_for]. rewrite run_bind, Hshow. run_simpl.
    rewrite run_wifi_radio_connect_call. cbn [logged log http_n wifi_n].
    rewrite Hfail. run_simpl.
    unfold logged, attempt_line. cbn [log http_n wifi_n].
    by rewrite <- !app_assoc.
Qed.

(** A successful attempt returns at once. *)
Lemma connect_wifi_for_connected (attempt : Z) (rest : list Z)
    (airports : list Airport.t) (w : World) :
  wifi_radio_connect env (wifi_n w) = Ok () ->
  exists evs,
    connectivity_events evs = [EvWifiConnect] /\
    last evs = Some (EvPrint "Connected to WIFI") /\
    run (Map.connect_wifi_for env (attempt :: rest)) (airports, w)
    = (Ok true, (airports, mkWorld (log w ++ evs) (http_n w) (S (wifi_n w)))).
Proof.
  intros Hok.
  destruct (show_color_ok LEDColors.WIFI_BLUE (LED_BRIGHTNESS env) airports
              wifi_blue_range Hbrightness) as (vr & vg & vb & _ & _ & Hshow).
  exists (show_color_writes airports vr vg vb
          ++ [EvPrint (attempt_line attempt); EvWifiConnect; EvPrint "Connected to WIFI"]).
  split_and!.
  - unfold connectivity_events. rewrite List.filter_app.
    fold (connectivity_events (show_color_writes airports vr vg vb)).
    by rewrite connectivity_events_writes by apply show_color_writes_are_writes.
  - by rewrite last_app.
  - cbn [Map.connect_wifi_for]. rewrite run_bind, Hshow. run_simpl.
    rewrite run_wifi_radio_connect_call. cbn [logged log http_n wifi_n].
    rewrite Hok. run_simpl.
    unfold logged, attempt_line. cbn [log http_n wifi_n].
    by rewrite <- !app_assoc.
Qed.

Lemma connect_wifi_for_fails (attempts : list Z) (airports : list Airport.t) (w : World) :
  (forall j, (j < length attempts)%nat ->
             wifi_radio_connect env (wifi_n w + j) = Raise ConnectionError) ->
  exists evs,
    connectivity_events evs = failed_attempts (length attempts) /\
    run (Map.connect_wifi_for env attempts) (airports, w)
    = (Ok false, (airports, mkWorld (log w ++ evs) (http_n w)
                              (wifi_n w + length attempts))).
Proof.
  revert w. induction attempts as [| attempt rest IH]; intros w Hfail.
  - exists []. split; [done |]. cbn. rewrite app_nil_r, Nat.add_0_r. by destruct w.
  - destruct (connect_wifi_for_failed attempt rest airports w) as (evs1 & Hev1 & ->).
    { rewrite <- (Hfail 0%nat) by (cbn; lia). f_equal. lia. }
    destruct (IH (mkWorld (log w ++ evs1) (http_n w) (S (wifi_n w)))) as (evs2 & Hev2 & ->).
    { intros j Hj. cbn [wifi_n]. rewrite <- (Hfail (S j)) by (cbn; lia). f_equal. lia. }
    exists (evs1 ++ evs2). cbn [log http_n wifi_n length]. split.
    + unfold connectivity_events in *. rewrite List.filter_app, Hev1, Hev2. reflexivity.
    + rewrite <- app_assoc. do 3 f_equal. lia.
Qed.

Lemma connect_wifi_for_succeeds (failed : list Z) (attempt : Z) (rest : list Z)
    (airports : list Airport.t) (w : World) :
  (forall j, (j < length failed)%nat ->
             wifi_radio_connect env (wifi_n w + j) = Raise ConnectionError) ->
  wifi_radio_connect env (wifi_n w + length failed) = Ok () ->
  exists evs,
    connectivity_events evs = failed_attempts (length failed) ++ [EvWifiConnect] /\
    last evs = Some (EvPrint "Connected to WIFI") /\
    run (Map.connect_wifi_for env (failed ++ attempt :: rest)) (airports, w)
    = (Ok true, (airports, mkWorld (log w ++ evs) (http_n w)
                             (wifi_n w + S (length failed)))).
Proof.
  revert w. induction failed as [| first failed IH]; intros w Hfail Hok.
  - destruct (connect_wifi_for_connected attempt rest airports w) as (evs & Hev & Hlast & Hrun).
    { rewrite <- Hok. f_equal. cbn. lia. }
    exists evs. cbn [app length]. rewrite Hrun. split_and!; try done.
    do 3 f_equal. lia.
  - cbn [app].
    destruct (connect_wifi_for_failed first (failed ++ attempt :: rest) airports w)
      as (evs1 & Hev1 & ->).
    { rewrite <- (Hfail 0%nat) by (cbn; lia). f_equal. lia. }
    destruct (IH (mkWorld (log w ++ evs1) (http_n w) (S (wifi_n w))))
      as (evs2 & Hev2 & Hlast & ->).
    { intros j Hj. cbn [wifi_n]. rewrite <- (Hfail (S j)) by (cbn; lia). f_equal. lia. }
    { cbn [wifi_n]. rewrite <- Hok. f_equal. cbn. lia. }
    exists (evs1 ++ evs2). cbn [log http_n wifi_n length]. split_and!.
    + unfold connectivity_events in *. rewrite List.filter_app, Hev1, Hev2. reflexivity.
    + destruct evs2 as [| e evs2]; [done |]. by rewrite last_app, Hlast.
    + rewrite <- app_assoc. do 3 f_equal. lia.
Qed.

Lemma connect_wifi_connected_at (k : nat) (airports : list Airport.t) (w : World) :
  (1 <= k <= 5)%nat ->
  (forall j, (j < k - 1)%nat ->
             wifi_radio_connect env (wifi_n w + j) = Raise ConnectionError) ->
  wifi_radio_connect env (wifi_n w + (k - 1)) = Ok () ->
  exists evs,
    connectivity_events evs = failed_attempts (k - 1) ++ [EvWifiConnect] /\
    last evs = Some (EvPrint "Connected to WIFI") /\
    run (Map.connect_wifi env) (airports, w)
    = (Ok true, (airports, mkWorld (log w ++ evs) (http_n w) (wifi_n w + k))).
Proof.
  intros Hk Hfail Hok. unfold Map.connect_wifi.
  assert (exists failed attempt rest,
            seqZ 1 5 = failed ++ attempt :: rest /\ length failed = (k - 1)%nat)
    as (failed & attempt & rest & -> & Hlen).
  { assert (k = 1 \/ k = 2 \/ k = 3 \/ k = 4 \/ k = 5)%nat
      as [-> | [-> | [-> | [-> | ->]]]] by lia.
    - by exists [], 1, [2; 3; 4; 5].
    - by exists [1], 2, [3; 4; 5].
    - by exists [1; 2], 3, [4; 5].
    - by exists [1; 2; 3], 4, [5].
    - by exists [1; 2; 3; 4], 5, []. }
  destruct (connect_wifi_for_succeeds failed attempt rest airports w)
    as (evs & Hev & Hlast & ->); rewrite ?Hlen; try done.
  exists evs. rewrite Hlen in Hev. split_and!; try done.
  do 3 f_equal. lia.
Qed.
End ConnectWifi.

Lemma connection_attempts_connectivity (evs : list event) :
  connection_attempts evs = connection_attempts (connectivity_events evs).
Proof.
  unfold connection_attempts, connectivity_events.
  induction evs as [| e evs IH]; [done |]. destruct e; cbn; by rewrite ?IH.
Qed.

Lemma connection_attempts_failed (k : nat) (evs : list event) :
  connection_attempts (failed_attempts k ++ evs) = (k + connection_attempts evs)%nat.
Proof.
  induction k as [| k IH]; [done |].
  change (failed_attempts (S k)) with (EvWifiConnect :: EvSleep 1 :: failed_attempts k).
  unfold connection_attempts in *. cbn [app List.filter is_wifi_connect length].
  by rewrite IH.
Qed.

(** C4. The startup connectivity procedure makes at most 5 connection
    attempts.  If every attempt fails (raises ConnectionError) it returns
    failure after exactly 5 attempts, each followed by a wait of 1; if the
    attempts before the [k]-th (1 <= [k] <= 5) fail and the [k]-th
    succeeds, it returns success right after its notice, having made [k]
    attempts and [k - 1] waits. *)
Theorem connect_wifi_retry_bound (env : Env) (airports : list Airport.t) (w : World) :
  PyFloat.in_unit_interval (LED_BRIGHTNESS env) ->
  (connection_attempts (events_since w (after (Map.connect_wifi env) (airports, w)).2) <= 5)%nat /\
  ((forall j, (j < 5)%nat -> wifi_radio_connect env (wifi_n w + j) = Raise ConnectionError) ->
   exists w',
     run (Map.connect_wifi env) (airports, w) = (Ok false, (airports, w')) /\
     connectivity_events (events_since w w') = failed_attempts 5 /\
     connection_attempts (events_since w w') = 5%nat) /\
  (forall k, (1 <= k <= 5)%nat ->
     (forall j, (j < k - 1)%nat ->
                wifi_radio_connect env (wifi_n w + j) = Raise ConnectionError) ->
     wifi_radio_connect env (wifi_n w + (k - 1)) = Ok () ->
     exists w',
       run (Map.connect_wifi env) (airports, w) = (Ok true, (airports, w')) /\
       connectivity_events (events_since w w') = failed_attempts (k - 1) ++ [EvWifiConnect] /\
       connection_attempts (events_since w w') = k /\
       last (events_since w w') = Some (EvPrint "Connected to WIFI")).
Proof.
  intros Hb. split_and!.
  - destruct (connect_wifi_for_attempts env (seqZ 1 5) airports w) as (evs & h & Hafter & Hle).
    unfold Map.connect_wifi. rewrite Hafter. cbn [snd]. by rewrite events_since_app.
  - intros Hfail.
    destruct (connect_wifi_for_fails env Hb (seqZ 1 5) airports w Hfail) as (evs & Hev & Hrun).
    change (length (seqZ 1 5)) with 5%nat in Hev.
    eexists. split; [exact Hrun |]. rewrite events_since_app. split; [exact Hev |].
    rewrite connection_attempts_connectivity, Hev.
    by rewrite <- (app_nil_r (failed_attempts 5)), connection_attempts_failed.
  - intros k Hk Hfail Hok.
    destruct (connect_wifi_connected_at env Hb k airports w Hk Hfail Hok)
      as (evs & Hev & Hlast & Hrun).
    eexists. split; [exact Hrun |]. rewrite events_since_app. split_and!; try done.
    rewrite connection_attempts_connectivity, Hev, connection_attempts_failed.
    cbn. lia.
Qed.

(** ** Configuration *)

Lemma run_of_outcome {S A B} (r : outcome A) (k : A -> M S B) (s : S) :
  run (of_outcome r ≫= k) s = match r with
                              | Ok a => run (k a) s
                              | Raise e => (Raise e, s)
                              end.
Proof. rewrite run_bind. by destruct r. Qed.

Lemma py_getitem_raises {A} (l : list A) (i : Z) (e : exn) :
  py_getitem l i = Raise e -> e = IndexError.
Proof.
  unfold py_getitem. destruct (_ && _); [| by intros [= <-]].
  destruct (l !! _); [done | by intros [= <-]].
Qed.

Lemma py_getitem_out_of_range {A} (l : list A) (i : Z) :
  Z.of_nat (length l) <= i -> py_getitem l i = Raise IndexError.
Proof.
  intros Hi. unfold py_getitem.
  destruct (Z.ltb_spec i 0) as [? | _]; [lia |].
  destruct (Z.leb_spec 0 i) as [_ | ?]; [| lia].
  destruct (Z.ltb_spec i (Z.of_nat (length l))) as [? | _]; [lia | done].
Qed.

Lemma py_int_raises (base : Z) (s : string) (e : exn) :
  py_int base s = Raise e -> e = ValueError.
Proof.
  unfold py_int. destruct (strip_sign s) as [negative body].
  destruct (parse_digits _ _ _ _); [done | by intros [= <-]].
Qed.

Lemma field_raises {A} (l : list string) (i : Z) (parse : string -> outcome A) (e : exn) :
  (forall s e', parse s = Raise e' -> e' = ValueError) ->
  py_getitem l i ≫= parse = Raise e -> e = IndexError \/ e = ValueError.
Proof.
  intros Hparse. destruct (py_getitem l i) as [s |] eqn:Hget; cbn.
  - intros Hp. right. by eapply Hparse.
  - intros [= <-]. left. by eapply py_getitem_raises.
Qed.

(** Board resolution: the first registered board on the indexed controller
    with the given address, [None] when no registered board matches, and
    an [IndexError] when there are boards but no controller of that
    index. *)
Lemma get_board_in_spec (controllers : list I2CController.t) (boards : list LEDDriverBoard.t)
    (controller_index addr : Z) :
  match BoardManager.get_board_in controllers boards controller_index addr with
  | Ok (Some board) =>
      board ∈ boards /\ board_matches controllers controller_index addr board
  | Ok None =>
      forall board, board ∈ boards -> ~ board_matches controllers controller_index addr board
  | Raise e =>
      e = IndexError /\ py_getitem controllers controller_index = Raise IndexError
  end.
Proof.
  induction boards as [| board rest IH]; cbn [BoardManager.get_board_in].
  - intros board Hin. by apply elem_of_nil in Hin.
  - destruct (py_getitem controllers controller_index) as [c | e] eqn:Hget; cbn.
    + destruct (decide (LEDDriverBoard.controller board = c ∧ LEDDriverBoard.addr board = addr))
        as [[<- <-] | Hno].
      * split; [apply elem_of_cons; by left | by split].
      * destruct (BoardManager.get_board_in controllers rest controller_index addr)
          as [[found |] | e].
        -- destruct IH as [Hin Hm]. split; [apply elem_of_cons; by right | done].
        -- intros b [-> | Hin]%elem_of_cons [Hc Ha].
           ++ apply Hno. split; [congruence | done].
           ++ by apply (IH b Hin).
        -- destruct IH as [_ Hraise]. congruence.
    + split; [| f_equal]; by eapply py_getitem_raises.
Qed.

Section Configuration.
Context (env : Env).

(** A line whose board does not resolve constructs no airport. *)
Lemma from_config_line_unresolved (line : string) (board_manager : BoardManager.t)
    (controller_index addr : Z) (w : World) :
  controller_field line = Ok controller_index ->
  addr_field line = Ok addr ->
  (forall board, BoardManager.get_board board_manager controller_index addr <> Ok (Some board)) ->
  exists e, run (Airport.from_config_line env line board_manager) w = (Raise e, w).
Proof.
  unfold controller_field, addr_field. intros Hc Ha Hboard.
  unfold Airport.from_config_line. rewrite run_of_outcome, Hc, run_of_outcome, Ha.
  rewrite run_of_outcome.
  destruct (BoardManager.get_board board_manager controller_index addr) as [[board |] | e];
    [by destruct (Hboard board) | | eauto].
  repeat (rewrite run_of_outcome;
          match goal with
          | |- context [match ?r with Ok _ => _ | Raise _ => _ end] => destruct r; [| eauto]
          end).
  unfold Airport.__init__. rewrite run_bind. cbn. eauto.
Qed.

(** A line of fewer than seven fields constructs no airport either. *)
Lemma from_config_line_short (line : string) (board_manager : BoardManager.t) (w : World) :
  (length (split line) < 7)%nat ->
  exists e, run (Airport.from_config_line env line board_manager) w = (Raise e, w) /\
            (e = IndexError \/ e = ValueError).
Proof.
  intros Hlen. unfold Airport.from_config_line.
  rewrite run_of_outcome.
  destruct (py_getitem (split line) 1 ≫= py_int 10) as [ci |] eqn:H1;
    [| eexists; split; [done | eapply field_raises, H1; apply py_int_raises]].
  rewrite run_of_outcome.
  destruct (py_getitem (split line) 2 ≫= py_int 16) as [a |] eqn:H2;
    [| eexists; split; [done | eapply field_raises, H2; apply py_int_raises]].
  rewrite run_of_outcome.
  pose proof (get_board_in_spec (BoardManager.controllers board_manager)
                (BoardManager.boards board_manager) ci a) as Hspec.
  unfold BoardManager.get_board.
  destruct (BoardManager.get_board_in _ _ ci a) as [host | e];
    [| destruct Hspec as [-> _]; eauto].
  rewrite run_of_outcome.
  destruct (py_getitem (split line) 0) as [code |] eqn:H0;
    [| eexists; split; [done | left; by eapply py_getitem_raises]].
  rewrite run_of_outcome.
  destruct (py_getitem (split line) 3 ≫= py_int 10) as [rp |] eqn:H3;
    [| eexists; split; [done | eapply field_raises, H3; apply py_int_raises]].
  rewrite run_of_outcome.
  destruct (py_getitem (split line) 4 ≫= py_int 10) as [gp |] eqn:H4;
    [| eexists; split; [done | eapply field_raises, H4; apply py_int_raises]].
  rewrite run_of_outcome.
  destruct (py_getitem (split line) 5 ≫= py_int 10) as [bp |] eqn:H5;
    [| eexists; split; [done | eapply field_raises, H5; apply py_int_raises]].
  rewrite run_of_outcome, py_getitem_out_of_range by lia. eauto.
Qed.

(** The constructor: the three pins are switched to output, the LED is
    set to yellow, and the airport starts as Unknown. *)
Lemma run_init (airport_code : string) (red_pin green_pin blue_pin : Z) (alternate : string)
    (host : LEDDriverBoard.t) (w : World) :
  let led := RGBLED.mk host red_pin green_pin blue_pin in
  run (Airport.__init__ env airport_code red_pin green_pin blue_pin alternate (Some host)) w
  = match run (RGBLED.set_color led LEDColors.YELLOW (LED_BRIGHTNESS env))
            (logged w (pin_outputs led)) with
    | (Ok _, w') => (Ok (Airport.mk airport_code led FlightCategory.UNKNOWN alternate), w')
    | (Raise e, w') => (Raise e, w')
    end.
Proof.
  intros led. unfold Airport.__init__, RGBLED.__init__. run_simpl.
  fold led. change ([_] ++ [_] ++ [_]) with (pin_outputs led).
  by destruct (run (RGBLED.set_color led _ _) _) as [[[] | e] w'].
Qed.

(** A line either fails before anything is constructed, or its fields
    are handed to the constructor with a resolved board. *)
Lemma from_config_line_cases (line : string) (board_manager : BoardManager.t) (w : World) :
  (exists e, run (Airport.from_config_line env line board_manager) w = (Raise e, w)) \/
  (exists airport_code red_pin green_pin blue_pin alternate host,
     run (Airport.from_config_line env line board_manager) w
     = run (Airport.__init__ env airport_code red_pin green_pin blue_pin alternate
              (Some host)) w).
Proof.
  unfold Airport.from_config_line.
  repeat (rewrite run_of_outcome;
          match goal with
          | |- context [match ?r with Ok _ => _ | Raise _ => _ end] =>
              destruct r; [| left; eauto]
          end).
  match goal with
  | |- context [Airport.__init__ _ _ _ _ _ _ ?h] => destruct h as [host |]
  end.
  - right. eauto 10.
  - left. unfold Airport.__init__. rewrite run_bind. cbn. eauto.
Qed.

Lemma hardware_events_app (evs evs' : list event) :
  Forall (λ e, is_hardware_event e = true) evs ->
  Forall (λ e, is_hardware_event e = true) evs' ->
  Forall (λ e, is_hardware_event e = true) (evs ++ evs').
Proof. apply Forall_app_2. Qed.

Lemma writes_are_hardware_events (evs : list event) :
  Forall (λ e, is_set_current e = true) evs ->
  Forall (λ e, is_hardware_event e = true) evs.
Proof. intros Hall. eapply Forall_impl; [exact Hall |]. by intros []. Qed.

(** Constructing an airport touches the hardware only. *)
Lemma from_config_line_hardware (line : string) (board_manager : BoardManager.t) (w : World) :
  exists evs, (run (Airport.from_config_line env line board_manager) w).2 = logged w evs /\
              Forall (λ e, is_hardware_event e = true) evs.
Proof.
  destruct (from_config_line_cases line board_manager w)
    as [[e ->] | (code & rp & gp & bp & alt & host & ->)].
  - exists []. by rewrite logged_nil.
  - rewrite run_init.
    destruct (set_color_adds_writes (RGBLED.mk host rp gp bp) LEDColors.YELLOW
                (LED_BRIGHTNESS env) (logged w (pin_outputs (RGBLED.mk host rp gp bp))))
      as (evs & Hevs & Hall).
    exists (pin_outputs (RGBLED.mk host rp gp bp) ++ evs). split.
    + destruct (run (RGBLED.set_color _ _ _) _) as [[[] | e] w']; cbn [snd] in *;
        subst w'; by rewrite logged_logged.
    + apply hardware_events_app; [by repeat constructor | by apply writes_are_hardware_events].
Qed.

Lemma load_lines_hardware (lines : list string) (board_manager : BoardManager.t)
    (airports : list Airport.t) (w : World) :
  exists evs,
    (run (AirportManager.load_lines env lines board_manager) (airports, w)).2.2
    = logged w evs /\
    Forall (λ e, is_hardware_event e = true) evs.
Proof.
  revert airports w. induction lines as [| line rest IH]; intros airports w;
    cbn [AirportManager.load_lines].
  - exists []. by rewrite run_ret, logged_nil.
  - run_simpl.
    destruct (from_config_line_hardware line board_manager w) as (evs1 & Hevs1 & Hall1).
    destruct (run (Airport.from_config_line env line board_manager) w) as [[a | e] w1];
      cbn [fst snd] in *; subst w1.
    + rewrite run_bind. cbn [AirportManager.append run].
      destruct (IH (airports ++ [a]) (logged w evs1)) as (evs2 & -> & Hall2).
      exists (evs1 ++ evs2). rewrite logged_logged. split; [done |].
      by apply hardware_events_app.
    + by exists evs1.
Qed.

(** Loading stops at the first line that constructs no airport. *)
Lemma load_lines_aborts (pre : list string) (line : string) (post : list string)
    (board_manager : BoardManager.t) (airports : list Airport.t) (w : World) :
  (forall w', exists e, run (Airport.from_config_line env line board_manager) w'
                        = (Raise e, w')) ->
  exists e airports' w',
    run (AirportManager.load_lines env (pre ++ line :: post) board_manager) (airports, w)
    = (Raise e, (airports', w')) /\
    (length airports' <= length airports + length pre)%nat.
Proof.
  intros Hline. revert airports w.
  induction pre as [| first pre IH]; intros airports w; cbn [app AirportManager.load_lines].
  - destruct (Hline w) as [e He]. run_simpl. rewrite He. cbn [fst snd].
    exists e, airports, w. split; [done | lia].
  - run_simpl.
    destruct (run (Airport.from_config_line env first board_manager) w) as [[a | e] w1];
      cbn [fst snd].
    + rewrite run_bind. cbn [AirportManager.append run].
      destruct (IH (airports ++ [a]) w1) as (e & airports' & w' & -> & Hle).
      exists e, airports', w'. split; [done |]. rewrite length_app in Hle. cbn in *. lia.
    + exists e, airports, w1. split; [done | lia].
Qed.
End Configuration.

(** ** [main] *)

Section MainFacts.
Context (env : Env).

Lemma run_add_boards (airports : list Airport.t) (w : World) :
  run (in_world (add_boards (BoardManager.__init__ [i2c0; i2c1]) board_places)) (airports, w)
  = (Ok main_board_manager,
     (airports, logged w (map EvBoardInit (BoardManager.boards main_board_manager)))).
Proof. rewrite run_in_world. cbn. unfold logged. by rewrite <- !app_assoc. Qed.

Lemma run_configure (airports : list Airport.t) (w : World) :
  run (configure env) (airports, w)
  = run (AirportManager.load_airports env "./lib/config.txt" main_board_manager)
      (airports, logged w (map EvBoardInit (BoardManager.boards main_board_manager))).
Proof. unfold configure. by rewrite run_bind, run_add_boards. Qed.

(** [main] is its configuration, then the connectivity phase, then the
    polling loop; an exception of a phase ends the process there. *)
Lemma run_startup (s : list Airport.t * World) :
  run (startup env) s
  = match run (configure env) s with
    | (Ok _, s') => run (connect_and_indicate env) s'
    | (Raise e, s') => (Raise e, s')
    end.
Proof.
  unfold startup, configure. rewrite !run_bind.
  destruct (run (in_world _) s) as [[bm | e] s1]; [| done].
  rewrite run_bind. by destruct (run (AirportManager.load_airports _ _ _) s1) as [[[] | e] s2].
Qed.

Lemma run_main (cycles : nat) (s : list Airport.t * World) :
  run (main env cycles) s
  = match run (startup env) s with
    | (Ok _, s') => run (poll env cycles) s'
    | (Raise e, s') => (Raise e, s')
    end.
Proof. unfold main. by rewrite run_bind. Qed.

(** A configuration that fails ends [main] with the same exception, in
    the state the configuration left. *)
Lemma main_aborts_with_configure (cycles : nat) (s s' : list Airport.t * World) (e : exn) :
  run (configure env) s = (Raise e, s') -> run (main env cycles) s = (Raise e, s').
Proof. intros Hc. by rewrite run_main, run_startup, Hc. Qed.
End MainFacts.

Lemma hardware_events_no_attempts (evs : list event) :
  Forall (λ e, is_hardware_event e = true) evs -> connection_attempts evs = 0%nat.
Proof.
  unfold connection_attempts. induction 1 as [| e evs He _ IH]; [done |]. cbn. by destruct e.
Qed.

Lemma hardware_events_no_requests (evs : list event) :
  Forall (λ e, is_hardware_event e = true) evs -> requests_in evs = [].
Proof.
  unfold requests_in. induction 1 as [| e evs He _ IH]; [done |]. cbn. by destruct e.
Qed.

(** C8. Board resolution returns the first registered board that matches
    the pair (controller index, device address), or signals that there is
    none: [None] when no registered board matches, an [IndexError] when the
    controller index itself is out of range.  A configuration line whose
    board does not resolve constructs no airport, and with such a line in
    the configuration file [main] ends with an exception during the
    configuration: no airport is added for that line or a later one, and
    neither the connectivity phase nor the polling loop is reached. *)
Theorem unresolved_board_aborts_startup
    (env : Env) (pre : list string) (line : string) (post : list string)
    (controller_index addr : Z) (cycles : nat) :
  files env "./lib/config.txt" = Some (pre ++ line :: post) ->
  controller_field line = Ok controller_index ->
  addr_field line = Ok addr ->
  (forall board,
     BoardManager.get_board main_board_manager controller_index addr <> Ok (Some board)) ->
  (forall board_manager ci a,
     match BoardManager.get_board board_manager ci a with
     | Ok (Some board) =>
         board ∈ BoardManager.boards board_manager /\
         board_matches (BoardManager.controllers board_manager) ci a board
     | Ok None =>
         forall board, board ∈ BoardManager.boards board_manager ->
                       ~ board_matches (BoardManager.controllers board_manager) ci a board
     | Raise e =>
         e = IndexError /\
         py_getitem (BoardManager.controllers board_manager) ci = Raise IndexError
     end) /\
  (forall w, exists e,
     run (Airport.from_config_line env line main_board_manager) w = (Raise e, w)) /\
  exists e airports w',
    run (configure env) ([], initial_world) = (Raise e, (airports, w')) /\
    run (main env cycles) ([], initial_world) = (Raise e, (airports, w')) /\
    (length airports <= length pre)%nat /\
    connection_attempts (log w') = 0%nat /\ requests_in (log w') = [].
Proof.
  intros Hfile Hc Ha Hboard. split_and!.
  - intros bm ci a. apply get_board_in_spec.
  - intros w. by eapply from_config_line_unresolved.
  - destruct (load_lines_aborts env pre line post main_board_manager []
                (logged initial_world (map EvBoardInit (BoardManager.boards main_board_manager))))
      as (e & airports & w' & Hload & Hlen).
    { intros w. by eapply from_config_line_unresolved. }
    assert (run (configure env) ([], initial_world) = (Raise e, (airports, w'))) as Hconf.
    { rewrite run_configure. unfold AirportManager.load_airports. by rewrite Hfile. }
    destruct (load_lines_hardware env (pre ++ line :: post) main_board_manager []
                (logged initial_world (map EvBoardInit (BoardManager.boards main_board_manager))))
      as (evs & Hevs & Hall).
    rewrite Hload in Hevs. cbn [snd] in Hevs. subst w'.
    exists e, airports, (logged (logged initial_world
                            (map EvBoardInit (BoardManager.boards main_board_manager))) evs).
    split_and!; [done | by apply main_aborts_with_configure | done | |].
    + rewrite logged_logged. cbn [logged log initial_world app].
      apply hardware_events_no_attempts, hardware_events_app; [by repeat constructor | done].
    + rewrite logged_logged. cbn [logged log initial_world app].
      apply hardware_events_no_requests, hardware_events_app; [by repeat constructor | done].
Qed.

(** ** Registers and what the LEDs display *)

Lemma registers_app (evs evs' : list event) :
  registers (evs ++ evs') = foldl apply_event (registers evs) evs'.
Proof. unfold registers. apply foldl_app. Qed.

Lemma registers_no_writes (evs evs' : list event) :
  Forall (λ e, is_set_current e = false) evs' -> registers (evs ++ evs') = registers evs.
Proof.
  intros Hall. rewrite registers_app. generalize (registers evs).
  induction Hall as [| e evs' He _ IH]; intros regs; [done |].
  cbn. rewrite IH. by destruct e.
Qed.

Lemma registers_channel_writes (evs : list event) (led : RGBLED.t) (vr vg vb : Z) :
  registers (evs ++ channel_writes led vr vg vb)
  = <[(RGBLED.host led, RGBLED.blue_pin_num led) := vb]>
      (<[(RGBLED.host led, RGBLED.green_pin_num led) := vg]>
         (<[(RGBLED.host led, RGBLED.red_pin_num led) := vr]> (registers evs))).
Proof. by rewrite registers_app. Qed.

Lemma led_keys_red (led : RGBLED.t) :
  (RGBLED.host led, RGBLED.red_pin_num led) ∈ led_keys led.
Proof. apply elem_of_cons. by left. Qed.

Lemma led_keys_green (led : RGBLED.t) :
  (RGBLED.host led, RGBLED.green_pin_num led) ∈ led_keys led.
Proof. apply elem_of_cons. right. apply elem_of_cons. by left. Qed.

Lemma led_keys_blue (led : RGBLED.t) :
  (RGBLED.host led, RGBLED.blue_pin_num led) ∈ led_keys led.
Proof. do 2 (apply elem_of_cons; right). apply elem_of_cons. by left. Qed.

(** After its three writes an LED with distinct channels displays the
    color. *)
Lemma led_shows_written (evs : list event) (led : RGBLED.t) (color : Z) (brightness : float)
    (vr vg vb : Z) :
  NoDup (led_keys led) ->
  PyFloat.int_of_product (Z.shiftr color 16) brightness = Ok vr ->
  PyFloat.int_of_product (Z.shiftr (Z.land color 0x00FF00) 8) brightness = Ok vg ->
  PyFloat.int_of_product (Z.land color 0x0000FF) brightness = Ok vb ->
  led_shows (registers (evs ++ channel_writes led vr vg vb)) led color brightness.
Proof.
  intros Hnd Hr Hg Hb. exists vr, vg, vb. rewrite registers_channel_writes.
  unfold led_keys in Hnd.
  apply NoDup_cons in Hnd as [Hrg Hnd]. apply NoDup_cons in Hnd as [Hgb _].
  apply not_elem_of_cons in Hrg as [Hrg Hrb]. apply not_elem_of_cons in Hrb as [Hrb _].
  apply not_elem_of_cons in Hgb as [Hgb _].
  split_and!; try done.
  - by rewrite lookup_insert_ne, lookup_insert_ne, lookup_insert_eq.
  - by rewrite lookup_insert_ne, lookup_insert_eq.
  - by rewrite lookup_insert_eq.
Qed.

(** Writes to another LED leave the display of an LED as it is. *)
Lemma led_shows_other (evs : list event) (led led' : RGBLED.t) (color : Z)
    (brightness : float) (vr vg vb : Z) :
  (forall k, k ∈ led_keys led -> k ∉ led_keys led') ->
  led_shows (registers evs) led' color brightness ->
  led_shows (registers (evs ++ channel_writes led vr vg vb)) led' color brightness.
Proof.
  intros Hdisj (vr' & vg' & vb' & Hr & Hg & Hb & Hlr & Hlg & Hlb).
  exists vr', vg', vb'. rewrite registers_channel_writes.
  assert (forall k, k ∈ led_keys led' ->
            <[(RGBLED.host led, RGBLED.blue_pin_num led) := vb]>
              (<[(RGBLED.host led, RGBLED.green_pin_num led) := vg]>
                 (<[(RGBLED.host led, RGBLED.red_pin_num led) := vr]> (registers evs))) !! k
            = registers evs !! k) as Hsame.
  { intros k Hk.
    assert (forall k', k' ∈ led_keys led -> k' <> k) as Hne
      by (intros k' Hk' ->; by eapply Hdisj).
    rewrite !lookup_insert_ne;
      [done | apply Hne; auto using led_keys_red, led_keys_green, led_keys_blue ..]. }
  split_and!; try done; rewrite Hsame; auto using led_keys_red, led_keys_green, led_keys_blue.
Qed.

Lemma led_shows_no_writes (evs evs' : list event) (led : RGBLED.t) (color : Z)
    (brightness : float) :
  Forall (λ e, is_set_current e = false) evs' ->
  led_shows (registers evs) led color brightness ->
  led_shows (registers (evs ++ evs')) led color brightness.
Proof. intros Hno. by rewrite registers_no_writes. Qed.

Lemma chain_events_no_writes (evs : list event) :
  Forall (λ e, is_chain_event e = true) evs -> Forall (λ e, is_set_current e = false) evs.
Proof. intros Hall. eapply Forall_impl; [exact Hall |]. by intros []. Qed.

Lemma distinct_leds_app (l1 l2 : list Airport.t) :
  distinct_leds (l1 ++ l2) ->
  distinct_leds l1 /\ distinct_leds l2 /\
  forall a1 a2, a1 ∈ l1 -> a2 ∈ l2 ->
    forall k, k ∈ led_keys (Airport.led a1) -> k ∉ led_keys (Airport.led a2).
Proof.
  unfold distinct_leds. rewrite bind_app. intros (H1 & Hd & H2)%NoDup_app.
  split_and!; try done. intros a1 a2 Ha1 Ha2 k Hk1 Hk2.
  apply (Hd k); apply list_elem_of_bind; eauto.
Qed.

Lemma distinct_leds_cons (a : Airport.t) (l : list Airport.t) :
  distinct_leds (a :: l) ->
  NoDup (led_keys (Airport.led a)) /\ distinct_leds l /\
  forall a2, a2 ∈ l ->
    forall k, k ∈ led_keys (Airport.led a) -> k ∉ led_keys (Airport.led a2).
Proof.
  unfold distinct_leds. cbn [mbind list_bind]. intros (H1 & Hd & H2)%NoDup_app.
  split_and!; try done. intros a2 Ha2 k Hk1 Hk2.
  apply (Hd k); [done |]. apply list_elem_of_bind; eauto.
Qed.

Lemma channel_values_in_range (color : Z) (brightness : float) :
  0 <= color < 2 ^ 24 -> PyFloat.in_unit_interval brightness ->
  exists vr vg vb,
    PyFloat.int_of_product (Z.shiftr color 16) brightness = Ok vr /\
    PyFloat.int_of_product (Z.shiftr (Z.land color 0x00FF00) 8) brightness = Ok vg /\
    PyFloat.int_of_product (Z.land color 0x0000FF) brightness = Ok vb.
Proof.
  intros Hcolor Hbright.
  destruct (red_channel color Hcolor) as [Hr _].
  destruct (green_channel color) as [Hg _]; [lia |].
  destruct (blue_channel color) as [Hb _].
  destruct (int_of_product_floor _ brightness Hr Hbright) as (vr & Hvr & _).
  destruct (int_of_product_floor _ brightness Hg Hbright) as (vg & Hvg & _).
  destruct (int_of_product_floor _ brightness Hb Hbright) as (vb & Hvb & _).
  eauto 7.
Qed.

Lemma resolve_chain_events (self : Airport.t) (session : Session.t) (w : World) :
  exists c evs h,
    run (Airport.resolve_flight_category self session) w
    = (Ok c, mkWorld (log w ++ evs) h (wifi_n w)) /\
    Forall (λ e, is_chain_event e = true) evs.
Proof.
  destruct (primary_failed_or_recognized
              (Session.responses session (http_n w) (metar_url (Airport.airport_code self))))
    as [Hf | [c Hc]].
  - eexists _, _, _. split; [by apply resolve_primary_failed |].
    unfold alternate_events, closes.
    destruct (response_of _ (http_n w) None), (category_of_response _),
      (response_of _ (S (http_n w)) _); by repeat constructor.
  - eexists _, _, _. split; [by apply resolve_primary_recognized | by repeat constructor].
Qed.

Section Display.
Context (env : Env) (session : Session.t).
Context (Hbrightness : PyFloat.in_unit_interval (LED_BRIGHTNESS env)).

(** The events of one update: those of the fallback chain, then, if the
    category changed, the three writes of its color. *)
Lemma update_trace (self : Airport.t) (w : World) :
  exists c evs1 h,
    Forall (λ e, is_chain_event e = true) evs1 /\
    ((c = Airport.flight_category self /\
      run (Airport.update_flight_category env session) (self, w)
      = (Ok (), (self, mkWorld (log w ++ evs1) h (wifi_n w)))) \/
     (c <> Airport.flight_category self /\
      exists vr vg vb,
        PyFloat.int_of_product
          (Z.shiftr (Airport._get_color_from_flight_category c) 16)
          (LED_BRIGHTNESS env) = Ok vr /\
        PyFloat.int_of_product
          (Z.shiftr (Z.land (Airport._get_color_from_flight_category c) 0x00FF00) 8)
          (LED_BRIGHTNESS env) = Ok vg /\
        PyFloat.int_of_product
          (Z.land (Airport._get_color_from_flight_category c) 0x0000FF)
          (LED_BRIGHTNESS env) = Ok vb /\
        run (Airport.update_flight_category env session) (self, w)
        = (Ok (), (with_category self c,
                   mkWorld (log w ++ evs1 ++ channel_writes (Airport.led self) vr vg vb)
                     h (wifi_n w))))).
Proof.
  destruct (resolve_chain_events self session w) as (c & evs1 & h & Hres & Hchain).
  exists c, evs1, h. split; [done |]. rewrite (update_run _ _ _ _ _ _ Hres).
  destruct (decide (c = Airport.flight_category self)) as [Hc | Hc]; [by left | right].
  split; [done |].
  destruct (channel_values_in_range (Airport._get_color_from_flight_category c)
              (LED_BRIGHTNESS env) (policy_color_range c) Hbrightness)
    as (vr & vg & vb & Hr & Hg & Hb).
  exists vr, vg, vb. split_and!; try done.
  rewrite (set_color_run _ _ _ _ vr vg vb) by done. cbn [fst snd].
  unfold logged. cbn [log http_n wifi_n]. by rewrite app_assoc.
Qed.

Lemma display_invariant_no_writes (airports : list Airport.t) (w : World)
    (evs : list event) (h n : nat) :
  Forall (λ e, is_set_current e = false) evs ->
  display_invariant env airports w ->
  display_invariant env airports (mkWorld (log w ++ evs) h n).
Proof.
  intros Hno Hinv. unfold display_invariant. eapply Forall_impl; [exact Hinv |].
  intros a. unfold displays_category. cbn [log]. by apply led_shows_no_writes.
Qed.

(** Writing one LED leaves what the other airports display. *)
Lemma display_invariant_other (airports : list Airport.t) (led : RGBLED.t) (w : World)
    (vr vg vb : Z) (h n : nat) :
  (forall a, a ∈ airports ->
     forall k, k ∈ led_keys led -> k ∉ led_keys (Airport.led a)) ->
  display_invariant env airports w ->
  display_invariant env airports (mkWorld (log w ++ channel_writes led vr vg vb) h n).
Proof.
  intros Hdisj. unfold display_invariant. rewrite !Forall_forall.
  intros Hinv a Ha. unfold displays_category. cbn [log].
  apply led_shows_other; [by apply Hdisj | by apply Hinv].
Qed.

(** An update keeps the correspondence for every airport of the list. *)
Lemma update_preserves_display (l1 l2 : list Airport.t) (self : Airport.t) (w : World) :
  distinct_leds (l1 ++ self :: l2) ->
  display_invariant env (l1 ++ self :: l2) w ->
  exists c evs h,
    run (Airport.update_flight_category env session) (self, w)
    = (Ok (), (with_category self c, mkWorld (log w ++ evs) h (wifi_n w))) /\
    display_invariant env (l1 ++ with_category self c :: l2)
      (mkWorld (log w ++ evs) h (wifi_n w)).
Proof.
  intros Hdist Hinv.
  apply distinct_leds_app in Hdist as (_ & Hdist & Hl1).
  apply distinct_leds_cons in Hdist as (Hself & _ & Hl2).
  apply Forall_app in Hinv as [Hinv1 Hinv]. apply Forall_cons in Hinv as [Hinvs Hinv2].
  destruct (update_trace self w)
    as (c & evs1 & h & Hchain & [[-> Hrun] | (Hc & vr & vg & vb & Hr & Hg & Hb & Hrun)]).
  - exists (Airport.flight_category self), evs1, h.
    replace (with_category self (Airport.flight_category self)) with self by (by destruct self).
    split; [done |].
    apply (display_invariant_no_writes (l1 ++ self :: l2));
      [by apply chain_events_no_writes |].
    apply Forall_app. split; [done |]. by apply Forall_cons.
  - exists c, (evs1 ++ channel_writes (Airport.led self) vr vg vb), h.
    split; [done |]. rewrite app_assoc.
    pose proof (chain_events_no_writes _ Hchain) as Hno.
    apply Forall_app. split; [| apply Forall_cons; split].
    + apply (display_invariant_other l1 (Airport.led self)
               (mkWorld (log w ++ evs1) h (wifi_n w))).
      * intros a Ha k Hk Hk'.
        assert (self ∈ self :: l2) as Hin by (apply elem_of_cons; by left).
        exact (Hl1 a self Ha Hin k Hk' Hk).
      * by apply display_invariant_no_writes.
    + unfold displays_category. cbn [log with_category Airport.led Airport.flight_category].
      by apply led_shows_written.
    + apply (display_invariant_other l2 (Airport.led self)
               (mkWorld (log w ++ evs1) h (wifi_n w))).
      * intros a Ha k Hk. by apply (Hl2 a Ha).
      * by apply display_invariant_no_writes.
Qed.

Lemma update_events_ok (self : Airport.t) (w : World) :
  exists c evs h,
    run (Airport.update_flight_category env session) (self, w)
    = (Ok (), (with_category self c, mkWorld (log w ++ evs) h (wifi_n w))) /\
    Forall (λ e, is_update_event e = true) evs.
Proof.
  destruct (update_trace self w)
    as (c & evs1 & h & Hchain & [[-> Hrun] | (Hc & vr & vg & vb & _ & _ & _ & Hrun)]).
  - exists (Airport.flight_category self), evs1, h.
    replace (with_category self (Airport.flight_category self)) with self by (by destruct self).
    split; [done |]. eapply Forall_impl; [exact Hchain |].
    intros e He. unfold is_update_event. by rewrite He.
  - exists c, (evs1 ++ channel_writes (Airport.led self) vr vg vb), h.
    split; [done |]. apply Forall_app. split; [| by repeat constructor].
    eapply Forall_impl; [exact Hchain |].
    intros e He. unfold is_update_event. by rewrite He.
Qed.

(** A polling cycle updates every airport and raises nothing. *)
Lemma update_all_ok (airports : list Airport.t) (w : World) :
  exists airports' evs h,
    run (AirportManager.update_airport_flight_categories env session) (airports, w)
    = (Ok (), (airports', mkWorld (log w ++ evs) h (wifi_n w))) /\
    map Airport.led airports' = map Airport.led airports /\
    Forall (λ e, is_update_event e = true) evs.
Proof.
  unfold AirportManager.update_airport_flight_categories. rewrite run_for_each.
  revert w. induction airports as [| a rest IH]; intros w; cbn [for_each_from].
  - exists [], [], (http_n w). rewrite app_nil_r. split_and!; [by destruct w | done | done].
  - destruct (update_events_ok a w) as (c & evs1 & h1 & -> & Hall1).
    destruct (IH (mkWorld (log w ++ evs1) h1 (wifi_n w)))
      as (rest' & evs2 & h2 & -> & Hleds & Hall2).
    exists (with_category a c :: rest'), (evs1 ++ evs2), h2. cbn [log wifi_n].
    rewrite app_assoc. split_and!; [done | cbn; by rewrite Hleds | by apply Forall_app].
Qed.

Lemma distinct_leds_same_leds (l l' : list Airport.t) :
  map Airport.led l = map Airport.led l' -> distinct_leds l -> distinct_leds l'.
Proof.
  unfold distinct_leds. intros Hleds.
  assert (forall k : list Airport.t,
            k ≫= (λ a, led_keys (Airport.led a)) = map Airport.led k ≫= led_keys) as Hbind
    by (induction k as [| a k IHk]; [done | cbn; by rewrite IHk]).
  by rewrite !Hbind, Hleds.
Qed.

(** A polling cycle keeps the correspondence between the stored
    categories and the colors displayed. *)
Lemma update_all_preserves_display (others todo : list Airport.t) (w : World) :
  distinct_leds (others ++ todo) ->
  display_invariant env (others ++ todo) w ->
  exists todo' evs h,
    for_each_from (Airport.update_flight_category env session) todo w
    = (Ok (), (todo', mkWorld (log w ++ evs) h (wifi_n w))) /\
    map Airport.led todo' = map Airport.led todo /\
    display_invariant env (others ++ todo') (mkWorld (log w ++ evs) h (wifi_n w)).
Proof.
  revert others w. induction todo as [| a rest IH]; intros others w Hdist Hinv;
    cbn [for_each_from].
  - exists [], [], (http_n w). rewrite app_nil_r. by destruct w.
  - destruct (update_preserves_display others rest a w Hdist Hinv)
      as (c & evs1 & h1 & -> & Hinv1).
    destruct (IH (others ++ [with_category a c]) (mkWorld (log w ++ evs1) h1 (wifi_n w)))
      as (rest' & evs2 & h2 & -> & Hleds & Hinv2).
    { rewrite <- app_assoc. cbn [app].
      eapply distinct_leds_same_leds; [| exact Hdist]. by rewrite !map_app. }
    { by rewrite <- app_assoc. }
    exists (with_category a c :: rest'), (evs1 ++ evs2), h2. cbn [log wifi_n] in *.
    rewrite app_assoc. split_and!; [done | cbn; by rewrite Hleds |].
    by rewrite <- app_assoc in Hinv2.
Qed.
End Display.

Section Polling.
Context (env : Env).
Context (Hbrightness : PyFloat.in_unit_interval (LED_BRIGHTNESS env)).

Lemma poll_sleeps_update_events (evs : list event) :
  Forall (λ e, is_update_event e = true) evs -> poll_sleeps evs = 0%nat.
Proof.
  unfold poll_sleeps. induction 1 as [| e evs He _ IH]; [done |]. cbn. by destruct e.
Qed.

Lemma poll_sleeps_app (evs evs' : list event) :
  poll_sleeps (evs ++ evs') = (poll_sleeps evs + poll_sleeps evs')%nat.
Proof. unfold poll_sleeps. by rewrite List.filter_app, length_app. Qed.

(** The loop runs as many cycles as asked, each ending with its wait, and
    never raises. *)
Lemma poll_ok (cycles : nat) (airports : list Airport.t) (w : World) :
  exists airports' evs h,
    run (poll env cycles) (airports, w)
    = (Ok (), (airports', mkWorld (log w ++ evs) h (wifi_n w))) /\
    map Airport.led airports' = map Airport.led airports /\
    poll_sleeps evs = cycles.
Proof.
  revert airports w. induction cycles as [| n IH]; intros airports w; cbn [poll].
  - exists airports, [], (http_n w). rewrite run_ret, app_nil_r. by destruct w.
  - rewrite run_bind.
    destruct (update_all_ok env (internet env) Hbrightness airports w)
      as (airports1 & evs1 & h1 & -> & Hleds1 & Hall1).
    run_simpl. unfold logged. cbn [log http_n wifi_n].
    destruct (IH airports1 (mkWorld ((log w ++ evs1) ++ [EvSleep 45]) h1 (wifi_n w)))
      as (airports2 & evs2 & h2 & -> & Hleds2 & Hsleeps).
    exists airports2, (evs1 ++ [EvSleep 45] ++ evs2), h2. cbn [log wifi_n].
    rewrite <- !app_assoc. split_and!; [done | congruence |].
    rewrite !poll_sleeps_app, (poll_sleeps_update_events _ Hall1), Hsleeps. reflexivity.
Qed.

(** The loop keeps the correspondence at every cycle boundary. *)
Lemma poll_preserves_display (cycles : nat) (airports : list Airport.t) (w : World) :
  distinct_leds airports ->
  display_invariant env airports w ->
  exists airports' w',
    run (poll env cycles) (airports, w) = (Ok (), (airports', w')) /\
    map Airport.led airports' = map Airport.led airports /\
    display_invariant env airports' w'.
Proof.
  revert airports w. induction cycles as [| n IH]; intros airports w Hdist Hinv; cbn [poll].
  - exists airports, w. by rewrite run_ret.
  - rewrite run_bind. unfold AirportManager.update_airport_flight_categories.
    rewrite run_for_each.
    destruct (update_all_preserves_display env (internet env) Hbrightness [] airports w
                Hdist Hinv) as (airports1 & evs1 & h1 & -> & Hleds1 & Hinv1).
    run_simpl. unfold logged. cbn [log http_n wifi_n app] in *.
    destruct (IH airports1 (mkWorld ((log w ++ evs1) ++ [EvSleep 45]) h1 (wifi_n w)))
      as (airports2 & w2 & -> & Hleds2 & Hinv2).
    { eapply distinct_leds_same_leds; [| exact Hdist]. done. }
    { apply (display_invariant_no_writes env airports1
               (mkWorld (log w ++ evs1) h1 (wifi_n w))); [by repeat constructor | done]. }
    exists airports2, w2. split_and!; [done | congruence | done].
Qed.
End Polling.

(** ** What [show_color] and the constructor leave on the LEDs *)

Section ShowColor.
Context (color : Z) (brightness : float) (vr vg vb : Z).
Context (Hr : PyFloat.int_of_product (Z.shiftr color 16) brightness = Ok vr).
Context (Hg : PyFloat.int_of_product (Z.shiftr (Z.land color 0x00FF00) 8) brightness = Ok vg).
Context (Hb : PyFloat.int_of_product (Z.land color 0x0000FF) brightness = Ok vb).

Lemma led_shows_show_color_other (airports : list Airport.t) (evs : list event)
    (led : RGBLED.t) (c : Z) :
  (forall a, a ∈ airports ->
     forall k, k ∈ led_keys (Airport.led a) -> k ∉ led_keys led) ->
  led_shows (registers evs) led c brightness ->
  led_shows (registers (evs ++ show_color_writes airports vr vg vb)) led c brightness.
Proof.
  revert evs. induction airports as [| a rest IH]; intros evs Hdisj Hshows.
  - by rewrite app_nil_r.
  - change (show_color_writes (a :: rest) vr vg vb)
      with (channel_writes (Airport.led a) vr vg vb ++ show_color_writes rest vr vg vb).
    rewrite app_assoc. apply IH.
    + intros a' Ha'. apply Hdisj, elem_of_cons. by right.
    + apply led_shows_other; [| done]. apply Hdisj, elem_of_cons. by left.
Qed.

(** After [show_color] every LED displays the color. *)
Lemma show_color_shows (airports : list Airport.t) (evs : list event) :
  distinct_leds airports ->
  Forall (λ a, led_shows (registers (evs ++ show_color_writes airports vr vg vb))
                 (Airport.led a) color brightness) airports.
Proof.
  revert evs. induction airports as [| a rest IH]; intros evs Hdist; [done |].
  apply distinct_leds_cons in Hdist as (Ha & Hrest & Hdisj).
  change (show_color_writes (a :: rest) vr vg vb)
    with (channel_writes (Airport.led a) vr vg vb ++ show_color_writes rest vr vg vb).
  rewrite app_assoc. apply Forall_cons. split; [| by apply IH].
  apply led_shows_show_color_other; [| by apply led_shows_written].
  intros a' Ha' k Hk Hk'. by apply (Hdisj a' Ha' k).
Qed.
End ShowColor.

Section Construction.
Context (env : Env).
Context (Hbrightness : PyFloat.in_unit_interval (LED_BRIGHTNESS env)).

Lemma yellow_range : 0 <= LEDColors.YELLOW < 2 ^ 24.
Proof. unfold LEDColors.YELLOW. lia. Qed.

Lemma unknown_is_yellow :
  Airport._get_color_from_flight_category FlightCategory.UNKNOWN = LEDColors.YELLOW.
Proof. reflexivity. Qed.

(** The constructor establishes the correspondence for the new airport
    and keeps it for the others. *)
Lemma init_establishes_display (airports : list Airport.t) (airport_code : string)
    (red_pin green_pin blue_pin : Z) (alternate : string) (host : LEDDriverBoard.t)
    (w : World) :
  let airport := Airport.mk airport_code (RGBLED.mk host red_pin green_pin blue_pin)
                   FlightCategory.UNKNOWN alternate in
  distinct_leds (airports ++ [airport]) ->
  display_invariant env airports w ->
  exists w',
    run (Airport.__init__ env airport_code red_pin green_pin blue_pin alternate (Some host)) w
    = (Ok airport, w') /\
    display_invariant env (airports ++ [airport]) w'.
Proof.
  intros airport Hdist Hinv. rewrite run_init.
  destruct (channel_values_in_range LEDColors.YELLOW (LED_BRIGHTNESS env)
              yellow_range Hbrightness) as (vr & vg & vb & Hr & Hg & Hb).
  rewrite (set_color_run _ _ _ _ vr vg vb) by done. eexists. split; [reflexivity |].
  rewrite logged_logged. unfold logged.
  apply distinct_leds_app in Hdist as (_ & Hnew & Hdisj).
  apply distinct_leds_cons in Hnew as (Hnew & _ & _).
  assert (Forall (λ e, is_set_current e = false)
            (pin_outputs (RGBLED.mk host red_pin green_pin blue_pin))) as Hpins
    by (by repeat constructor).
  rewrite app_assoc. apply Forall_app. split.
  - apply (display_invariant_other env airports (RGBLED.mk host red_pin green_pin blue_pin)
             (mkWorld (log w ++ pin_outputs (RGBLED.mk host red_pin green_pin blue_pin))
                (http_n w) (wifi_n w))).
    + intros a Ha k Hk Hk'.
      assert (airport ∈ [airport]) as Hin by (apply elem_of_cons; by left).
      exact (Hdisj a airport Ha Hin k Hk' Hk).
    + by apply display_invariant_no_writes.
  - apply Forall_cons. split; [| done]. unfold displays_category. cbn [log].
    by apply led_shows_written.
Qed.

(** Loading appends to the list; when the LEDs of the result share no
    register, every loaded airport is Unknown and displayed yellow. *)
Lemma load_lines_establishes_display (lines : list string) (board_manager : BoardManager.t)
    (airports airports' : list Airport.t) (w w' : World) :
  run (AirportManager.load_lines env lines board_manager) (airports, w)
  = (Ok (), (airports', w')) ->
  (exists new, airports' = airports ++ new) /\
  (all_unknown airports -> all_unknown airports') /\
  (distinct_leds airports' -> display_invariant env airports w ->
   display_invariant env airports' w').
Proof.
  revert airports w. induction lines as [| line rest IH]; intros airports w;
    cbn [AirportManager.load_lines].
  - rewrite run_ret. intros [= <- <-]. split_and!; [exists []; by rewrite app_nil_r | done ..].
  - rewrite run_bind, run_in_world.
    destruct (from_config_line_cases env line board_manager w)
      as [[e ->] | (code & rp & gp & bp & alt & host & ->)]; [done |].
    set (airport := Airport.mk code (RGBLED.mk host rp gp bp) FlightCategory.UNKNOWN alt).
    pose proof (run_init env code rp gp bp alt host w) as Hinit. cbn zeta in Hinit.
    fold airport in Hinit.
    destruct (run (Airport.__init__ env code rp gp bp alt (Some host)) w)
      as [[a | e] w1] eqn:Hrun; cbn [fst snd]; [| done].
    assert (a = airport) as ->.
    { destruct (run (RGBLED.set_color _ _ _) _) as [[[] | e] w2]; congruence. }
    rewrite run_bind. cbn [AirportManager.append run]. intros Hload.
    destruct (IH _ _ Hload) as ([new ->] & Hunknown & Hdisplay).
    split_and!.
    + exists (airport :: new). by rewrite <- app_assoc.
    + intros Hall. apply Hunknown, Forall_app. split; [done |]. by repeat constructor.
    + intros Hdist Hinv. apply Hdisplay; [done |].
      destruct (init_establishes_display airports code rp gp bp alt host w)
        as (w1' & Hrun' & Hinv'); [| done |].
      * by apply distinct_leds_app in Hdist as (Hdist & _ & _).
      * fold airport in Hrun'. rewrite Hrun in Hrun'. by injection Hrun' as ->.
Qed.
End Construction.

(** ** The startup sequence *)

Section Startup.
Context (env : Env).
Context (Hbrightness : PyFloat.in_unit_interval (LED_BRIGHTNESS env)).

Lemma green_range : 0 <= LEDColors.GREEN < 2 ^ 24.
Proof. unfold LEDColors.GREEN. lia. Qed.

Lemma red_range : 0 <= LEDColors.RED < 2 ^ 24.
Proof. unfold LEDColors.RED. lia. Qed.

(** A configuration that succeeds has read the file, line by line, and
    has made no request and no connection attempt. *)
Lemma configure_ok (airports : list Airport.t) (w : World) :
  run (configure env) ([], initial_world) = (Ok (), (airports, w)) ->
  http_n w = 0%nat /\ wifi_n w = 0%nat /\
  exists lines w0,
    files env "./lib/config.txt" = Some lines /\
    run (AirportManager.load_lines env lines main_board_manager) ([], w0)
    = (Ok (), (airports, w)).
Proof.
  rewrite run_configure. unfold AirportManager.load_airports.
  destruct (files env "./lib/config.txt") as [lines |]; [| done].
  intros Hload.
  destruct (load_lines_hardware env lines main_board_manager []
              (logged initial_world (map EvBoardInit (BoardManager.boards main_board_manager))))
    as (evs & Hevs & _).
  rewrite Hload in Hevs. cbn [snd] in Hevs. split_and!; [by subst w | by subst w |].
  eauto.
Qed.

(** Connectivity failed: every LED is set to red and the process exits
    with code 1. *)
Lemma connect_and_indicate_failure (airports : list Airport.t) (w w1 : World) :
  run (Map.connect_wifi env) (airports, w) = (Ok false, (airports, w1)) ->
  exists vr vg vb,
    (PyFloat.floor_of_product (Z.shiftr LEDColors.RED 16) (LED_BRIGHTNESS env) = Some vr /\
     PyFloat.floor_of_product (Z.shiftr (Z.land LEDColors.RED 0x00FF00) 8)
       (LED_BRIGHTNESS env) = Some vg /\
     PyFloat.floor_of_product (Z.land LEDColors.RED 0x0000FF) (LED_BRIGHTNESS env)
     = Some vb) /\
    run (connect_and_indicate env) (airports, w)
    = (Raise (SystemExit 1), (airports, logged w1 (show_color_writes airports vr vg vb))).
Proof.
  intros Hconnect.
  destruct (show_color_ok LEDColors.RED (LED_BRIGHTNESS env) airports red_range Hbrightness)
    as (vr & vg & vb & _ & Hfloor & Hshow).
  exists vr, vg, vb. split; [done |].
  unfold connect_and_indicate. rewrite run_bind, Hconnect. rewrite !run_bind, Hshow.
  reflexivity.
Qed.

(** Connectivity succeeded: green, a pause, yellow, and on to the loop. *)
Lemma connect_and_indicate_success (airports : list Airport.t) (w w1 : World) :
  run (Map.connect_wifi env) (airports, w) = (Ok true, (airports, w1)) ->
  exists evs vr vg vb,
    (PyFloat.int_of_product (Z.shiftr LEDColors.YELLOW 16) (LED_BRIGHTNESS env) = Ok vr /\
     PyFloat.int_of_product (Z.shiftr (Z.land LEDColors.YELLOW 0x00FF00) 8)
       (LED_BRIGHTNESS env) = Ok vg /\
     PyFloat.int_of_product (Z.land LEDColors.YELLOW 0x0000FF) (LED_BRIGHTNESS env)
     = Ok vb) /\
    poll_sleeps evs = 0%nat /\
    run (connect_and_indicate env) (airports, w)
    = (Ok (), (airports, logged w1 (evs ++ show_color_writes airports vr vg vb))).
Proof.
  intros Hconnect.
  destruct (show_color_ok LEDColors.GREEN (LED_BRIGHTNESS env) airports green_range
              Hbrightness) as (gr & gg & gb & _ & _ & Hgreen).
  destruct (show_color_ok LEDColors.YELLOW (LED_BRIGHTNESS env) airports yellow_range
              Hbrightness) as (vr & vg & vb & Hvals & _ & Hyellow).
  exists (show_color_writes airports gr gg gb ++ [EvSleep 1]), vr, vg, vb.
  split; [done |]. split.
  - rewrite poll_sleeps_app.
    rewrite (poll_sleeps_update_events (show_color_writes airports gr gg gb)); [done |].
    eapply Forall_impl; [apply show_color_writes_are_writes |].
    intros e He. unfold is_update_event. rewrite He. by destruct (is_chain_event e).
  - unfold connect_and_indicate. rewrite run_bind, Hconnect. rewrite run_bind, Hgreen.
    run_simpl. rewrite Hyellow. by rewrite !logged_logged, <- !app_assoc.
Qed.

(** Whatever the radio does, a connectivity phase that does not end the
    process has just shown yellow on every LED. *)
Lemma connect_and_indicate_ok (airports : list Airport.t) (w : World)
    (s' : list Airport.t * World) :
  run (connect_and_indicate env) (airports, w) = (Ok (), s') ->
  exists w1 evs vr vg vb,
    (PyFloat.int_of_product (Z.shiftr LEDColors.YELLOW 16) (LED_BRIGHTNESS env) = Ok vr /\
     PyFloat.int_of_product (Z.shiftr (Z.land LEDColors.YELLOW 0x00FF00) 8)
       (LED_BRIGHTNESS env) = Ok vg /\
     PyFloat.int_of_product (Z.land LEDColors.YELLOW 0x0000FF) (LED_BRIGHTNESS env)
     = Ok vb) /\
    s' = (airports, logged w1 (evs ++ show_color_writes airports vr vg vb)).
Proof.
  intros Hok.
  destruct (connect_wifi_for_attempts env (seqZ 1 5) airports w) as (evs0 & h & Hafter & _).
  unfold after in Hafter. fold (Map.connect_wifi env) in Hafter.
  destruct (run (Map.connect_wifi env) (airports, w)) as [[[] | e] s1] eqn:Hconnect;
    cbn [snd] in Hafter; subst s1.
  - destruct (connect_and_indicate_success airports w _ Hconnect)
      as (evs & vr & vg & vb & Hvals & _ & Hrun).
    rewrite Hrun in Hok. injection Hok as <-. eauto 8.
  - destruct (connect_and_indicate_failure airports w _ Hconnect)
      as (vr & vg & vb & _ & Hrun).
    rewrite Hrun in Hok. done.
  - unfold connect_and_indicate in Hok. rewrite run_bind, Hconnect in Hok. done.
Qed.
End Startup.

(** C5. With the airports configured: if all 5 connection attempts fail,
    [connect_wifi] returns failure, every LED is then set to red and the
    process exits with code 1; if an attempt succeeds, the process does not
    exit: the startup ends normally and the polling loop runs any number of
    cycles, each ending with its wait, without ending the process. *)
Theorem connectivity_failure_exits_success_polls
    (env : Env) (airports : list Airport.t) (w : World) (cycles : nat) :
  PyFloat.in_unit_interval (LED_BRIGHTNESS env) ->
  run (configure env) ([], initial_world) = (Ok (), (airports, w)) ->
  ((forall j, (j < 5)%nat -> wifi_radio_connect env j = Raise ConnectionError) ->
   exists w1 vr vg vb,
     run (Map.connect_wifi env) (airports, w) = (Ok false, (airports, w1)) /\
     (PyFloat.floor_of_product (Z.shiftr LEDColors.RED 16) (LED_BRIGHTNESS env) = Some vr /\
      PyFloat.floor_of_product (Z.shiftr (Z.land LEDColors.RED 0x00FF00) 8)
        (LED_BRIGHTNESS env) = Some vg /\
      PyFloat.floor_of_product (Z.land LEDColors.RED 0x0000FF) (LED_BRIGHTNESS env)
      = Some vb) /\
     run (main env cycles) ([], initial_world)
     = (Raise (SystemExit 1), (airports, logged w1 (show_color_writes airports vr vg vb)))) /\
  (forall k, (1 <= k <= 5)%nat ->
     (forall j, (j < k - 1)%nat -> wifi_radio_connect env j = Raise ConnectionError) ->
     wifi_radio_connect env (k - 1) = Ok () ->
     exists w1 airports' w',
       run (startup env) ([], initial_world) = (Ok (), (airports, w1)) /\
       run (main env cycles) ([], initial_world) = (Ok (), (airports', w')) /\
       map Airport.led airports' = map Airport.led airports /\
       poll_sleeps (events_since w1 w') = cycles).
Proof.
  intros Hb Hconf. destruct (configure_ok env airports w Hconf) as (_ & Hwifi & _).
  split.
  - intros Hfail.
    destruct (connect_wifi_for_fails env Hb (seqZ 1 5) airports w) as (evs & _ & Hconnect).
    { intros j Hj. rewrite Hwifi. by apply Hfail. }
    fold (Map.connect_wifi env) in Hconnect.
    destruct (connect_and_indicate_failure env Hb airports w _ Hconnect)
      as (vr & vg & vb & Hred & Hrun).
    eexists _, vr, vg, vb. split; [exact Hconnect |]. split; [exact Hred |].
    by rewrite run_main, run_startup, Hconf, Hrun.
  - intros k Hk Hfail Hok.
    destruct (connect_wifi_connected_at env Hb k airports w Hk) as (evs & _ & _ & Hconnect).
    { intros j Hj. rewrite Hwifi. by apply Hfail. }
    { by rewrite Hwifi. }
    destruct (connect_and_indicate_success env Hb airports w _ Hconnect)
      as (evs' & vr & vg & vb & _ & _ & Hrun).
    set (w1 := logged _ _) in Hrun.
    destruct (poll_ok env Hb cycles airports w1)
      as (airports' & evs2 & h & Hpoll & Hleds & Hsleeps).
    exists w1, airports', (mkWorld (log w1 ++ evs2) h (wifi_n w1)).
    assert (run (startup env) ([], initial_world) = (Ok (), (airports, w1))) as Hstart
      by (by rewrite run_startup, Hconf).
    split_and!; try done.
    + by rewrite run_main, Hstart.
    + by rewrite events_since_app.
Qed.

(** C6 (as amended). With a brightness in [[0, 1]] and LEDs that share no
    channel, the stored category of every airport is the category whose
    color its LED displays after the airports are constructed, after every
    update, and whenever [main] is between two polling cycles.  (The
    indicator colors of the startup sequence are outside this statement.) *)
Theorem display_matches_category_after_updates (env : Env) (session : Session.t) :
  PyFloat.in_unit_interval (LED_BRIGHTNESS env) ->
  (forall lines board_manager w0 airports w,
     run (AirportManager.load_lines env lines board_manager) ([], w0) = (Ok (), (airports, w)) ->
     distinct_leds airports ->
     display_invariant env airports w) /\
  (forall l1 self l2 w,
     distinct_leds (l1 ++ self :: l2) ->
     display_invariant env (l1 ++ self :: l2) w ->
     exists self' w',
       run (Airport.update_flight_category env session) (self, w) = (Ok (), (self', w')) /\
       Airport.led self' = Airport.led self /\
       display_invariant env (l1 ++ self' :: l2) w') /\
  (forall cycles airports w,
     run (main env cycles) ([], initial_world) = (Ok (), (airports, w)) ->
     distinct_leds airports ->
     display_invariant env airports w).
Proof.
  intros Hb. split_and!.
  - intros lines bm w0 airports w Hload Hdist.
    destruct (load_lines_establishes_display env Hb lines bm [] airports w0 w Hload)
      as (_ & _ & Hdisplay).
    apply Hdisplay; [done | constructor].
  - intros l1 self l2 w Hdist Hinv.
    destruct (update_preserves_display env session Hb l1 l2 self w Hdist Hinv)
      as (c & evs & h & Hrun & Hinv').
    eauto.
  - intros cycles airports w Hmain Hdist.
    rewrite run_main, run_startup in Hmain.
    destruct (run (configure env) ([], initial_world)) as [[[] | e] [airports0 w0]] eqn:Hconf;
      [| done].
    destruct (configure_ok env airports0 w0 Hconf) as (_ & _ & lines & w00 & _ & Hload).
    destruct (load_lines_establishes_display env Hb lines main_board_manager []
                airports0 w00 w0 Hload) as (_ & Hunknown & _).
    specialize (Hunknown (Forall_nil_2 _)).
    destruct (run (connect_and_indicate env) (airports0, w0)) as [[[] | e] s1] eqn:Hci;
      [| done].
    destruct (connect_and_indicate_ok env Hb airports0 w0 s1 Hci)
      as (w1 & evs & vr & vg & vb & (Hr & Hg & Hbl) & ->).
    destruct (poll_ok env Hb cycles airports0
                (logged w1 (evs ++ show_color_writes airports0 vr vg vb)))
      as (airports' & evs2 & h & Hpoll & Hleds & _).
    rewrite Hpoll in Hmain. injection Hmain as -> <-.
    assert (distinct_leds airports0) as Hdist0
      by (eapply distinct_leds_same_leds; [exact Hleds | done]).
    destruct (poll_preserves_display env Hb cycles airports0
                (logged w1 (evs ++ show_color_writes airports0 vr vg vb)) Hdist0)
      as (airports2 & w2 & Hpoll2 & _ & Hinv2).
    + unfold display_invariant, displays_category, logged. cbn [log].
      rewrite app_assoc.
      pose proof (show_color_shows LEDColors.YELLOW (LED_BRIGHTNESS env) vr vg vb
                    Hr Hg Hbl airports0 (log w1 ++ evs) Hdist0) as Hshows.
      unfold all_unknown in Hunknown.
      rewrite Forall_forall in Hshows, Hunknown. apply Forall_forall.
      intros a Ha. rewrite (Hunknown a Ha). by apply Hshows.
    + rewrite Hpoll in Hpoll2. by injection Hpoll2 as -> ->.
Qed.

(** C9 (as amended). Configuration loading does not validate its lines and
    does not swallow a malformed one: a line of fewer than 7 fields raises
    in [from_config_line] ([IndexError], or [ValueError] when a numeric
    field that is present is malformed; [IndexError] for a blank line)
    before anything is constructed, and loading a file that has such a
    line ends with an exception, no airport being added for that line or a
    later one. *)
Theorem malformed_line_aborts_loading
    (env : Env) (filename : string) (pre : list string) (line : string) (post : list string)
    (board_manager : BoardManager.t) (airports : list Airport.t) (w : World) :
  (length (split line) < 7)%nat ->
  files env filename = Some (pre ++ line :: post) ->
  (exists e, run (Airport.from_config_line env line board_manager) w = (Raise e, w) /\
             (e = IndexError \/ e = ValueError)) /\
  (split line = [] ->
   run (Airport.from_config_line env line board_manager) w = (Raise IndexError, w)) /\
  exists e airports' w',
    run (AirportManager.load_airports env filename board_manager) (airports, w)
    = (Raise e, (airports', w')) /\
    (length airports' <= length airports + length pre)%nat.
Proof.
  intros Hshort Hfile. split_and!.
  - by apply from_config_line_short.
  - intros Hblank. unfold Airport.from_config_line. by rewrite Hblank.
  - unfold AirportManager.load_airports. rewrite Hfile.
    apply load_lines_aborts. intros w'.
    destruct (from_config_line_short env line board_manager w' Hshort) as (e & He & _).
    eauto.
Qed.

Lemma malformed_line_aborts_loading_witness :
  (length (split newline) < 7)%nat /\
  files blank_line_env "./lib/config.txt"
  = Some (["KJFK 0 58 0 1 2 KLGA" +:+ newline] ++ newline
          :: ["KXYZ 1 5B 3 4 5 KABC" +:+ newline]) /\
  (exists e, run (Airport.from_config_line blank_line_env newline main_board_manager)
               initial_world = (Raise e, initial_world) /\
             (e = IndexError \/ e = ValueError)) /\
  (split newline = [] ->
   run (Airport.from_config_line blank_line_env newline main_board_manager) initial_world
   = (Raise IndexError, initial_world)) /\
  exists e airports' w',
    run (AirportManager.load_airports blank_line_env "./lib/config.txt" main_board_manager)
      ([], initial_world)
    = (Raise e, (airports', w')) /\
    (length airports' <= length (@nil Airport.t) + length ["KJFK 0 58 0 1 2 KLGA" +:+ newline])%nat.
Proof.
  assert (length (split newline) < 7)%nat as Hshort by (vm_compute; lia).
  assert (files blank_line_env "./lib/config.txt"
          = Some (["KJFK 0 58 0 1 2 KLGA" +:+ newline] ++ newline
                  :: ["KXYZ 1 5B 3 4 5 KABC" +:+ newline])) as Hfile by reflexivity.
  split; [exact Hshort |]. split; [exact Hfile |].
  exact (malformed_line_aborts_loading blank_line_env "./lib/config.txt"
           ["KJFK 0 58 0 1 2 KLGA" +:+ newline] newline ["KXYZ 1 5B 3 4 5 KABC" +:+ newline]
           main_board_manager [] initial_world Hshort Hfile).
Defined.

(** C9, as stated, fails: the blank second line of this configuration file
    raises [IndexError], and loading stops there with one airport instead
    of two. *)
Lemma blank_line_raises :
  (length (split newline) < 7)%nat /\
  result (Airport.from_config_line blank_line_env newline main_board_manager) initial_world
  = Raise IndexError /\
  result (AirportManager.load_airports blank_line_env "./lib/config.txt" main_board_manager)
    ([], initial_world)
  = Raise IndexError /\
  length (after (AirportManager.load_airports blank_line_env "./lib/config.txt"
                   main_board_manager) ([], initial_world)).1 = 1%nat.
Proof. split_and!; [vm_compute; lia | by vm_compute ..]. Qed.

(** C6, as stated, fails on [show_color]: in the sample run the
    correspondence holds once the airports are constructed (Unknown,
    yellow) and no longer after the connecting indicator is shown, the
    stored categories being Unknown still. *)
Lemma show_color_breaks_display :
  display_invariant sample_env sample_airports sample_world /\
  ~ display_invariant sample_env sample_airports
      (after (Map.show_color LEDColors.WIFI_BLUE (LED_BRIGHTNESS sample_env))
         (sample_airports, sample_world)).2.
Proof.
  split.
  - unfold display_invariant, sample_airports. vm_compute (after _ _).1.
    repeat constructor; exists 255, 34, 0; by vm_compute.
  - unfold display_invariant, sample_airports. vm_compute (after _ _).1.
    intros Hinv. apply Forall_cons in Hinv as [(vr & vg & vb & Hr & _ & _ & Hlr & _) _].
    vm_compute in Hr. vm_compute in Hlr. congruence.
Qed.

(** ** The theorems on the sample runs *)

Lemma repeated_update_writes_once_witness :
  PyFloat.in_unit_interval (LED_BRIGHTNESS sample_env) /\
  result (Airport.resolve_flight_category sample_airport sample_session) initial_world
  = Ok FlightCategory.VFR /\
  result (Airport.resolve_flight_category
            (after (Airport.update_flight_category sample_env sample_session)
               (sample_airport, initial_world)).1 sample_session)
    (after (Airport.update_flight_category sample_env sample_session)
       (sample_airport, initial_world)).2 = Ok FlightCategory.VFR /\
  exists self1 w1 self2 w2,
    run (Airport.update_flight_category sample_env sample_session)
      (sample_airport, initial_world) = (Ok (), (self1, w1)) /\
    run (Airport.update_flight_category sample_env sample_session) (self1, w1)
    = (Ok (), (self2, w2)) /\
    (FlightCategory.VFR = Airport.flight_category sample_airport ->
     hardware_writes (events_since initial_world w1) = []) /\
    (FlightCategory.VFR <> Airport.flight_category sample_airport ->
     exists vr vg vb,
       PyFloat.floor_of_product
         (Z.shiftr (Airport._get_color_from_flight_category FlightCategory.VFR) 16)
         (LED_BRIGHTNESS sample_env) = Some vr /\
       PyFloat.floor_of_product
         (Z.shiftr (Z.land (Airport._get_color_from_flight_category FlightCategory.VFR)
                      0x00FF00) 8)
         (LED_BRIGHTNESS sample_env) = Some vg /\
       PyFloat.floor_of_product
         (Z.land (Airport._get_color_from_flight_category FlightCategory.VFR) 0x0000FF)
         (LED_BRIGHTNESS sample_env) = Some vb /\
       hardware_writes (events_since initial_world w1)
       = channel_writes (Airport.led sample_airport) vr vg vb) /\
    hardware_writes (events_since w1 w2) = [] /\
    Airport.flight_category self1 = FlightCategory.VFR /\
    Airport.flight_category self2 = FlightCategory.VFR.
Proof.
  assert (PyFloat.in_unit_interval (LED_BRIGHTNESS sample_env)) as Hb
    by (eexists; split; [reflexivity |]; split; unfold Qle; cbn; lia).
  assert (result (Airport.resolve_flight_category sample_airport sample_session) initial_world
          = Ok FlightCategory.VFR) as H1 by (vm_compute; reflexivity).
  assert (result (Airport.resolve_flight_category
                    (after (Airport.update_flight_category sample_env sample_session)
                       (sample_airport, initial_world)).1 sample_session)
            (after (Airport.update_flight_category sample_env sample_session)
               (sample_airport, initial_world)).2 = Ok FlightCategory.VFR) as H2
    by (vm_compute; reflexivity).
  split; [exact Hb |]. split; [exact H1 |]. split; [exact H2 |].
  exact (repeated_update_writes_once sample_env sample_session sample_airport initial_world
           FlightCategory.VFR Hb H1 H2).
Defined.

Lemma connect_wifi_retry_bound_witness :
  PyFloat.in_unit_interval (LED_BRIGHTNESS sample_env) /\
  (connection_attempts
     (events_since sample_world
        (after (Map.connect_wifi sample_env) (sample_airports, sample_world)).2) <= 5)%nat /\
  exists w',
    run (Map.connect_wifi sample_env) (sample_airports, sample_world)
    = (Ok true, (sample_airports, w')) /\
    connectivity_events (events_since sample_world w')
    = failed_attempts (3 - 1) ++ [EvWifiConnect] /\
    connection_attempts (events_since sample_world w') = 3%nat /\
    last (events_since sample_world w') = Some (EvPrint "Connected to WIFI").
Proof.
  assert (PyFloat.in_unit_interval (LED_BRIGHTNESS sample_env)) as Hb
    by (eexists; split; [reflexivity |]; split; unfold Qle; cbn; lia).
  split; [exact Hb |].
  destruct (connect_wifi_retry_bound sample_env sample_airports sample_world Hb)
    as (Hbound & _ & Hsuccess).
  split; [exact Hbound |].
  apply (Hsuccess 3%nat).
  - lia.
  - intros j Hj. destruct j as [| [| j]]; [reflexivity | reflexivity | lia].
  - reflexivity.
Defined.

Lemma connectivity_failure_exits_success_polls_witness :
  PyFloat.in_unit_interval (LED_BRIGHTNESS offline_env) /\
  run (configure offline_env) ([], initial_world) = (Ok (), (sample_airports, sample_world)) /\
  exists w1 vr vg vb,
    run (Map.connect_wifi offline_env) (sample_airports, sample_world)
    = (Ok false, (sample_airports, w1)) /\
    (PyFloat.floor_of_product (Z.shiftr LEDColors.RED 16) (LED_BRIGHTNESS offline_env) = Some vr /\
     PyFloat.floor_of_product (Z.shiftr (Z.land LEDColors.RED 0x00FF00) 8)
       (LED_BRIGHTNESS offline_env) = Some vg /\
     PyFloat.floor_of_product (Z.land LEDColors.RED 0x0000FF) (LED_BRIGHTNESS offline_env)
     = Some vb) /\
    run (main offline_env 2) ([], initial_world)
    = (Raise (SystemExit 1),
       (sample_airports, logged w1 (show_color_writes sample_airports vr vg vb))).
Proof.
  assert (PyFloat.in_unit_interval (LED_BRIGHTNESS offline_env)) as Hb
    by (eexists; split; [reflexivity |]; split; unfold Qle; cbn; lia).
  assert (run (configure offline_env) ([], initial_world)
          = (Ok (), (sample_airports, sample_world))) as Hconf by (vm_compute; reflexivity).
  split; [exact Hb |]. split; [exact Hconf |].
  apply (connectivity_failure_exits_success_polls offline_env sample_airports sample_world 2
           Hb Hconf).
  intros j Hj. reflexivity.
Defined.

Lemma display_matches_category_after_updates_witness :
  PyFloat.in_unit_interval (LED_BRIGHTNESS sample_env) /\
  display_invariant sample_env
    (after (main sample_env 1) ([], initial_world)).1
    (after (main sample_env 1) ([], initial_world)).2.
Proof.
  assert (PyFloat.in_unit_interval (LED_BRIGHTNESS sample_env)) as Hb
    by (eexists; split; [reflexivity |]; split; unfold Qle; cbn; lia).
  split; [exact Hb |].
  apply (proj2 (proj2 (display_matches_category_after_updates sample_env sample_session Hb)) 1%nat).
  - vm_compute. reflexivity.
  - unfold distinct_leds. apply (bool_decide_unpack _). vm_compute. exact I.
Defined.

Lemma unresolved_board_aborts_startup_witness :
  files unresolved_env "./lib/config.txt"
  = Some (["KJFK 0 58 0 1 2 KLGA" +:+ newline] ++ ("KXYZ 1 60 3 4 5 KABC" +:+ newline) :: []) /\
  controller_field ("KXYZ 1 60 3 4 5 KABC" +:+ newline) = Ok 1 /\
  addr_field ("KXYZ 1 60 3 4 5 KABC" +:+ newline) = Ok 0x60 /\
  (forall board, BoardManager.get_board main_board_manager 1 0x60 <> Ok (Some board)) /\
  exists e airports w',
    run (configure unresolved_env) ([], initial_world) = (Raise e, (airports, w')) /\
    run (main unresolved_env 1) ([], initial_world) = (Raise e, (airports, w')) /\
    (length airports <= length ["KJFK 0 58 0 1 2 KLGA" +:+ newline])%nat /\
    connection_attempts (log w') = 0%nat /\ requests_in (log w') = [].
Proof.
  assert (files unresolved_env "./lib/config.txt"
          = Some (["KJFK 0 58 0 1 2 KLGA" +:+ newline]
                  ++ ("KXYZ 1 60 3 4 5 KABC" +:+ newline) :: [])) as Hfile by reflexivity.
  assert (controller_field ("KXYZ 1 60 3 4 5 KABC" +:+ newline) = Ok 1) as Hc
    by (vm_compute; reflexivity).
  assert (addr_field ("KXYZ 1 60 3 4 5 KABC" +:+ newline) = Ok 0x60) as Ha
    by (vm_compute; reflexivity).
  assert (forall board, BoardManager.get_board main_board_manager 1 0x60 <> Ok (Some board))
    as Hboard by (intros board; vm_compute; discriminate).
  split; [exact Hfile |]. split; [exact Hc |]. split; [exact Ha |]. split; [exact Hboard |].
  exact (proj2 (proj2 (unresolved_board_aborts_startup unresolved_env
                         ["KJFK 0 58 0 1 2 KLGA" +:+ newline]
                         ("KXYZ 1 60 3 4 5 KABC" +:+ newline) [] 1 0x60 1
                         Hfile Hc Ha Hboard))).
Defined.

Lemma unrecognized_alternate_resolves_unknown_witness :
  PyFloat.in_unit_interval (LED_BRIGHTNESS sample_env) /\
  primary_failed
    (Session.responses sample_session (http_n initial_world)
       (metar_url (Airport.airport_code sample_airport_xyz))) /\
  Session.responses sample_session (S (http_n initial_world))
    (metar_url (Airport.alternate sample_airport_xyz))
  = GetReturns (inr "<METAR><flight_category>CLR</flight_category></METAR>") /\
  re_search_flight_category "<METAR><flight_category>CLR</flight_category></METAR>"
  = Some "CLR" /\
  ("CLR" ∉ ["UNKNOWN"; "VFR"; "MVFR"; "IFR"; "LIFR"]) /\
  exists w1 w',
    run (Airport.resolve_flight_category sample_airport_xyz sample_session) initial_world
    = (Ok FlightCategory.UNKNOWN, w1) /\
    events_since initial_world w1
    = [EvHttpGet (metar_url (Airport.airport_code sample_airport_xyz))]
      ++ closes (response_of
                   (Session.responses sample_session (http_n initial_world)
                      (metar_url (Airport.airport_code sample_airport_xyz)))
                   (http_n initial_world) None)
      ++ [EvPrint (trying_alternate_line sample_airport_xyz);
          EvHttpGet (metar_url (Airport.alternate sample_airport_xyz));
          EvClose (S (http_n initial_world))] /\
    (forall ex, EvPrint (error_line sample_airport_xyz ex) ∉ events_since initial_world w') /\
    requests_in (events_since initial_world w')
    = [EvHttpGet (metar_url (Airport.airport_code sample_airport_xyz));
       EvHttpGet (metar_url (Airport.alternate sample_airport_xyz))] /\
    run (Airport.update_flight_category sample_env sample_session)
      (sample_airport_xyz, initial_world)
    = (Ok (), (with_category sample_airport_xyz FlightCategory.UNKNOWN, w')) /\
    (Airport.flight_category sample_airport_xyz = FlightCategory.UNKNOWN -> w' = w1) /\
    (Airport.flight_category sample_airport_xyz <> FlightCategory.UNKNOWN ->
     exists vr vg vb,
       PyFloat.floor_of_product (Z.shiftr LEDColors.YELLOW 16) (LED_BRIGHTNESS sample_env)
       = Some vr /\
       PyFloat.floor_of_product (Z.shiftr (Z.land LEDColors.YELLOW 0x00FF00) 8)
         (LED_BRIGHTNESS sample_env) = Some vg /\
       PyFloat.floor_of_product (Z.land LEDColors.YELLOW 0x0000FF) (LED_BRIGHTNESS sample_env)
       = Some vb /\
       w' = logged w1 (channel_writes (Airport.led sample_airport_xyz) vr vg vb)).
Proof.
  assert (PyFloat.in_unit_interval (LED_BRIGHTNESS sample_env)) as Hb
    by (eexists; split; [reflexivity |]; split; unfold Qle; cbn; lia).
  assert (primary_failed
            (Session.responses sample_session (http_n initial_world)
               (metar_url (Airport.airport_code sample_airport_xyz)))) as Hf
    by (left; exists "timed out"; vm_compute; reflexivity).
  assert (Session.responses sample_session (S (http_n initial_world))
            (metar_url (Airport.alternate sample_airport_xyz))
          = GetReturns (inr "<METAR><flight_category>CLR</flight_category></METAR>")) as Halt
    by (vm_compute; reflexivity).
  assert (re_search_flight_category "<METAR><flight_category>CLR</flight_category></METAR>"
          = Some "CLR") as Hsearch by (vm_compute; reflexivity).
  assert ("CLR" ∉ ["UNKNOWN"; "VFR"; "MVFR"; "IFR"; "LIFR"]) as Hgroup
    by (apply (bool_decide_unpack _); vm_compute; exact I).
  split; [exact Hb |]. split; [exact Hf |]. split; [exact Halt |].
  split; [exact Hsearch |]. split; [exact Hgroup |].
  exact (unrecognized_alternate_resolves_unknown sample_env sample_session sample_airport_xyz
           initial_world _ _ Hb Hf Halt Hsearch Hgroup).
Defined.


(** * Further properties of the program *)

(** ** The board registry *)


Lemma py_getitem_in_range {A} (l : list A) (i : Z) :
  index_in_range (length l) i <-> exists x, py_getitem l i = Ok x.
Proof.
  unfold index_in_range, py_getitem. split.
  - intros Hi.
    assert (0 <= (if i <? 0 then i + Z.of_nat (length l) else i) < Z.of_nat (length l)) as Hj
      by (destruct (Z.ltb_spec i 0); lia).
    destruct (Z.leb_spec 0 (if i <? 0 then i + Z.of_nat (length l) else i)); [| lia].
    destruct (Z.ltb_spec (if i <? 0 then i + Z.of_nat (length l) else i)
                (Z.of_nat (length l))); [| lia].
    cbn. destruct (l !! _) as [x |] eqn:Hx; [eauto |].
    apply lookup_ge_None in Hx. lia.
  - intros [x Hx].
    destruct (Z.leb_spec 0 (if i <? 0 then i + Z.of_nat (length l) else i)); [| done].
    destruct (Z.ltb_spec (if i <? 0 then i + Z.of_nat (length l) else i)
                (Z.of_nat (length l))); [| done].
    destruct (Z.ltb_spec i 0); lia.
Qed.


(** X1. A board registered with [add_board] is found again: after
    [add_board] for the controller of index [controller_index] and an
    address, [get_board] with that index and address returns a board on
    that controller and address; the call initialises the board (one
    event) and lookups that resolved before resolve to the same board. *)
Theorem add_board_then_get_board
    (self : BoardManager.t) (controller : I2CController.t) (controller_index addr : Z)
    (w : World) :
  py_getitem (BoardManager.controllers self) controller_index = Ok controller ->
  exists self',
    run (BoardManager.add_board self controller addr) w
    = (Ok self', logged w [EvBoardInit (LEDDriverBoard.mk controller addr)]) /\
    BoardManager.controllers self' = BoardManager.controllers self /\
    BoardManager.get_board self' controller_index addr
    = Ok (Some (LEDDriverBoard.mk controller addr)) /\
    forall ci a board,
      BoardManager.get_board self ci a = Ok (Some board) ->
      BoardManager.get_board self' ci a = Ok (Some board).
Proof.
  intros Hc. eexists. split; [reflexivity |]. cbn [BoardManager.controllers].
  split; [done |]. unfold BoardManager.get_board. cbn [BoardManager.controllers BoardManager.boards].
  split.
  - generalize (BoardManager.boards self). intros boards.
    induction boards as [| b boards IH]; cbn [app BoardManager.get_board_in]; rewrite Hc; cbn.
    + by rewrite decide_True.
    + destruct (decide _) as [[Hbc Hba] |]; [| exact IH].
      destruct b as [bc ba]. cbn in *. by subst.
  - intros ci a board. generalize (BoardManager.boards self). intros boards.
    induction boards as [| b boards IH]; cbn [app BoardManager.get_board_in]; [done |].
    destruct (py_getitem (BoardManager.controllers self) ci) as [c |]; cbn; [| done].
    by destruct (decide _).
Qed.

Lemma add_board_then_get_board_witness :
  py_getitem (BoardManager.controllers (BoardManager.__init__ [i2c0; i2c1])) (-1) = Ok i2c1 /\
  exists self',
    run (BoardManager.add_board (BoardManager.__init__ [i2c0; i2c1]) i2c1 0x5A) initial_world
    = (Ok self', logged initial_world [EvBoardInit (LEDDriverBoard.mk i2c1 0x5A)]) /\
    BoardManager.controllers self'
    = BoardManager.controllers (BoardManager.__init__ [i2c0; i2c1]) /\
    BoardManager.get_board self' (-1) 0x5A = Ok (Some (LEDDriverBoard.mk i2c1 0x5A)) /\
    forall ci a board,
      BoardManager.get_board (BoardManager.__init__ [i2c0; i2c1]) ci a = Ok (Some board) ->
      BoardManager.get_board self' ci a = Ok (Some board).
Proof.
  assert (py_getitem (BoardManager.controllers (BoardManager.__init__ [i2c0; i2c1])) (-1)
          = Ok i2c1) as Hc by reflexivity.
  split; [exact Hc |].
  exact (add_board_then_get_board (BoardManager.__init__ [i2c0; i2c1]) i2c1 (-1) 0x5A
           initial_world Hc).
Defined.



Lemma main_registry_in_range (controller_index addr : Z) :
  index_in_range 2 controller_index -> 0x58 <= addr <= 0x5B ->
  BoardManager.get_board main_board_manager controller_index addr
  = Ok (Some (LEDDriverBoard.mk (main_controller controller_index) addr)).
Proof.
  unfold index_in_range. intros Hi Ha.
  assert (controller_index = -2 \/ controller_index = -1 \/ controller_index = 0
          \/ controller_index = 1) as [-> | [-> | [-> | ->]]] by lia;
    (assert (addr = 0x58 \/ addr = 0x59 \/ addr = 0x5A \/ addr = 0x5B)
      as [-> | [-> | [-> | ->]]] by lia); reflexivity.
Qed.

(** X3. Which places of a configuration line resolve on the registry
    [main] builds: the controller index must be one of -2, -1, 0, 1 and
    the address one of 0x58 to 0x5B; the board found is then the one at
    that address on the controller the index denotes.  Another address
    gives [None], another index raises [IndexError]. *)
Theorem main_registry_resolves (airports : list Airport.t) (w : World)
    (controller_index addr : Z) :
  exists w',
    run (in_world (add_boards (BoardManager.__init__ [i2c0; i2c1]) board_places))
      (airports, w) = (Ok main_board_manager, (airports, w')) /\
    BoardManager.get_board main_board_manager controller_index addr
    = if decide (index_in_range 2 controller_index)
      then if decide (0x58 <= addr <= 0x5B)
           then Ok (Some (LEDDriverBoard.mk (main_controller controller_index) addr))
           else Ok None
      else Raise IndexError.
Proof.
  eexists. split; [apply run_add_boards |].
  destruct (decide (index_in_range 2 controller_index)) as [Hi | Hi].
  - destruct (decide (0x58 <= addr <= 0x5B)) as [Ha | Ha].
    + by apply main_registry_in_range.
    + pose proof (get_board_in_spec (BoardManager.controllers main_board_manager)
                    (BoardManager.boards main_board_manager) controller_index addr) as Hspec.
      unfold BoardManager.get_board.
      destruct (BoardManager.get_board_in _ _ _ _) as [[board |] | e]; [| done |].
      * destruct Hspec as [Hin [_ Haddr]]. exfalso. apply Ha. rewrite <- Haddr. clear -Hin.
        revert board Hin. apply Forall_forall. vm_compute.
        repeat constructor; discriminate.
      * destruct Hspec as [_ Hget].
        apply (py_getitem_in_range [i2c0; i2c1]) in Hi as [c Hc].
        cbn in Hget. congruence.
  - unfold BoardManager.get_board.
    change (BoardManager.controllers main_board_manager) with [i2c0; i2c1].
    assert (py_getitem [i2c0; i2c1] controller_index = Raise IndexError) as Hget.
    { destruct (py_getitem [i2c0; i2c1] controller_index) as [c | e] eqn:Hget.
      - destruct Hi. apply (py_getitem_in_range [i2c0; i2c1]). eauto.
      - by apply py_getitem_raises in Hget as ->. }
    change (BoardManager.boards main_board_manager)
      with (LEDDriverBoard.mk i2c0 0x58 :: tail (BoardManager.boards main_board_manager)).
    cbn [BoardManager.get_board_in]. by rewrite Hget.
Qed.

(** ** Categories and their colors *)

Lemma color_of_unrecognized (name : string) :
  name ∉ ["UNKNOWN"; "VFR"; "MVFR"; "IFR"; "LIFR"] ->
  Airport._get_color_from_flight_category name = LEDColors.YELLOW.
Proof.
  intros Hname. repeat (apply not_elem_of_cons in Hname as [? Hname]).
  unfold Airport._get_color_from_flight_category, Airport.color_map.
  rewrite !lookup_insert_ne by done. by rewrite lookup_singleton_ne.
Qed.

Lemma color_injective_on_values (c1 c2 : FlightCategory.t) :
  c1 ∈ FlightCategory.values -> c2 ∈ FlightCategory.values ->
  Airport._get_color_from_flight_category c1 = Airport._get_color_from_flight_category c2 ->
  c1 = c2.
Proof.
  intros H1 H2.
  repeat (apply elem_of_cons in H1 as [-> | H1]);
    try (by apply elem_of_nil in H1);
    repeat (apply elem_of_cons in H2 as [-> | H2]);
    try (by apply elem_of_nil in H2); by vm_compute.
Qed.

(** X4. The color tells the category: two strings are shown in the same
    color exactly when they parse to the same flight category, a raw
    string has the color of the category it parses to, and the color that
    signals a connection attempt is the color of no category. *)
Theorem color_identifies_category (s t : string) :
  (Airport._get_color_from_flight_category (FlightCategory.from_string s)
   = Airport._get_color_from_flight_category (FlightCategory.from_string t)
   <-> FlightCategory.from_string s = FlightCategory.from_string t) /\
  Airport._get_color_from_flight_category s
  = Airport._get_color_from_flight_category (FlightCategory.from_string s) /\
  Airport._get_color_from_flight_category s <> LEDColors.WIFI_BLUE.
Proof.
  split_and!.
  - split; [| by intros ->].
    apply color_injective_on_values; apply from_string_value.
  - destruct (decide (s ∈ ["UNKNOWN"; "VFR"; "MVFR"; "IFR"; "LIFR"])) as [Hin | Hout].
    + by rewrite from_string_recognized.
    + rewrite from_string_unrecognized by done. by rewrite color_of_unrecognized.
  - destruct (decide (s ∈ ["UNKNOWN"; "VFR"; "MVFR"; "IFR"; "LIFR"])) as [Hin | Hout].
    + repeat (apply elem_of_cons in Hin as [-> | Hin]; [by vm_compute |]).
      by apply elem_of_nil in Hin.
    + by rewrite color_of_unrecognized.
Qed.

(** ** What an update stores *)

Lemma category_of_response_value (r : http_result) (c : FlightCategory.t) :
  category_of_response r = Ok c -> c ∈ FlightCategory.values.
Proof.
  destruct r as [msg | [msg | text]]; cbn; [done | done |].
  destruct (re_search_flight_category text); [| done].
  intros [= <-]. apply from_string_value.
Qed.

Lemma resolve_value (self : Airport.t) (session : Session.t) (w w1 : World)
    (c : FlightCategory.t) :
  run (Airport.resolve_flight_category self session) w = (Ok c, w1) ->
  c ∈ FlightCategory.values.
Proof.
  destruct (primary_failed_or_recognized
              (Session.responses session (http_n w) (metar_url (Airport.airport_code self))))
    as [Hfailed | [c' Hrec]].
  - rewrite (resolve_primary_failed _ _ _ Hfailed). intros [= <- _].
    unfold alternate_category.
    destruct (category_of_response _) as [c' |] eqn:Hc.
    + by eapply category_of_response_value.
    + apply elem_of_cons. by left.
  - rewrite (resolve_primary_recognized _ _ _ _ Hrec). intros [= <- _].
    apply primary_recognized_iff in Hrec as [Hc _].
    by eapply category_of_response_value.
Qed.

(** X5. Whatever the service answers and whatever the brightness is, an
    update leaves the airport with one of the five flight categories,
    namely the one the fallback chain resolved to, and with the code, the
    LED and the alternate it had. *)
Theorem update_stores_resolved_category
    (env : Env) (session : Session.t) (self : Airport.t) (w : World) :
  exists c,
    result (Airport.resolve_flight_category self session) w = Ok c /\
    c ∈ FlightCategory.values /\
    (after (Airport.update_flight_category env session) (self, w)).1 = with_category self c.
Proof.
  destruct (resolve_total self session w) as (c & evs & h & Hrun & _).
  exists c. unfold result, after. rewrite (update_run env session _ _ _ _ Hrun), Hrun.
  split_and!; [done | by eapply resolve_value |].
  destruct (decide (c = Airport.flight_category self)) as [-> | Hne]; [| done].
  by destruct self.
Qed.

(** ** The console and the responses of an update *)

Lemma attempt_raises_iff (r : http_result) (ex : exn) :
  attempt_raises r ex <-> category_of_response r = Raise ex.
Proof.
  unfold attempt_raises. split.
  - intros [(msg & [-> | ->] & ->) | (text & -> & Hnone & ->)]; cbn; [done | done |].
    by rewrite Hnone.
  - destruct r as [msg | [msg | text]]; cbn.
    + intros [= <-]. left. eauto.
    + intros [= <-]. left. eauto.
    + destruct (re_search_flight_category text) eqn:Hs; [done |].
      intros [= <-]. right. eauto.
Qed.

Lemma printed_app (evs evs' : list event) : printed (evs ++ evs') = printed evs ++ printed evs'.
Proof. apply omap_app. Qed.

Lemma closed_app (evs evs' : list event) : closed (evs ++ evs') = closed evs ++ closed evs'.
Proof. apply omap_app. Qed.

Lemma printed_writes (evs : list event) :
  Forall (λ e, is_set_current e = true) evs -> printed evs = [].
Proof.
  induction 1 as [| e evs He _ IH]; [done |]. by destruct e.
Qed.

Lemma closed_writes (evs : list event) :
  Forall (λ e, is_set_current e = true) evs -> closed evs = [].
Proof.
  induction 1 as [| e evs He _ IH]; [done |]. by destruct e.
Qed.

Lemma printed_closes (resp : option Response.t) : printed (closes resp) = [].
Proof. by destruct resp. Qed.

(** The events of an update are those of the fallback chain followed by
    register writes. *)
Lemma update_events_of_resolve (env : Env) (session : Session.t) (self : Airport.t)
    (w : World) (c : FlightCategory.t) (evs1 : list event) (h : nat) :
  run (Airport.resolve_flight_category self session) w
  = (Ok c, mkWorld (log w ++ evs1) h (wifi_n w)) ->
  exists evs2,
    update_events_of env session self w = evs1 ++ evs2 /\
    Forall (λ e, is_set_current e = true) evs2 /\
    (after (Airport.update_flight_category env session) (self, w)).1 = with_category self c.
Proof.
  intros Hrun. unfold update_events_of, after.
  rewrite (update_run env session _ _ _ _ Hrun).
  destruct (decide (c = Airport.flight_category self)) as [-> | Hne].
  - exists []. cbn. rewrite app_nil_r, events_since_app. split_and!; [done | done |].
    by destruct self.
  - destruct (set_color_adds_writes (Airport.led self)
                (Airport._get_color_from_flight_category c) (LED_BRIGHTNESS env)
                (mkWorld (log w ++ evs1) h (wifi_n w))) as (evs2 & -> & Hevs2).
    exists evs2. cbn. unfold logged. cbn. by rewrite <- app_assoc, events_since_app.
Qed.

Lemma update_events_of_failed (env : Env) (session : Session.t) (self : Airport.t)
    (w : World) :
  let primary := Session.responses session (http_n w) (metar_url (Airport.airport_code self)) in
  let alternate := Session.responses session (S (http_n w))
                     (metar_url (Airport.alternate self)) in
  primary_failed primary ->
  exists evs2,
    update_events_of env session self w
    = alternate_events self primary alternate (http_n w) ++ evs2 /\
    Forall (λ e, is_set_current e = true) evs2 /\
    (after (Airport.update_flight_category env session) (self, w)).1
    = with_category self (alternate_category alternate).
Proof.
  intros primary alternate Hfailed.
  apply (update_events_of_resolve env session self w _ _ (S (S (http_n w)))).
  by apply resolve_primary_failed.
Qed.

Lemma update_events_of_recognized (env : Env) (session : Session.t) (self : Airport.t)
    (w : World) (c : FlightCategory.t) :
  primary_recognized
    (Session.responses session (http_n w) (metar_url (Airport.airport_code self))) c ->
  exists evs2,
    update_events_of env session self w
    = [EvHttpGet (metar_url (Airport.airport_code self)); EvClose (http_n w)] ++ evs2 /\
    Forall (λ e, is_set_current e = true) evs2 /\
    (after (Airport.update_flight_category env session) (self, w)).1 = with_category self c.
Proof.
  intros Hrec.
  apply (update_events_of_resolve env session self w _ _ (S (http_n w))).
  by apply resolve_primary_recognized.
Qed.

Lemma printed_alternate_events (self : Airport.t) (primary alternate : http_result) (n : nat) :
  printed (alternate_events self primary alternate n)
  = trying_alternate_line self
    :: match category_of_response alternate with
       | Ok _ => []
       | Raise ex => [error_line self ex]
       end.
Proof.
  unfold alternate_events. rewrite !printed_app, !printed_closes.
  by destruct (category_of_response alternate).
Qed.

(** X6. When the primary attempt fails and the alternate's body carries a
    marker, the marked text decides: the airport is left with the
    category the text parses to, two requests were made, and the only
    line printed is the notice that the alternate is tried. *)
Theorem alternate_answer_decides
    (env : Env) (session : Session.t) (self : Airport.t) (w : World) (text group1 : string) :
  primary_failed
    (Session.responses session (http_n w) (metar_url (Airport.airport_code self))) ->
  Session.responses session (S (http_n w)) (metar_url (Airport.alternate self))
  = GetReturns (inr text) ->
  re_search_flight_category text = Some group1 ->
  (after (Airport.update_flight_category env session) (self, w)).1
  = with_category self (FlightCategory.from_string group1) /\
  printed (update_events_of env session self w) = [trying_alternate_line self] /\
  requests_in (update_events_of env session self w)
  = [EvHttpGet (metar_url (Airport.airport_code self));
     EvHttpGet (metar_url (Airport.alternate self))].
Proof.
  intros Hfailed Halt Hsearch.
  destruct (update_events_of_failed env session self w Hfailed) as (evs2 & -> & Hevs2 & ->).
  rewrite printed_app, requests_in_app, printed_alternate_events,
    requests_in_alternate_events, (printed_writes _ Hevs2), (requests_in_writes _ Hevs2).
  unfold alternate_category. rewrite Halt. cbn. rewrite Hsearch. done.
Qed.

Lemma alternate_answer_decides_witness :
  primary_failed
    (Session.responses sample_session (http_n initial_world)
       (metar_url (Airport.airport_code sample_airport))) /\
  Session.responses sample_session (S (http_n initial_world))
    (metar_url (Airport.alternate sample_airport))
  = GetReturns (inr "<METAR><flight_category>VFR</flight_category></METAR>") /\
  re_search_flight_category "<METAR><flight_category>VFR</flight_category></METAR>"
  = Some "VFR" /\
  (after (Airport.update_flight_category sample_env sample_session)
     (sample_airport, initial_world)).1
  = with_category sample_airport (FlightCategory.from_string "VFR") /\
  printed (update_events_of sample_env sample_session sample_airport initial_world)
  = [trying_alternate_line sample_airport] /\
  requests_in (update_events_of sample_env sample_session sample_airport initial_world)
  = [EvHttpGet (metar_url (Airport.airport_code sample_airport));
     EvHttpGet (metar_url (Airport.alternate sample_airport))].
Proof.
  assert (primary_failed
            (Session.responses sample_session (http_n initial_world)
               (metar_url (Airport.airport_code sample_airport)))) as Hf
    by (left; exists "timed out"; vm_compute; reflexivity).
  assert (Session.responses sample_session (S (http_n initial_world))
            (metar_url (Airport.alternate sample_airport))
          = GetReturns (inr "<METAR><flight_category>VFR</flight_category></METAR>")) as Halt
    by (vm_compute; reflexivity).
  assert (re_search_flight_category "<METAR><flight_category>VFR</flight_category></METAR>"
          = Some "VFR") as Hsearch by (vm_compute; reflexivity).
  split; [exact Hf |]. split; [exact Halt |]. split; [exact Hsearch |].
  exact (alternate_answer_decides sample_env sample_session sample_airport initial_world
           _ _ Hf Halt Hsearch).
Defined.

(** X7. When both attempts fail, the alternate by raising (the request,
    the read of the body, or the missing marker), the airport is left
    Unknown and exactly two lines are printed: the notice that the
    alternate is tried and one error line, which names the primary code
    and carries the message of the alternate's exception. *)
Theorem both_attempts_fail_reports_error
    (env : Env) (session : Session.t) (self : Airport.t) (w : World) (ex : exn) :
  primary_failed
    (Session.responses session (http_n w) (metar_url (Airport.airport_code self))) ->
  attempt_raises
    (Session.responses session (S (http_n w)) (metar_url (Airport.alternate self))) ex ->
  (after (Airport.update_flight_category env session) (self, w)).1
  = with_category self FlightCategory.UNKNOWN /\
  printed (update_events_of env session self w)
  = [trying_alternate_line self;
     "[Error (" +:+ Airport.airport_code self +:+ ")] " +:+ exn_str ex] /\
  requests_in (update_events_of env session self w)
  = [EvHttpGet (metar_url (Airport.airport_code self));
     EvHttpGet (metar_url (Airport.alternate self))].
Proof.
  intros Hfailed Halt. apply attempt_raises_iff in Halt.
  destruct (update_events_of_failed env session self w Hfailed) as (evs2 & -> & Hevs2 & ->).
  rewrite printed_app, requests_in_app, printed_alternate_events,
    requests_in_alternate_events, (printed_writes _ Hevs2), (requests_in_writes _ Hevs2).
  unfold alternate_category. rewrite Halt. done.
Qed.

Lemma both_attempts_fail_reports_error_witness :
  primary_failed
    (Session.responses sample_session (http_n initial_world)
       (metar_url (Airport.airport_code sample_airport_down))) /\
  attempt_raises
    (Session.responses sample_session (S (http_n initial_world))
       (metar_url (Airport.alternate sample_airport_down))) (TransportError "timed out") /\
  (after (Airport.update_flight_category sample_env sample_session)
     (sample_airport_down, initial_world)).1
  = with_category sample_airport_down FlightCategory.UNKNOWN /\
  printed (update_events_of sample_env sample_session sample_airport_down initial_world)
  = [trying_alternate_line sample_airport_down;
     "[Error (" +:+ Airport.airport_code sample_airport_down +:+ ")] "
     +:+ exn_str (TransportError "timed out")] /\
  requests_in (update_events_of sample_env sample_session sample_airport_down initial_world)
  = [EvHttpGet (metar_url (Airport.airport_code sample_airport_down));
     EvHttpGet (metar_url (Airport.alternate sample_airport_down))].
Proof.
  assert (primary_failed
            (Session.responses sample_session (http_n initial_world)
               (metar_url (Airport.airport_code sample_airport_down)))) as Hf
    by (left; exists "timed out"; vm_compute; reflexivity).
  assert (attempt_raises
            (Session.responses sample_session (S (http_n initial_world))
               (metar_url (Airport.alternate sample_airport_down)))
            (TransportError "timed out")) as Halt
    by (left; exists "timed out"; split; [left; vm_compute |]; reflexivity).
  split; [exact Hf |]. split; [exact Halt |].
  exact (both_attempts_fail_reports_error sample_env sample_session sample_airport_down
           initial_world _ Hf Halt).
Defined.

Lemma closed_alternate_events (self : Airport.t) (primary alternate : http_result) (n : nat) :
  closed (alternate_events self primary alternate n)
  = closed (closes (response_of primary n None))
    ++ closed (closes (response_of alternate (S n) (response_of primary n None))).
Proof.
  unfold alternate_events. rewrite !closed_app.
  by destruct (category_of_response alternate).
Qed.

(** X8. Which responses an update closes.  A response is closed exactly
    when its request returned one: the primary's, and the alternate's when
    the primary attempt failed.  No response stays open, but one can be
    closed twice: when the primary request returned a response that
    failed and the alternate request raised, [resp] still holds the
    primary's response in the [finally] clause; this is the only case in
    which a response is closed more than once. *)
Theorem update_closes_responses
    (env : Env) (session : Session.t) (self : Airport.t) (w : World) :
  let primary := Session.responses session (http_n w) (metar_url (Airport.airport_code self)) in
  let alternate := Session.responses session (S (http_n w))
                     (metar_url (Airport.alternate self)) in
  let evs := update_events_of env session self w in
  (forall k, k ∈ closed evs <->
     (k = http_n w /\ returns_response primary) \/
     (k = S (http_n w) /\ primary_failed primary /\ returns_response alternate)) /\
  (NoDup (closed evs) <->
   ~ (returns_response primary /\ primary_failed primary /\
      exists msg, alternate = GetRaises msg)) /\
  (returns_response primary -> primary_failed primary ->
   (exists msg, alternate = GetRaises msg) ->
   closed evs = [http_n w; http_n w]).
Proof.
  intros primary alternate evs.
  assert (forall c, primary_recognized primary c -> closed evs = [http_n w]) as Hrec.
  { intros c Hc. subst evs.
    destruct (update_events_of_recognized env session self w c Hc) as (evs2 & -> & Hevs2 & _).
    by rewrite closed_app, (closed_writes _ Hevs2). }
  assert (primary_failed primary ->
          closed evs
          = closed (closes (response_of primary (http_n w) None))
            ++ closed (closes (response_of alternate (S (http_n w))
                                 (response_of primary (http_n w) None)))) as Hfailed.
  { intros Hf. subst evs.
    destruct (update_events_of_failed env session self w Hf) as (evs2 & -> & Hevs2 & _).
    by rewrite closed_app, (closed_writes _ Hevs2), app_nil_r, closed_alternate_events. }
  unfold returns_response.
  destruct (primary_failed_or_recognized primary) as [Hf | [c Hc]].
  - rewrite (Hfailed Hf).
    destruct primary as [msg1 | body1], alternate as [msg2 | body2]; cbn.
    + split_and!.
      * intros k. rewrite elem_of_nil. split; [done |].
        intros [[_ [b [=]]] | (_ & _ & [b [=]])].
      * split; [| constructor]. intros _ [[b [=]] _].
      * by intros [b [=]].
    + split_and!.
      * intros k. rewrite list_elem_of_singleton. split; [eauto 6 |].
        intros [[_ [b [=]]] | (-> & _ & _)]; done.
      * split; [| intros _; apply NoDup_singleton]. intros _ [[b [=]] _].
      * by intros [b [=]].
    + split_and!.
      * intros k. rewrite !elem_of_cons, elem_of_nil. split; [intros [-> | [-> | []]]; eauto |].
        intros [[-> _] | (_ & _ & [b [=]])]. by left.
      * split; [| intros []; eauto]. intros Hnd. apply NoDup_cons in Hnd as [Hnd _].
        destruct Hnd. apply elem_of_cons. by left.
      * done.
    + split_and!.
      * intros k. rewrite !elem_of_cons, elem_of_nil.
        split; [intros [-> | [-> | []]]; eauto 6 |].
        intros [[-> _] | (-> & _ & _)]; auto.
      * split; [intros _ (_ & _ & [msg [=]]) |]. intros _.
        apply NoDup_cons. split; [| apply NoDup_singleton].
        rewrite list_elem_of_singleton. lia.
      * by intros _ _ [msg [=]].
  - rewrite (Hrec c Hc).
    assert (~ primary_failed primary) as Hnf
      by (intros Hf; by eapply primary_failed_not_recognized).
    assert (exists b, primary = GetReturns b) as Hret
      by (destruct Hc as (text & g & -> & _); eauto).
    split_and!.
    + intros k. rewrite list_elem_of_singleton. split; [eauto |].
      intros [[-> _] | (_ & Hf & _)]; done.
    + split; [| intros _; apply NoDup_singleton]. by intros _ (_ & Hf & _).
    + done.
Qed.

Lemma update_closes_responses_witness :
  returns_response (Session.responses flaky_session (http_n initial_world)
                      (metar_url (Airport.airport_code sample_airport))) /\
  primary_failed (Session.responses flaky_session (http_n initial_world)
                    (metar_url (Airport.airport_code sample_airport))) /\
  (exists msg, Session.responses flaky_session (S (http_n initial_world))
                 (metar_url (Airport.alternate sample_airport)) = GetRaises msg) /\
  closed (update_events_of sample_env flaky_session sample_airport initial_world)
  = [http_n initial_world; http_n initial_world].
Proof.
  assert (returns_response (Session.responses flaky_session (http_n initial_world)
                              (metar_url (Airport.airport_code sample_airport)))) as Hret
    by (exists (inr "<response/>"); vm_compute; reflexivity).
  assert (primary_failed (Session.responses flaky_session (http_n initial_world)
                            (metar_url (Airport.airport_code sample_airport)))) as Hf
    by (right; right; left; exists "<response/>"; vm_compute; split; reflexivity).
  assert (exists msg, Session.responses flaky_session (S (http_n initial_world))
                        (metar_url (Airport.alternate sample_airport)) = GetRaises msg) as Halt
    by (exists "timed out"; vm_compute; reflexivity).
  split; [exact Hret |]. split; [exact Hf |]. split; [exact Halt |].
  exact (proj2 (proj2 (update_closes_responses sample_env flaky_session sample_airport
                         initial_world)) Hret Hf Halt).
Defined.

(** ** The whole map in one color *)

Lemma show_color_run (color : Z) (brightness : float) (vr vg vb : Z)
    (airports : list Airport.t) (w : World) :
  channel_values color brightness vr vg vb ->
  run (Map.show_color color brightness) (airports, w)
  = (Ok (), (airports, logged w (show_color_writes airports vr vg vb))).
Proof.
  intros (Hr & Hg & Hb). unfold Map.show_color. rewrite run_for_each.
  revert w. induction airports as [| a rest IH]; intros w; cbn [for_each_from].
  - by rewrite logged_nil.
  - rewrite run_bind, run_get_self, run_in_world.
    rewrite (set_color_run _ _ _ _ vr vg vb) by done.
    cbn [fst snd]. by rewrite IH, logged_logged.
Qed.

Lemma channel_values_exist (color : Z) (brightness : float) :
  0 <= color < 2 ^ 24 -> PyFloat.in_unit_interval brightness ->
  exists vr vg vb, channel_values color brightness vr vg vb.
Proof.
  intros Hc Hb.
  destruct (show_color_ok color brightness [] Hc Hb) as (vr & vg & vb & Hv & _).
  by exists vr, vg, vb.
Qed.

Lemma show_color_writes_length (airports : list Airport.t) (vr vg vb : Z) :
  length (show_color_writes airports vr vg vb) = (3 * length airports)%nat.
Proof.
  unfold show_color_writes. induction airports as [| a rest IH]; [done |].
  cbn in *. rewrite IH. lia.
Qed.

(** X9. [show_color] puts one color on the whole map and touches nothing
    else: with distinct LED channels and a brightness in the unit
    interval it succeeds, every LED then displays the color, the events
    are three register writes per airport and nothing else, and the
    airports keep their stored categories. *)
Theorem show_color_displays_everywhere
    (color : Z) (brightness : float) (airports : list Airport.t) (w : World) :
  0 <= color < 2 ^ 24 ->
  PyFloat.in_unit_interval brightness ->
  distinct_leds airports ->
  exists w',
    run (Map.show_color color brightness) (airports, w) = (Ok (), (airports, w')) /\
    Forall (λ a, led_shows (registers (log w')) (Airport.led a) color brightness) airports /\
    Forall (λ e, is_set_current e = true) (events_since w w') /\
    length (events_since w w') = (3 * length airports)%nat /\
    http_n w' = http_n w /\ wifi_n w' = wifi_n w.
Proof.
  intros Hc Hb Hd.
  destruct (channel_values_exist color brightness Hc Hb) as (vr & vg & vb & Hv).
  exists (logged w (show_color_writes airports vr vg vb)).
  rewrite events_since_logged. split_and!.
  - by apply show_color_run.
  - destruct Hv as (Hr & Hg & Hbl). by apply show_color_shows.
  - apply show_color_writes_are_writes.
  - apply show_color_writes_length.
  - done.
  - done.
Qed.

Lemma show_color_displays_everywhere_witness :
  0 <= LEDColors.PURPLE < 2 ^ 24 /\
  PyFloat.in_unit_interval PyFloat.half /\
  distinct_leds sample_airports /\
  exists w',
    run (Map.show_color LEDColors.PURPLE PyFloat.half) (sample_airports, sample_world)
    = (Ok (), (sample_airports, w')) /\
    Forall (λ a, led_shows (registers (log w')) (Airport.led a) LEDColors.PURPLE PyFloat.half)
      sample_airports /\
    Forall (λ e, is_set_current e = true) (events_since sample_world w') /\
    length (events_since sample_world w') = (3 * length sample_airports)%nat /\
    http_n w' = http_n sample_world /\ wifi_n w' = wifi_n sample_world.
Proof.
  assert (0 <= LEDColors.PURPLE < 2 ^ 24) as Hc by (unfold LEDColors.PURPLE; lia).
  assert (PyFloat.in_unit_interval PyFloat.half) as Hb
    by (eexists; split; [reflexivity |]; split; unfold Qle; cbn; lia).
  assert (distinct_leds sample_airports) as Hd
    by (unfold distinct_leds; apply (bool_decide_unpack _); vm_compute; exact I).
  split; [exact Hc |]. split; [exact Hb |]. split; [exact Hd |].
  exact (show_color_displays_everywhere LEDColors.PURPLE PyFloat.half sample_airports
           sample_world Hc Hb Hd).
Defined.

Lemma run_show_error_state (env : Env) (error : string) (vr vg vb : Z)
    (airports : list Airport.t) (w : World) :
  channel_values LEDColors.YELLOW (LED_BRIGHTNESS env) vr vg vb ->
  run (Map.show_error_state env error) (airports, w)
  = (Ok (), (airports, logged w (show_color_writes airports vr vg vb
                                  ++ [EvPrint ("[Error] " +:+ error)]))).
Proof.
  intros Hv. unfold Map.show_error_state.
  rewrite run_bind, (show_color_run _ _ vr vg vb) by done.
  rewrite run_in_world, run_print, logged_logged. done.
Qed.

(** X10. [show_error_state] turns the whole map yellow and then prints
    one line, the message after the prefix [[Error] ]; the stored
    categories are left as they were, so the LEDs agree with them again
    only where the stored category is Unknown. *)
Theorem show_error_state_shows_yellow
    (env : Env) (error : string) (airports : list Airport.t) (w : World) :
  PyFloat.in_unit_interval (LED_BRIGHTNESS env) ->
  distinct_leds airports ->
  exists w',
    run (Map.show_error_state env error) (airports, w) = (Ok (), (airports, w')) /\
    Forall (λ a, led_shows (registers (log w')) (Airport.led a) LEDColors.YELLOW
                   (LED_BRIGHTNESS env)) airports /\
    (exists writes, events_since w w' = writes ++ [EvPrint ("[Error] " +:+ error)] /\
                    Forall (λ e, is_set_current e = true) writes) /\
    (all_unknown airports -> display_invariant env airports w').
Proof.
  intros Hb Hd.
  destruct (channel_values_exist LEDColors.YELLOW (LED_BRIGHTNESS env) yellow_range Hb)
    as (vr & vg & vb & Hv).
  exists (logged w (show_color_writes airports vr vg vb ++ [EvPrint ("[Error] " +:+ error)])).
  assert (Forall (λ a, led_shows
                         (registers (log (logged w (show_color_writes airports vr vg vb
                                                    ++ [EvPrint ("[Error] " +:+ error)]))))
                         (Airport.led a) LEDColors.YELLOW (LED_BRIGHTNESS env)) airports)
    as Hshows.
  { destruct Hv as (Hr & Hg & Hbl). cbn [logged log]. rewrite app_assoc.
    eapply Forall_impl; [exact (show_color_shows _ _ _ _ _ Hr Hg Hbl airports (log w) Hd) |].
    intros a Ha. apply led_shows_no_writes; [by repeat constructor | exact Ha]. }
  split_and!.
  - by apply run_show_error_state.
  - exact Hshows.
  - rewrite events_since_logged. eexists. split; [reflexivity |].
    apply show_color_writes_are_writes.
  - intros Hunknown. unfold display_invariant, displays_category.
    apply Forall_forall. intros a Ha.
    unfold all_unknown in Hunknown. rewrite Forall_forall in Hunknown.
    rewrite Forall_forall in Hshows.
    rewrite (Hunknown a Ha), unknown_is_yellow. by apply Hshows.
Qed.

Lemma show_error_state_shows_yellow_witness :
  PyFloat.in_unit_interval (LED_BRIGHTNESS sample_env) /\
  distinct_leds sample_airports /\
  exists w',
    run (Map.show_error_state sample_env "no data") (sample_airports, sample_world)
    = (Ok (), (sample_airports, w')) /\
    Forall (λ a, led_shows (registers (log w')) (Airport.led a) LEDColors.YELLOW
                   (LED_BRIGHTNESS sample_env)) sample_airports /\
    (exists writes, events_since sample_world w' = writes ++ [EvPrint ("[Error] " +:+ "no data")] /\
                    Forall (λ e, is_set_current e = true) writes) /\
    (all_unknown sample_airports -> display_invariant sample_env sample_airports w').
Proof.
  assert (PyFloat.in_unit_interval (LED_BRIGHTNESS sample_env)) as Hb
    by (eexists; split; [reflexivity |]; split; unfold Qle; cbn; lia).
  assert (distinct_leds sample_airports) as Hd
    by (unfold distinct_leds; apply (bool_decide_unpack _); vm_compute; exact I).
  split; [exact Hb |]. split; [exact Hd |].
  exact (show_error_state_shows_yellow sample_env "no data" sample_airports sample_world Hb Hd).
Defined.

(** ** The trace of [connect_wifi] *)

Section ConnectTrace.
Context (env : Env) (vr vg vb : Z).
Context (Hblue : channel_values LEDColors.WIFI_BLUE (LED_BRIGHTNESS env) vr vg vb).

(** One iteration of the loop. *)
Lemma connect_wifi_for_step (attempt : Z) (rest : list Z) (airports : list Airport.t)
    (w : World) :
  run (Map.connect_wifi_for env (attempt :: rest)) (airports, w)
  = match wifi_radio_connect env (wifi_n w) with
    | Ok _ =>
        (Ok true,
         (airports,
          mkWorld (log w ++ attempt_events airports vr vg vb attempt
                              [EvPrint "Connected to WIFI"])
            (http_n w) (S (wifi_n w))))
    | Raise ConnectionError =>
        run (Map.connect_wifi_for env rest)
          (airports,
           mkWorld (log w ++ attempt_events airports vr vg vb attempt [EvSleep 1])
             (http_n w) (S (wifi_n w)))
    | Raise e =>
        (Raise e,
         (airports,
          mkWorld (log w ++ attempt_events airports vr vg vb attempt [])
            (http_n w) (S (wifi_n w))))
    end.
Proof.
  cbn [Map.connect_wifi_for]. rewrite run_bind, (show_color_run _ _ vr vg vb) by done.
  run_simpl. rewrite run_wifi_radio_connect_call. cbn [logged log http_n wifi_n].
  unfold attempt_events, attempt_line.
  destruct (wifi_radio_connect env (wifi_n w)) as [[] | e].
  - run_simpl. unfold logged. cbn [log http_n wifi_n]. by rewrite <- !app_assoc.
  - destruct (decide (e = ConnectionError)) as [-> | Hne].
    + run_simpl. unfold logged. cbn [log http_n wifi_n]. by rewrite <- !app_assoc.
    + rewrite app_nil_r, <- !app_assoc. by destruct e.
Qed.

(** The failed attempts at the head of the loop. *)
Lemma connect_wifi_for_skip (failed rest : list Z) (airports : list Airport.t) (w : World) :
  (forall j, (j < length failed)%nat ->
             wifi_radio_connect env (wifi_n w + j) = Raise ConnectionError) ->
  run (Map.connect_wifi_for env (failed ++ rest)) (airports, w)
  = run (Map.connect_wifi_for env rest)
      (airports,
       mkWorld (log w ++ failed_attempt_events airports vr vg vb failed)
         (http_n w) (wifi_n w + length failed)).
Proof.
  revert w. induction failed as [| attempt failed IH]; intros w Hfail.
  - cbn. rewrite app_nil_r, Nat.add_0_r. by destruct w.
  - cbn [app]. rewrite connect_wifi_for_step.
    rewrite <- (Nat.add_0_r (wifi_n w)) at 1. rewrite Hfail by (cbn; lia).
    rewrite IH.
    + cbn [log http_n wifi_n length]. unfold failed_attempt_events. cbn [mbind list_bind].
      rewrite <- !app_assoc. do 3 f_equal. lia.
    + intros j Hj. cbn [wifi_n]. rewrite <- (Hfail (S j)) by (cbn; lia). f_equal. lia.
Qed.

Lemma connect_wifi_trace_raises (k : nat) (e : exn) (airports : list Airport.t) (w : World) :
  (k < 5)%nat ->
  (forall j, (j < k)%nat -> wifi_radio_connect env (wifi_n w + j) = Raise ConnectionError) ->
  wifi_radio_connect env (wifi_n w + k) = Raise e ->
  e <> ConnectionError ->
  run (Map.connect_wifi env) (airports, w)
  = (Raise e,
     (airports,
      mkWorld (log w ++ failed_attempt_events airports vr vg vb (seqZ 1 (Z.of_nat k))
                     ++ attempt_events airports vr vg vb (Z.of_nat k + 1) [])
        (http_n w) (wifi_n w + S k))).
Proof.
  intros Hk Hfail He Hne. unfold Map.connect_wifi.
  assert (seqZ 1 5 = seqZ 1 (Z.of_nat k)
                     ++ (Z.of_nat k + 1) :: seqZ (Z.of_nat k + 2) (4 - Z.of_nat k)) as ->
    by (destruct k as [| [| [| [| [|]]]]]; [reflexivity .. | lia]).
  rewrite connect_wifi_for_skip by (by rewrite length_seqZ, Nat2Z.id).
  rewrite connect_wifi_for_step. cbn [log http_n wifi_n].
  rewrite length_seqZ, Nat2Z.id, He.
  rewrite <- app_assoc, Nat.add_succ_r. by destruct e.
Qed.

Lemma connect_wifi_trace_connected (k : nat) (airports : list Airport.t) (w : World) :
  (k < 5)%nat ->
  (forall j, (j < k)%nat -> wifi_radio_connect env (wifi_n w + j) = Raise ConnectionError) ->
  wifi_radio_connect env (wifi_n w + k) = Ok () ->
  run (Map.connect_wifi env) (airports, w)
  = (Ok true,
     (airports,
      mkWorld (log w ++ failed_attempt_events airports vr vg vb (seqZ 1 (Z.of_nat k))
                     ++ attempt_events airports vr vg vb (Z.of_nat k + 1)
                          [EvPrint "Connected to WIFI"])
        (http_n w) (wifi_n w + S k))).
Proof.
  intros Hk Hfail Hok. unfold Map.connect_wifi.
  assert (seqZ 1 5 = seqZ 1 (Z.of_nat k)
                     ++ (Z.of_nat k + 1) :: seqZ (Z.of_nat k + 2) (4 - Z.of_nat k)) as ->
    by (destruct k as [| [| [| [| [|]]]]]; [reflexivity .. | lia]).
  rewrite connect_wifi_for_skip by (by rewrite length_seqZ, Nat2Z.id).
  rewrite connect_wifi_for_step. cbn [log http_n wifi_n].
  rewrite length_seqZ, Nat2Z.id, Hok.
  by rewrite <- app_assoc, Nat.add_succ_r.
Qed.

Lemma connect_wifi_trace_failed (airports : list Airport.t) (w : World) :
  (forall j, (j < 5)%nat -> wifi_radio_connect env (wifi_n w + j) = Raise ConnectionError) ->
  run (Map.connect_wifi env) (airports, w)
  = (Ok false,
     (airports,
      mkWorld (log w ++ failed_attempt_events airports vr vg vb (seqZ 1 5))
        (http_n w) (wifi_n w + 5))).
Proof.
  intros Hfail. unfold Map.connect_wifi.
  rewrite <- (app_nil_r (seqZ 1 5)). by rewrite connect_wifi_for_skip.
Qed.
End ConnectTrace.

Lemma printed_show_color_writes (airports : list Airport.t) (vr vg vb : Z) :
  printed (show_color_writes airports vr vg vb) = [].
Proof. apply printed_writes, show_color_writes_are_writes. Qed.

Lemma printed_failed_attempt_events (airports : list Airport.t) (vr vg vb : Z)
    (attempts : list Z) :
  printed (failed_attempt_events airports vr vg vb attempts) = map attempt_line attempts.
Proof.
  unfold failed_attempt_events. induction attempts as [| a rest IH]; [done |].
  cbn [mbind list_bind map]. fold (@mbind list _ _ _ (λ attempt : Z,
    attempt_events airports vr vg vb attempt [EvSleep 1]) rest).
  rewrite printed_app, IH. unfold attempt_events.
  by rewrite printed_app, printed_show_color_writes.
Qed.

Lemma connectivity_events_app (evs evs' : list event) :
  connectivity_events (evs ++ evs') = connectivity_events evs ++ connectivity_events evs'.
Proof. apply List.filter_app. Qed.

Lemma connectivity_events_attempt (airports : list Airport.t) (vr vg vb : Z) (attempt : Z)
    (ending : list event) :
  connectivity_events (attempt_events airports vr vg vb attempt ending)
  = EvWifiConnect :: connectivity_events ending.
Proof.
  unfold attempt_events. rewrite connectivity_events_app.
  by rewrite connectivity_events_writes by apply show_color_writes_are_writes.
Qed.

Lemma connectivity_events_failed_attempts (airports : list Airport.t) (vr vg vb : Z)
    (attempts : list Z) :
  connectivity_events (failed_attempt_events airports vr vg vb attempts)
  = failed_attempts (length attempts).
Proof.
  unfold failed_attempt_events. induction attempts as [| a rest IH]; [done |].
  cbn [mbind list_bind map]. fold (@mbind list _ _ _ (λ attempt : Z,
    attempt_events airports vr vg vb attempt [EvSleep 1]) rest).
  by rewrite connectivity_events_app, IH, connectivity_events_attempt.
Qed.

Lemma run_connect_and_indicate_raises (env : Env) (e : exn) (s s' : list Airport.t * World) :
  run (Map.connect_wifi env) s = (Raise e, s') ->
  run (connect_and_indicate env) s = (Raise e, s').
Proof. intros Hrun. unfold connect_and_indicate. by rewrite run_bind, Hrun. Qed.

(** X11. Only [ConnectionError] is retried.  When an attempt of
    [connect_wifi] raises another exception, after any number of attempts
    that failed with [ConnectionError], the exception leaves
    [connect_wifi] at once: no wait follows the attempt and no further
    attempt is made.  [main] then ends with that exception and with the
    events of [connect_wifi] as its last: neither the failure color is
    shown nor is the exit status 1 produced. *)
Theorem connect_wifi_propagates_other_errors
    (env : Env) (airports : list Airport.t) (w : World) (k : nat) (e : exn) :
  PyFloat.in_unit_interval (LED_BRIGHTNESS env) ->
  (k < 5)%nat ->
  (forall j, (j < k)%nat -> wifi_radio_connect env (wifi_n w + j) = Raise ConnectionError) ->
  wifi_radio_connect env (wifi_n w + k) = Raise e ->
  e <> ConnectionError ->
  exists w',
    run (Map.connect_wifi env) (airports, w) = (Raise e, (airports, w')) /\
    connectivity_events (events_since w w') = failed_attempts k ++ [EvWifiConnect] /\
    last (events_since w w') = Some EvWifiConnect /\
    (forall cycles,
       run (configure env) ([], initial_world) = (Ok (), (airports, w)) ->
       run (main env cycles) ([], initial_world) = (Raise e, (airports, w'))).
Proof.
  intros Hb Hk Hfail He Hne.
  destruct (channel_values_exist LEDColors.WIFI_BLUE (LED_BRIGHTNESS env) wifi_blue_range Hb)
    as (vr & vg & vb & Hv).
  pose proof (connect_wifi_trace_raises env vr vg vb Hv k e airports w Hk Hfail He Hne)
    as Hrun.
  eexists. split; [exact Hrun |]. rewrite events_since_app. split_and!.
  - rewrite connectivity_events_app, connectivity_events_failed_attempts,
      connectivity_events_attempt, length_seqZ, Nat2Z.id. done.
  - unfold attempt_events. by rewrite !last_app.
  - intros cycles Hconf. rewrite run_main, run_startup, Hconf.
    by rewrite (run_connect_and_indicate_raises env e _ _ Hrun).
Qed.

Lemma connect_wifi_propagates_other_errors_witness :
  PyFloat.in_unit_interval (LED_BRIGHTNESS broken_radio_env) /\
  (2 < 5)%nat /\
  (forall j, (j < 2)%nat ->
     wifi_radio_connect broken_radio_env (wifi_n sample_world + j) = Raise ConnectionError) /\
  wifi_radio_connect broken_radio_env (wifi_n sample_world + 2) = Raise (OSError "radio error") /\
  OSError "radio error" <> ConnectionError /\
  run (configure broken_radio_env) ([], initial_world) = (Ok (), (sample_airports, sample_world)) /\
  exists w',
    run (Map.connect_wifi broken_radio_env) (sample_airports, sample_world)
    = (Raise (OSError "radio error"), (sample_airports, w')) /\
    connectivity_events (events_since sample_world w')
    = failed_attempts 2 ++ [EvWifiConnect] /\
    last (events_since sample_world w') = Some EvWifiConnect /\
    forall cycles,
      run (main broken_radio_env cycles) ([], initial_world)
      = (Raise (OSError "radio error"), (sample_airports, w')).
Proof.
  assert (PyFloat.in_unit_interval (LED_BRIGHTNESS broken_radio_env)) as Hb
    by (eexists; split; [reflexivity |]; split; unfold Qle; cbn; lia).
  assert (2 < 5)%nat as Hk by lia.
  assert (forall j, (j < 2)%nat ->
            wifi_radio_connect broken_radio_env (wifi_n sample_world + j)
            = Raise ConnectionError) as Hfail
    by (intros [| [| j]] Hj; [reflexivity | reflexivity | lia]).
  assert (wifi_radio_connect broken_radio_env (wifi_n sample_world + 2)
          = Raise (OSError "radio error")) as He by reflexivity.
  assert (OSError "radio error" <> ConnectionError) as Hne by discriminate.
  assert (run (configure broken_radio_env) ([], initial_world)
          = (Ok (), (sample_airports, sample_world))) as Hconf by (vm_compute; reflexivity).
  split; [exact Hb |]. split; [exact Hk |]. split; [exact Hfail |]. split; [exact He |].
  split; [exact Hne |]. split; [exact Hconf |].
  destruct (connect_wifi_propagates_other_errors broken_radio_env sample_airports sample_world
              2 (OSError "radio error") Hb Hk Hfail He Hne) as (w' & Hrun & Hev & Hlast & Hmain).
  exists w'. split; [exact Hrun |]. split; [exact Hev |]. split; [exact Hlast |].
  intros cycles. exact (Hmain cycles Hconf).
Defined.

Lemma led_shows_after_attempt (airports : list Airport.t) (vr vg vb : Z) (brightness : float)
    (evs : list event) (attempt : Z) (ending : list event) :
  channel_values LEDColors.WIFI_BLUE brightness vr vg vb ->
  distinct_leds airports ->
  Forall (λ e, is_set_current e = false) ending ->
  Forall (λ a, led_shows (registers (evs ++ attempt_events airports vr vg vb attempt ending))
                 (Airport.led a) LEDColors.WIFI_BLUE brightness) airports.
Proof.
  intros (Hr & Hg & Hbl) Hd Hending. unfold attempt_events. rewrite app_assoc.
  eapply Forall_impl; [exact (show_color_shows _ _ _ _ _ Hr Hg Hbl airports evs Hd) |].
  intros a Ha. apply led_shows_no_writes; [| exact Ha].
  by repeat constructor.
Qed.

(** X12. What [connect_wifi] does, step by step.  Every attempt is
    preceded by the connecting color on every LED and by a notice that
    carries the number of the attempt, counted from 1; a failed attempt is
    followed by a wait of one second, the successful one by the line
    [Connected to WIFI].  Whether the radio connects at some attempt or
    all five fail, the map is left in the connecting color. *)
Theorem connect_wifi_trace (env : Env) (airports : list Airport.t) (w : World) :
  PyFloat.in_unit_interval (LED_BRIGHTNESS env) ->
  exists vr vg vb,
    channel_values LEDColors.WIFI_BLUE (LED_BRIGHTNESS env) vr vg vb /\
    (forall k, (k < 5)%nat ->
       (forall j, (j < k)%nat ->
                  wifi_radio_connect env (wifi_n w + j) = Raise ConnectionError) ->
       wifi_radio_connect env (wifi_n w + k) = Ok () ->
       exists w',
         run (Map.connect_wifi env) (airports, w) = (Ok true, (airports, w')) /\
         events_since w w'
         = failed_attempt_events airports vr vg vb (seqZ 1 (Z.of_nat k))
           ++ attempt_events airports vr vg vb (Z.of_nat k + 1)
                [EvPrint "Connected to WIFI"] /\
         printed (events_since w w')
         = map attempt_line (seqZ 1 (Z.of_nat k + 1)) ++ ["Connected to WIFI"] /\
         (distinct_leds airports ->
          Forall (λ a, led_shows (registers (log w')) (Airport.led a) LEDColors.WIFI_BLUE
                         (LED_BRIGHTNESS env)) airports)) /\
    ((forall j, (j < 5)%nat ->
                wifi_radio_connect env (wifi_n w + j) = Raise ConnectionError) ->
     exists w',
       run (Map.connect_wifi env) (airports, w) = (Ok false, (airports, w')) /\
       events_since w w' = failed_attempt_events airports vr vg vb (seqZ 1 5) /\
       printed (events_since w w') = map attempt_line (seqZ 1 5) /\
       (distinct_leds airports ->
        Forall (λ a, led_shows (registers (log w')) (Airport.led a) LEDColors.WIFI_BLUE
                       (LED_BRIGHTNESS env)) airports)).
Proof.
  intros Hb.
  destruct (channel_values_exist LEDColors.WIFI_BLUE (LED_BRIGHTNESS env) wifi_blue_range Hb)
    as (vr & vg & vb & Hv).
  exists vr, vg, vb. split; [exact Hv |]. split.
  - intros k Hk Hfail Hok. eexists.
    split; [exact (connect_wifi_trace_connected env vr vg vb Hv k airports w Hk Hfail Hok) |].
    rewrite events_since_app. split_and!.
    + done.
    + rewrite printed_app, printed_failed_attempt_events. unfold attempt_events.
      rewrite printed_app, printed_show_color_writes.
      assert (seqZ 1 (Z.of_nat k + 1) = seqZ 1 (Z.of_nat k) ++ [Z.of_nat k + 1]) as ->
        by (destruct k as [| [| [| [| [|]]]]]; [reflexivity .. | lia]).
      rewrite map_app. cbn. by rewrite <- app_assoc.
    + intros Hd. cbn [log]. rewrite app_assoc.
      apply led_shows_after_attempt; [done | done | by repeat constructor].
  - intros Hfail. eexists.
    split; [exact (connect_wifi_trace_failed env vr vg vb Hv airports w Hfail) |].
    rewrite events_since_app. split_and!.
    + done.
    + apply printed_failed_attempt_events.
    + intros Hd. cbn [log].
      change (seqZ 1 5) with (seqZ 1 4 ++ [5]).
      unfold failed_attempt_events. rewrite bind_app. cbn [mbind list_bind].
      rewrite app_nil_r, app_assoc.
      apply led_shows_after_attempt; [done | done | by repeat constructor].
Qed.

Lemma connect_wifi_trace_witness :
  PyFloat.in_unit_interval (LED_BRIGHTNESS sample_env) /\
  exists vr vg vb,
    channel_values LEDColors.WIFI_BLUE (LED_BRIGHTNESS sample_env) vr vg vb /\
    (2 < 5)%nat /\
    (forall j, (j < 2)%nat ->
       wifi_radio_connect sample_env (wifi_n sample_world + j) = Raise ConnectionError) /\
    wifi_radio_connect sample_env (wifi_n sample_world + 2) = Ok () /\
    exists w',
      run (Map.connect_wifi sample_env) (sample_airports, sample_world)
      = (Ok true, (sample_airports, w')) /\
      events_since sample_world w'
      = failed_attempt_events sample_airports vr vg vb (seqZ 1 (Z.of_nat 2))
        ++ attempt_events sample_airports vr vg vb (Z.of_nat 2 + 1)
             [EvPrint "Connected to WIFI"] /\
      printed (events_since sample_world w')
      = map attempt_line (seqZ 1 (Z.of_nat 2 + 1)) ++ ["Connected to WIFI"] /\
      (distinct_leds sample_airports ->
       Forall (λ a, led_shows (registers (log w')) (Airport.led a) LEDColors.WIFI_BLUE
                      (LED_BRIGHTNESS sample_env)) sample_airports).
Proof.
  assert (PyFloat.in_unit_interval (LED_BRIGHTNESS sample_env)) as Hb
    by (eexists; split; [reflexivity |]; split; unfold Qle; cbn; lia).
  assert (2 < 5)%nat as Hk by lia.
  assert (forall j, (j < 2)%nat ->
            wifi_radio_connect sample_env (wifi_n sample_world + j) = Raise ConnectionError)
    as Hfail by (intros [| [| j]] Hj; [reflexivity | reflexivity | lia]).
  assert (wifi_radio_connect sample_env (wifi_n sample_world + 2) = Ok ()) as Hok
    by reflexivity.
  split; [exact Hb |].
  destruct (connect_wifi_trace sample_env sample_airports sample_world Hb)
    as (vr & vg & vb & Hv & Hconnected & _).
  exists vr, vg, vb. split; [exact Hv |]. split; [exact Hk |]. split; [exact Hfail |].
  split; [exact Hok |]. exact (Hconnected 2%nat Hk Hfail Hok).
Defined.

(** ** Configuration lines that construct an airport *)

Lemma py_getitem_nonneg {A} (l : list A) (i : Z) (x : A) :
  0 <= i -> py_getitem l i = Ok x -> l !! Z.to_nat i = Some x.
Proof.
  intros Hi. unfold py_getitem.
  destruct (Z.ltb_spec i 0) as [? | _]; [lia |].
  destruct (_ && _); [| done].
  destruct (l !! Z.to_nat i); [| done]. by intros [= ->].
Qed.



Lemma from_config_line_ok_inv (env : Env) (line : string) (board_manager : BoardManager.t)
    (airport : Airport.t) (w w' : World) :
  run (Airport.from_config_line env line board_manager) w = (Ok airport, w') ->
  describes board_manager line airport.
Proof.
  unfold Airport.from_config_line. rewrite run_of_outcome.
  destruct (py_getitem (split line) 1) as [ci |] eqn:H1; cbn [mbind outcome_bind]; [| done].
  destruct (py_int 10 ci) as [i |] eqn:Hci; [| done].
  rewrite run_of_outcome.
  destruct (py_getitem (split line) 2) as [addr |] eqn:H2; cbn [mbind outcome_bind]; [| done].
  destruct (py_int 16 addr) as [a |] eqn:Haddr; [| done].
  rewrite run_of_outcome.
  destruct (BoardManager.get_board board_manager i a) as [host |] eqn:Hhost; [| done].
  rewrite run_of_outcome.
  destruct (py_getitem (split line) 0) as [code |] eqn:H0; [| done].
  rewrite run_of_outcome.
  destruct (py_getitem (split line) 3) as [r |] eqn:H3; cbn [mbind outcome_bind]; [| done].
  destruct (py_int 10 r) as [rp |] eqn:Hr; [| done].
  rewrite run_of_outcome.
  destruct (py_getitem (split line) 4) as [g |] eqn:H4; cbn [mbind outcome_bind]; [| done].
  destruct (py_int 10 g) as [gp |] eqn:Hg; [| done].
  rewrite run_of_outcome.
  destruct (py_getitem (split line) 5) as [b |] eqn:H5; cbn [mbind outcome_bind]; [| done].
  destruct (py_int 10 b) as [bp |] eqn:Hb; [| done].
  rewrite run_of_outcome.
  destruct (py_getitem (split line) 6) as [alt |] eqn:H6; [| done].
  destruct host as [host |].
  - rewrite run_init.
    destruct (run (RGBLED.set_color _ _ _) _) as [[[] | e] w1]; [| done].
    intros [= <- <-].
    apply py_getitem_nonneg in H0, H1, H2, H3, H4, H5, H6; try lia.
    destruct (split line) as [| f0 [| f1 [| f2 [| f3 [| f4 [| f5 [| f6 extra]]]]]]]
      eqn:Hsplit; try done.
    cbn in H0, H1, H2, H3, H4, H5, H6.
    injection H0 as ->. injection H1 as ->. injection H2 as ->. injection H3 as ->.
    injection H4 as ->. injection H5 as ->. injection H6 as ->.
    exists code, ci, addr, r, g, b, alt, extra, i, a. by split_and!.
  - unfold Airport.__init__. cbn [RGBLED.__init__]. by rewrite run_bind, run_raise.
Qed.



(** ** Airports in the order of the file *)





(** ** The requests of a polling cycle *)

Lemma update_events_no_attempts (evs : list event) :
  Forall (λ e, is_update_event e = true) evs -> connection_attempts evs = 0%nat.
Proof.
  unfold connection_attempts. induction 1 as [| e evs He _ IH]; [done |].
  cbn. by destruct e.
Qed.

Lemma requests_in_length_app (evs evs' : list event) :
  length (requests_in (evs ++ evs'))
  = (length (requests_in evs) + length (requests_in evs'))%nat.
Proof. by rewrite requests_in_app, length_app. Qed.

Section Requests.
Context (env : Env) (session : Session.t).
Context (Hbrightness : PyFloat.in_unit_interval (LED_BRIGHTNESS env)).

(** An update makes one request or two, and counts them. *)
Lemma update_requests (self : Airport.t) (w : World) :
  exists c evs,
    run (Airport.update_flight_category env session) (self, w)
    = (Ok (), (with_category self c,
               mkWorld (log w ++ evs) (http_n w + length (requests_in evs)) (wifi_n w))) /\
    Forall (λ e, is_update_event e = true) evs /\
    (1 <= length (requests_in evs) <= 2)%nat.
Proof.
  destruct (update_events_ok env session Hbrightness self w) as (c & evs & h & Hrun & Hall).
  exists c, evs.
  assert (h = (http_n w + length (requests_in evs))%nat /\
          (1 <= length (requests_in evs) <= 2)%nat) as [-> Hlen]; [| done].
  pose proof (f_equal (λ r, events_since w r.2.2) Hrun) as Hevs.
  pose proof (f_equal (λ r, http_n r.2.2) Hrun) as Hh.
  cbn [fst snd http_n] in Hevs, Hh. rewrite events_since_app in Hevs.
  fold (after (Airport.update_flight_category env session) (self, w)) in Hevs, Hh.
  fold (update_events_of env session self w) in Hevs.
  destruct (update_events env session self w) as (c' & h' & evs1 & evs2 & Hres & _ & Hafter & _).
  rewrite Hafter in Hh. cbn [http_n] in Hh. subst h'.
  destruct (primary_failed_or_recognized
              (Session.responses session (http_n w) (metar_url (Airport.airport_code self))))
    as [Hf | [c1 Hc1]].
  - destruct (update_events_of_failed env session self w Hf) as (evs2' & Hevs' & Hw & _).
    subst evs. rewrite !Hevs'.
    rewrite (resolve_primary_failed _ _ _ Hf) in Hres. injection Hres as _ _ <-.
    rewrite requests_in_app, requests_in_alternate_events, (requests_in_writes _ Hw).
    cbn. lia.
  - destruct (update_events_of_recognized env session self w c1 Hc1)
      as (evs2' & Hevs' & Hw & _).
    subst evs. rewrite !Hevs'.
    rewrite (resolve_primary_recognized _ _ _ _ Hc1) in Hres. injection Hres as _ _ <-.
    rewrite requests_in_app, (requests_in_writes _ Hw).
    cbn. lia.
Qed.

Lemma update_all_requests (airports : list Airport.t) (w : World) :
  exists airports' evs,
    run (AirportManager.update_airport_flight_categories env session) (airports, w)
    = (Ok (), (airports',
               mkWorld (log w ++ evs) (http_n w + length (requests_in evs)) (wifi_n w))) /\
    Forall2 same_airport airports airports' /\
    Forall (λ e, is_update_event e = true) evs /\
    (length airports <= length (requests_in evs) <= 2 * length airports)%nat.
Proof.
  unfold AirportManager.update_airport_flight_categories. rewrite run_for_each.
  revert w. induction airports as [| a rest IH]; intros w; cbn [for_each_from].
  - exists [], []. rewrite app_nil_r, Nat.add_0_r.
    split; [by destruct w |]. split; [done |]. split; [done |]. cbn. lia.
  - destruct (update_requests a w) as (c & evs1 & -> & Hall1 & Hlen1).
    destruct (IH (mkWorld (log w ++ evs1) (http_n w + length (requests_in evs1)) (wifi_n w)))
      as (rest' & evs2 & -> & Hsame & Hall2 & Hlen2).
    exists (with_category a c :: rest'), (evs1 ++ evs2). cbn [log http_n wifi_n].
    rewrite requests_in_length_app, app_assoc, Nat.add_assoc.
    split; [done |]. split; [by constructor |]. split; [by apply Forall_app |].
    cbn [length]. lia.
Qed.

End Requests.

Lemma same_airport_trans (a a' a'' : Airport.t) :
  same_airport a a' -> same_airport a' a'' -> same_airport a a''.
Proof. unfold same_airport. intros -> ->. reflexivity. Qed.

Lemma same_airport_refl (airports : list Airport.t) : Forall2 same_airport airports airports.
Proof. induction airports as [| [] rest IH]; by constructor. Qed.

Lemma same_airports_trans (l l' l'' : list Airport.t) :
  Forall2 same_airport l l' -> Forall2 same_airport l' l'' -> Forall2 same_airport l l''.
Proof.
  intros H. revert l''. induction H as [| a a' l l' Ha _ IH]; intros l'' H'.
  - by inversion H'.
  - inversion H' as [| ? a'' ? r'' Ha' Hr']; subst. constructor; [| by apply IH].
    by eapply same_airport_trans.
Qed.

Lemma poll_sleeps_single : poll_sleeps [EvSleep 45] = 1%nat.
Proof. reflexivity. Qed.

(** X15. The polling loop, cycle by cycle.  With a brightness in the unit
    interval the loop never fails; after any number of cycles the
    airports are the same, in the same order, with possibly other stored
    categories; every airport was asked for once or twice per cycle, so
    the requests number between one and two per airport and cycle; each
    cycle ended with its wait; and no connection attempt was made: the
    loop never reconnects. *)
Theorem polling_requests_bound
    (env : Env) (cycles : nat) (airports : list Airport.t) (w : World) :
  PyFloat.in_unit_interval (LED_BRIGHTNESS env) ->
  exists airports' w',
    run (poll env cycles) (airports, w) = (Ok (), (airports', w')) /\
    Forall2 same_airport airports airports' /\
    wifi_n w' = wifi_n w /\
    connection_attempts (events_since w w') = 0%nat /\
    http_n w' = (http_n w + length (requests_in (events_since w w')))%nat /\
    (cycles * length airports <= length (requests_in (events_since w w'))
     <= 2 * (cycles * length airports))%nat /\
    poll_sleeps (events_since w w') = cycles.
Proof.
  intros Hb.
  assert (exists airports' evs,
            run (poll env cycles) (airports, w)
            = (Ok (), (airports',
                       mkWorld (log w ++ evs) (http_n w + length (requests_in evs))
                         (wifi_n w))) /\
            Forall2 same_airport airports airports' /\
            connection_attempts evs = 0%nat /\
            (cycles * length airports <= length (requests_in evs)
             <= 2 * (cycles * length airports))%nat /\
            poll_sleeps evs = cycles) as (airports' & evs & Hrun & Hsame & Hconn & Hreq & Hsl).
  { revert airports w. induction cycles as [| n IH]; intros airports w; cbn [poll].
    - exists airports, []. rewrite run_ret, app_nil_r, Nat.add_0_r.
      split; [by destruct w |]. split; [apply same_airport_refl |]. split; [done |].
      split; [cbn; lia | done].
    - rewrite run_bind.
      destruct (update_all_requests env (internet env) Hb airports w)
        as (airports1 & evs1 & -> & Hsame1 & Hall1 & Hlen1).
      run_simpl. unfold logged. cbn [log http_n wifi_n].
      destruct (IH airports1
                  (mkWorld ((log w ++ evs1) ++ [EvSleep 45])
                     (http_n w + length (requests_in evs1)) (wifi_n w)))
        as (airports2 & evs2 & -> & Hsame2 & Hconn2 & Hlen2 & Hsl2).
      exists airports2, (evs1 ++ [EvSleep 45] ++ evs2). cbn [log http_n wifi_n].
      rewrite !requests_in_length_app, <- !app_assoc, Nat.add_assoc.
      pose proof (Forall2_length _ _ _ Hsame1) as Hl1.
      split; [done |]. split; [by eapply same_airports_trans |]. split.
      { unfold connection_attempts in *. rewrite !List.filter_app, !length_app.
        fold (connection_attempts evs1). by rewrite (update_events_no_attempts _ Hall1), Hconn2. }
      split; [cbn [requests_in List.filter is_http_get length]; lia |].
      rewrite !poll_sleeps_app, (poll_sleeps_update_events _ Hall1), Hsl2. reflexivity. }
  eexists _, _. split; [exact Hrun |]. rewrite events_since_app. done.
Qed.

Lemma polling_requests_bound_witness :
  PyFloat.in_unit_interval (LED_BRIGHTNESS sample_env) /\
  exists airports' w',
    run (poll sample_env 3) (sample_airports, sample_world) = (Ok (), (airports', w')) /\
    Forall2 same_airport sample_airports airports' /\
    wifi_n w' = wifi_n sample_world /\
    connection_attempts (events_since sample_world w') = 0%nat /\
    http_n w' = (http_n sample_world + length (requests_in (events_since sample_world w')))%nat /\
    (3 * length sample_airports <= length (requests_in (events_since sample_world w'))
     <= 2 * (3 * length sample_airports))%nat /\
    poll_sleeps (events_since sample_world w') = 3%nat.
Proof.
  assert (PyFloat.in_unit_interval (LED_BRIGHTNESS sample_env)) as Hb
    by (eexists; split; [reflexivity |]; split; unfold Qle; cbn; lia).
  split; [exact Hb |].
  exact (polling_requests_bound sample_env 3 sample_airports sample_world Hb).
Defined.

(** ** A brightness that is not a number *)

Lemma of_int_positive_channel (n : Z) :
  1 <= n <= 255 -> exists s m e, PyFloat.of_int n = Ok (S754_finite s m e).
Proof.
  intros Hn.
  assert (forallb of_int_finite (seqZ 1 255) = true) as Hall by (vm_compute; reflexivity).
  rewrite forallb_forall in Hall.
  specialize (Hall n). unfold of_int_finite in Hall.
  destruct (PyFloat.of_int n) as [[| | | s m e] |]; eauto; exfalso;
    (assert (false = true); [| done]); apply Hall, list_elem_of_In, elem_of_seqZ; lia.
Qed.

Lemma int_of_product_non_finite (n : Z) (x : float) :
  0 <= n <= 255 -> non_finite x ->
  PyFloat.int_of_product n x = Raise (non_finite_error n x).
Proof.
  intros Hn Hx. unfold PyFloat.int_of_product.
  destruct (decide (n = 0)) as [-> | Hne].
  - by destruct Hx as [-> | [s ->]].
  - destruct (of_int_positive_channel n) as (s' & m & e & ->); [lia |].
    destruct Hx as [-> | [s ->]]; cbn; [done |]. by rewrite decide_False.
Qed.

(** X16. A brightness that is not a finite number is rejected before
    anything is written: for a 24-bit color [set_color] raises at the
    red channel and leaves the registers alone, with [ValueError] for a
    NaN, and for an infinity [OverflowError], or [ValueError] when the
    red byte of the color is zero.  The construction of an airport, which
    shows yellow, then fails with that exception once its pins are
    switched to output. *)
Theorem set_color_rejects_non_finite_brightness
    (env : Env) (self : RGBLED.t) (color : Z) (brightness : float) (w : World) :
  0 <= color < 2 ^ 24 ->
  non_finite brightness ->
  run (RGBLED.set_color self color brightness) w
  = (Raise (non_finite_error (Z.shiftr color 16) brightness), w) /\
  (LED_BRIGHTNESS env = brightness ->
   forall airport_code alternate,
     run (Airport.__init__ env airport_code (RGBLED.red_pin_num self)
            (RGBLED.green_pin_num self) (RGBLED.blue_pin_num self) alternate
            (Some (RGBLED.host self))) w
     = (Raise (non_finite_error 255 brightness), logged w (pin_outputs self))).
Proof.
  intros Hc Hx.
  assert (forall c led w0, 0 <= c < 2 ^ 24 ->
            run (RGBLED.set_color led c brightness) w0
            = (Raise (non_finite_error (Z.shiftr c 16) brightness), w0)) as Hset.
  { intros c led w0 Hrange. destruct (red_channel c Hrange) as [Hr _].
    unfold RGBLED.set_color. cbn zeta.
    by rewrite run_of_outcome, (int_of_product_non_finite _ _ Hr Hx). }
  split; [by apply Hset |].
  intros Henv code alt. rewrite run_init. cbn zeta. rewrite Henv.
  destruct self as [host rp gp bp].
  cbn [RGBLED.host RGBLED.red_pin_num RGBLED.green_pin_num RGBLED.blue_pin_num].
  by rewrite (Hset LEDColors.YELLOW) by apply yellow_range.
Qed.

Lemma set_color_rejects_non_finite_brightness_witness :
  0 <= LEDColors.GREEN < 2 ^ 24 /\
  non_finite (S754_infinity false) /\
  run (RGBLED.set_color (Airport.led sample_airport) LEDColors.GREEN (S754_infinity false))
    initial_world
  = (Raise ValueError, initial_world).
Proof.
  assert (0 <= LEDColors.GREEN < 2 ^ 24) as Hc by (unfold LEDColors.GREEN; lia).
  assert (non_finite (S754_infinity false)) as Hx by (right; exists false; reflexivity).
  split; [exact Hc |]. split; [exact Hx |].
  exact (proj1 (set_color_rejects_non_finite_brightness sample_env (Airport.led sample_airport)
                  LEDColors.GREEN (S754_infinity false) initial_world Hc Hx)).
Defined.

(** ** The success indication *)

(** X17. How [main] signals that the network is there.  Once
    [connect_wifi] has returned [True], every LED is set to green, the
    program waits one second with the map all green, sets every LED to
    yellow, and enters the polling loop; nothing else happens in between.
    The stored categories, all Unknown after loading, are not touched. *)
Theorem startup_indicates_success
    (env : Env) (airports : list Airport.t) (w w1 : World) :
  PyFloat.in_unit_interval (LED_BRIGHTNESS env) ->
  run (Map.connect_wifi env) (airports, w) = (Ok true, (airports, w1)) ->
  exists gr gg gb yr yg yb,
    channel_values LEDColors.GREEN (LED_BRIGHTNESS env) gr gg gb /\
    channel_values LEDColors.YELLOW (LED_BRIGHTNESS env) yr yg yb /\
    run (connect_and_indicate env) (airports, w)
    = (Ok (), (airports,
               logged w1 (show_color_writes airports gr gg gb ++ [EvSleep 1]
                          ++ show_color_writes airports yr yg yb))) /\
    (distinct_leds airports ->
     Forall (λ a, led_shows
                    (registers (log w1 ++ show_color_writes airports gr gg gb ++ [EvSleep 1]))
                    (Airport.led a) LEDColors.GREEN (LED_BRIGHTNESS env)) airports) /\
    (forall w0 cycles,
       run (configure env) ([], w0) = (Ok (), (airports, w)) ->
       run (main env cycles) ([], w0)
       = run (poll env cycles)
           (airports,
            logged w1 (show_color_writes airports gr gg gb ++ [EvSleep 1]
                       ++ show_color_writes airports yr yg yb))).
Proof.
  intros Hb Hconn.
  destruct (channel_values_exist LEDColors.GREEN (LED_BRIGHTNESS env) green_range Hb)
    as (gr & gg & gb & Hgreen).
  destruct (channel_values_exist LEDColors.YELLOW (LED_BRIGHTNESS env) yellow_range Hb)
    as (yr & yg & yb & Hyellow).
  exists gr, gg, gb, yr, yg, yb. split; [exact Hgreen |]. split; [exact Hyellow |].
  assert (run (connect_and_indicate env) (airports, w)
          = (Ok (), (airports,
                     logged w1 (show_color_writes airports gr gg gb ++ [EvSleep 1]
                                ++ show_color_writes airports yr yg yb)))) as Hrun.
  { unfold connect_and_indicate. rewrite run_bind, Hconn, run_bind.
    rewrite (show_color_run _ _ gr gg gb) by done.
    run_simpl. rewrite (show_color_run _ _ yr yg yb) by done.
    by rewrite logged_logged, <- app_assoc. }
  split; [exact Hrun |]. split.
  - intros Hd. destruct Hgreen as (Hr & Hg & Hbl). rewrite app_assoc.
    eapply Forall_impl; [exact (show_color_shows _ _ _ _ _ Hr Hg Hbl airports (log w1) Hd) |].
    intros a Ha. apply led_shows_no_writes; [by repeat constructor | exact Ha].
  - intros w0 cycles Hconf. by rewrite run_main, run_startup, Hconf, Hrun.
Qed.

Lemma startup_indicates_success_witness :
  PyFloat.in_unit_interval (LED_BRIGHTNESS sample_env) /\
  run (configure sample_env) ([], initial_world) = (Ok (), (sample_airports, sample_world)) /\
  exists w1,
    run (Map.connect_wifi sample_env) (sample_airports, sample_world)
    = (Ok true, (sample_airports, w1)) /\
    exists gr gg gb yr yg yb,
      channel_values LEDColors.GREEN (LED_BRIGHTNESS sample_env) gr gg gb /\
      channel_values LEDColors.YELLOW (LED_BRIGHTNESS sample_env) yr yg yb /\
      run (connect_and_indicate sample_env) (sample_airports, sample_world)
      = (Ok (), (sample_airports,
                 logged w1 (show_color_writes sample_airports gr gg gb ++ [EvSleep 1]
                            ++ show_color_writes sample_airports yr yg yb))) /\
      forall cycles,
        run (main sample_env cycles) ([], initial_world)
        = run (poll sample_env cycles)
            (sample_airports,
             logged w1 (show_color_writes sample_airports gr gg gb ++ [EvSleep 1]
                        ++ show_color_writes sample_airports yr yg yb)).
Proof.
  assert (PyFloat.in_unit_interval (LED_BRIGHTNESS sample_env)) as Hb
    by (eexists; split; [reflexivity |]; split; unfold Qle; cbn; lia).
  assert (run (configure sample_env) ([], initial_world)
          = (Ok (), (sample_airports, sample_world))) as Hconf by (vm_compute; reflexivity).
  split; [exact Hb |]. split; [exact Hconf |].
  exists (after (Map.connect_wifi sample_env) (sample_airports, sample_world)).2.
  assert (run (Map.connect_wifi sample_env) (sample_airports, sample_world)
          = (Ok true, (sample_airports,
                       (after (Map.connect_wifi sample_env)
                          (sample_airports, sample_world)).2))) as Hconn
    by (vm_compute; reflexivity).
  split; [exact Hconn |].
  destruct (startup_indicates_success sample_env sample_airports sample_world _ Hb Hconn)
    as (gr & gg & gb & yr & yg & yb & Hgreen & Hyellow & Hrun & _ & Hmain).
  exists gr, gg, gb, yr, yg, yb. split; [exact Hgreen |]. split; [exact Hyellow |].
  split; [exact Hrun |]. intros cycles. exact (Hmain initial_world cycles Hconf).
Defined.

(** ** The regular expression *)

Lemma sapp_cons (x : ascii) (a b : string) : String x a +:+ b = String x (a +:+ b).
Proof. reflexivity. Qed.

Lemma sapp_nil_l (a : string) : "" +:+ a = a.
Proof. reflexivity. Qed.

Lemma sapp_assoc (a b c : string) : (a +:+ b) +:+ c = a +:+ b +:+ c.
Proof. induction a as [| x a IH]; [done |]. by rewrite !sapp_cons, IH. Qed.

Lemma sapp_nil_r (a : string) : a +:+ "" = a.
Proof. induction a as [| x a IH]; [done |]. by rewrite sapp_cons, IH. Qed.

Lemma slength_app (a b : string) :
  String.length (a +:+ b) = (String.length a + String.length b)%nat.
Proof. induction a as [| x a IH]; [done |]. rewrite sapp_cons. cbn. by rewrite IH. Qed.

Lemma sapp_inv_length (a b x y : string) :
  a +:+ x = b +:+ y -> String.length a = String.length b -> a = b /\ x = y.
Proof.
  revert b. induction a as [| c a IH]; intros [| d b]; rewrite ?sapp_cons, ?sapp_nil_l;
    cbn [String.length]; try done.
  intros [= -> Heq] [= Hlen]. destruct (IH b Heq Hlen) as [-> ->]. done.
Qed.

Lemma strip_prefix_spec (p s r : string) : strip_prefix p s = Some r <-> s = p +:+ r.
Proof.
  revert s. induction p as [| a p IH]; intros s; rewrite ?sapp_cons, ?sapp_nil_l;
    cbn [strip_prefix].
  - split; [by intros [= ->] | by intros ->].
  - destruct s as [| b s]; [done |].
    destruct (decide (a = b)) as [-> | Hne].
    + rewrite IH. split; [by intros -> | by intros [= ->]].
    + split; [done | intros [= ? _]; congruence].
Qed.

Lemma single_line_nil : single_line "".
Proof. intros [| c a] b; done. Qed.

Lemma single_line_cons (c : ascii) (s : string) :
  single_line (String c s) <-> c <> "010"%char /\ single_line s.
Proof.
  split.
  - intros Hs. split.
    + intros ->. by apply (Hs "" s).
    + intros a b ->. by apply (Hs (String c a) b).
  - intros [Hc Hs] [| x a] b; rewrite ?sapp_cons, ?sapp_nil_l; intros [= ? ?]; [done |].
    by eapply Hs.
Qed.

Lemma single_line_app (a b : string) :
  single_line (a +:+ b) <-> single_line a /\ single_line b.
Proof.
  induction a as [| c a IH]; rewrite ?sapp_cons, ?sapp_nil_l.
  - split; [intros Hb; split; [apply single_line_nil | done] | by intros [_ ?]].
  - rewrite !single_line_cons, IH. tauto.
Qed.

Lemma single_line_close_tag : single_line close_tag.
Proof. unfold close_tag. repeat (apply single_line_cons; split; [done |]). apply single_line_nil. Qed.

Lemma line_prefix_single_line (s : string) : single_line (line_prefix s).
Proof.
  induction s as [| c s IH]; cbn; [apply single_line_nil |].
  destruct (decide (c = "010"%char)); [apply single_line_nil |].
  by apply single_line_cons.
Qed.

Lemma line_prefix_is_prefix (s : string) : exists rest, s = line_prefix s +:+ rest.
Proof.
  induction s as [| c s [rest IH]]; cbn [line_prefix]; [by exists "" |].
  destruct (decide (c = "010"%char)); [by eexists |].
  exists rest. by rewrite sapp_cons, <- IH.
Qed.

Lemma line_prefix_app (a b : string) :
  single_line a -> line_prefix (a +:+ b) = a +:+ line_prefix b.
Proof.
  induction a as [| c a IH]; rewrite ?sapp_cons, ?sapp_nil_l; [done |].
  intros [Hc Ha]%single_line_cons. cbn [line_prefix].
  rewrite decide_False by done. by rewrite IH.
Qed.

(** The group the greedy search finds ends where the last closing tag of
    the segment starts. *)
Lemma greedy_group_sound (seg g : string) :
  greedy_group seg = Some g -> exists rest, seg = g +:+ close_tag +:+ rest.
Proof.
  revert g. induction seg as [| c seg IH]; intros g; cbn [greedy_group]; [done |].
  destruct (greedy_group seg) as [g' |].
  - intros [= <-]. destruct (IH g' eq_refl) as [rest ->]. exists rest.
    by rewrite sapp_cons.
  - destruct (decide (is_Some (strip_prefix close_tag (String c seg)))) as [[r Hr] |];
      [| done].
    intros [= <-]. apply strip_prefix_spec in Hr. by exists r.
Qed.

Lemma greedy_group_longest (a b : string) :
  exists g, greedy_group (a +:+ close_tag +:+ b) = Some g /\
            (String.length a <= String.length g)%nat.
Proof.
  induction a as [| c a (g & IH & Hlen)].
  - change ("" +:+ close_tag +:+ b) with (String "<" ("/flight_category>" +:+ b)).
    cbn [greedy_group].
    destruct (greedy_group ("/flight_category>" +:+ b)) as [g' |].
    + eexists. split; [done |]. cbn. lia.
    + rewrite decide_True; [by exists "" |].
      exists b. by apply strip_prefix_spec.
  - exists (String c g). rewrite sapp_cons. cbn [greedy_group]. rewrite IH.
    split; [done |]. cbn. lia.
Qed.

Lemma greedy_group_maximal (seg g a b : string) :
  greedy_group seg = Some g -> seg = a +:+ close_tag +:+ b ->
  (String.length a <= String.length g)%nat.
Proof.
  intros Hg ->. destruct (greedy_group_longest a b) as (g' & Hg' & Hlen). congruence.
Qed.

(** A match at the start of the text is found by the first step of the
    search. *)
Lemma match_at_start (text g post : string) :
  matches_at text "" g post ->
  exists after g0,
    strip_prefix open_tag text = Some after /\
    greedy_group (line_prefix after) = Some g0 /\
    (String.length g <= String.length g0)%nat.
Proof.
  intros [-> Hg]. rewrite sapp_nil_l. exists (g +:+ close_tag +:+ post).
  rewrite line_prefix_app by done. rewrite line_prefix_app by apply single_line_close_tag.
  destruct (greedy_group_longest g (line_prefix post)) as (g0 & Hg0 & Hlen).
  exists g0. split; [| done].
  by apply (proj2 (strip_prefix_spec open_tag _ (g +:+ close_tag +:+ post))).
Qed.

Lemma matches_at_cons (c : ascii) (rest pre g post : string) :
  matches_at (String c rest) (String c pre) g post <-> matches_at rest pre g post.
Proof.
  unfold matches_at. rewrite sapp_cons. split.
  - by intros [[= ->] Hg].
  - by intros [-> Hg].
Qed.

Lemma matches_at_cons_inv (c : ascii) (rest pre g post : string) :
  matches_at (String c rest) pre g post ->
  pre = "" \/ exists pre', pre = String c pre' /\ matches_at rest pre' g post.
Proof.
  destruct pre as [| c' pre']; [by left |]. intros Hm. right. exists pre'.
  assert (c' = c) as -> by (destruct Hm as [Hm _]; rewrite sapp_cons in Hm; congruence).
  split; [done |]. exact (proj1 (matches_at_cons c rest pre' g post) Hm).
Qed.

Lemma re_search_step (c : ascii) (rest g pre post : string) :
  (forall g' post', ~ matches_at (String c rest) "" g' post') ->
  matches_at rest pre g post ->
  (forall pre' g' post', matches_at rest pre' g' post' ->
     (String.length pre <= String.length pre')%nat) ->
  (forall g' post', matches_at rest pre g' post' ->
     (String.length g' <= String.length g)%nat) ->
  matches_at (String c rest) (String c pre) g post /\
  (forall pre' g' post', matches_at (String c rest) pre' g' post' ->
     (String.length (String c pre) <= String.length pre')%nat) /\
  (forall g' post', matches_at (String c rest) (String c pre) g' post' ->
     (String.length g' <= String.length g)%nat).
Proof.
  intros Hno Hm Hleft Hlong. split_and!.
  - by apply matches_at_cons.
  - intros pre' g' post' Hm'.
    apply matches_at_cons_inv in Hm' as Hcases.
    destruct Hcases as [-> | (pre'' & -> & Hm'')]; [by apply Hno in Hm' |].
    cbn. apply le_n_S. by eapply Hleft.
  - intros g' post' Hm'. apply (proj1 (matches_at_cons c rest pre g' post')) in Hm'.
    by eapply Hlong.
Qed.

Lemma re_search_sound (text g : string) :
  re_search_flight_category text = Some g ->
  exists pre post,
    matches_at text pre g post /\
    (forall pre' g' post', matches_at text pre' g' post' ->
       (String.length pre <= String.length pre')%nat) /\
    (forall g' post', matches_at text pre g' post' ->
       (String.length g' <= String.length g)%nat).
Proof.
  induction text as [| c rest IH]; cbn [re_search_flight_category]; [done |].
  destruct (strip_prefix open_tag (String c rest)) as [after |] eqn:Hs.
  - destruct (greedy_group (line_prefix after)) as [g0 |] eqn:Hg.
    + intros [= <-]. apply strip_prefix_spec in Hs as Htext.
      destruct (line_prefix_is_prefix after) as [r1 Hafter].
      destruct (greedy_group_sound _ _ Hg) as [r2 Hline].
      exists "", (r2 +:+ r1). split_and!.
      * split.
        -- rewrite sapp_nil_l, Htext, Hafter, Hline. by rewrite !sapp_assoc.
        -- pose proof (line_prefix_single_line after) as Hsl. rewrite Hline in Hsl.
           by apply single_line_app in Hsl as [? _].
      * intros pre' g' post' _. cbn. lia.
      * intros g' post' Hm. destruct (match_at_start _ _ _ Hm) as (after' & g0' & Hs' & Hg' & Hlen).
        congruence.
    + intros Hrest. destruct (IH Hrest) as (pre & post & Hm & Hleft & Hlong).
      exists (String c pre), post. apply re_search_step; try done.
      intros g' post' Hm'. destruct (match_at_start _ _ _ Hm') as (after' & g0' & Hs' & Hg' & _).
      congruence.
  - intros Hrest. destruct (IH Hrest) as (pre & post & Hm & Hleft & Hlong).
    exists (String c pre), post. apply re_search_step; try done.
    intros g' post' Hm'. destruct (match_at_start _ _ _ Hm') as (after' & g0' & Hs' & _).
    congruence.
Qed.

Lemma re_search_none (text : string) :
  re_search_flight_category text = None ->
  forall pre g post, ~ matches_at text pre g post.
Proof.
  induction text as [| c rest IH]; cbn [re_search_flight_category].
  - intros _ pre g post [Hm _]. destruct pre; discriminate.
  - intros Hnone pre g post Hm.
    apply matches_at_cons_inv in Hm as Hcases.
    destruct Hcases as [-> | (pre' & -> & Hm')].
    + destruct (match_at_start _ _ _ Hm) as (after & g0 & Hs & Hg & _).
      by rewrite Hs, Hg in Hnone.
    + apply (IH) in Hm'; [done |].
      destruct (strip_prefix open_tag (String c rest)) as [after |]; [| done].
      by destruct (greedy_group (line_prefix after)).
Qed.

(** X18. The search of [update_flight_category] for the marker is the
    leftmost, longest match of the pattern: the text it returns is the
    group of a match (an opening tag, the group without a line break, a
    closing tag), no match starts further left, and no match that starts
    at the same place has a longer group; and it finds nothing exactly
    when the pattern matches nowhere in the text. *)
Theorem re_search_leftmost_longest (text : string) :
  (forall g,
     re_search_flight_category text = Some g <->
     exists pre post,
       matches_at text pre g post /\
       forall pre' g' post',
         matches_at text pre' g' post' ->
         (String.length pre < String.length pre')%nat \/
         (pre' = pre /\ (String.length g' <= String.length g)%nat)) /\
  (re_search_flight_category text = None <->
   forall pre g post, ~ matches_at text pre g post).
Proof.
  assert (forall pre g post pre' g' post',
            matches_at text pre g post -> matches_at text pre' g' post' ->
            String.length pre = String.length pre' -> pre = pre') as Hsame.
  { intros pre g post pre' g' post' [Hm _] [Hm' _] Hlen. rewrite Hm in Hm'.
    by apply sapp_inv_length in Hm' as [-> _]. }
  split.
  - intros g. split.
    + intros Hg. destruct (re_search_sound _ _ Hg) as (pre & post & Hm & Hleft & Hlong).
      exists pre, post. split; [done |]. intros pre' g' post' Hm'.
      pose proof (Hleft _ _ _ Hm') as Hle.
      destruct (decide (String.length pre = String.length pre')) as [Heq | Hne]; [| lia].
      right. pose proof (Hsame _ _ _ _ _ _ Hm Hm' Heq) as ->. split; [done |].
      by eapply Hlong.
    + intros (pre & post & Hm & Hbest).
      destruct (re_search_flight_category text) as [g0 |] eqn:Hg0.
      * destruct (re_search_sound _ _ Hg0) as (pre0 & post0 & Hm0 & Hleft0 & Hlong0).
        pose proof (Hleft0 _ _ _ Hm) as Hle.
        destruct (Hbest _ _ _ Hm0) as [Hlt | [-> Hlen]]; [lia |].
        pose proof (Hlong0 _ _ Hm) as Hlen'.
        destruct Hm as [Hm _], Hm0 as [Hm0 _]. rewrite Hm in Hm0.
        apply sapp_inv_length in Hm0 as [_ Hm0]; [| done].
        apply sapp_inv_length in Hm0 as [_ Hm0]; [| done].
        apply sapp_inv_length in Hm0 as [-> _]; [done | lia].
      * by eapply re_search_none in Hg0.
  - split; [apply re_search_none |].
    intros Hno. destruct (re_search_flight_category text) as [g |] eqn:Hg; [| done].
    destruct (re_search_sound _ _ Hg) as (pre & post & Hm & _). by apply Hno in Hm.
Qed.

Lemma sapp_split (a x b y : string) :
  a +:+ x = b +:+ y -> (String.length a <= String.length b)%nat ->
  exists r, b = a +:+ r /\ x = r +:+ y.
Proof.
  revert b. induction a as [| c a IH]; intros b; rewrite ?sapp_cons, ?sapp_nil_l.
  - intros -> _. by exists b.
  - destruct b as [| d b]; rewrite ?sapp_cons, ?sapp_nil_l; cbn [String.length]; [lia |].
    intros [= -> Heq] Hlen. destruct (IH b Heq) as (r & -> & ->); [lia |]. by exists r.
Qed.

(** A closing tag does not overlap with a later closing tag. *)
Lemma close_tag_no_overlap (a b r : string) :
  close_tag +:+ r = a +:+ close_tag +:+ b ->
  a = "" \/ (String.length close_tag <= String.length a)%nat.
Proof.
  unfold close_tag. intros Heq.
  do 18 (destruct a as [| ? a]; [by (left + discriminate Heq) |];
         rewrite !sapp_cons in Heq; injection Heq as <- Heq).
  right. cbn. lia.
Qed.

Lemma long_group_is_unknown (g : string) :
  (8 <= String.length g)%nat -> FlightCategory.from_string g = FlightCategory.UNKNOWN.
Proof.
  intros Hlen. apply from_string_unrecognized. intros Hin.
  repeat (apply elem_of_cons in Hin as [-> | Hin]; [cbn in Hlen; lia |]).
  by apply elem_of_nil in Hin.
Qed.

Section FirstElement.
Context (text pre g post : string).
Context (Hmatch : matches_at text pre g post).
Context (Hfirst : forall a b, text = a +:+ open_tag +:+ b ->
                    (String.length pre <= String.length a)%nat).

(** When no opening tag starts before [pre], the search finds a group
    that starts where [g] does and is at least as long. *)
Lemma re_search_first_element :
  exists g0 post0,
    re_search_flight_category text = Some g0 /\
    matches_at text pre g0 post0 /\
    exists r, g0 = g +:+ r /\ close_tag +:+ post = r +:+ close_tag +:+ post0.
Proof.
  destruct (re_search_flight_category text) as [g0 |] eqn:Hg0;
    [| by eapply re_search_none in Hg0].
  destruct (re_search_sound _ _ Hg0) as (pre0 & post0 & Hm0 & Hleft & Hlong).
  assert (pre0 = pre) as ->.
  { pose proof (Hleft _ _ _ Hmatch) as Hle.
    pose proof (Hfirst pre0 _ (proj1 Hm0)) as Hge.
    destruct Hmatch as [Hm _], Hm0 as [Hm0' _]. rewrite Hm in Hm0'.
    apply sapp_inv_length in Hm0' as [-> _]; [done | lia]. }
  exists g0, post0. split; [done |]. split; [done |].
  pose proof (Hlong _ _ Hmatch) as Hlen.
  destruct Hmatch as [Hm _], Hm0 as [Hm0' _]. rewrite Hm in Hm0'.
  apply sapp_inv_length in Hm0' as [_ Hm0']; [| done].
  apply sapp_inv_length in Hm0' as [_ Hm0']; [| done].
  destruct (sapp_split _ _ _ _ Hm0' Hlen) as (r & -> & Hr). by exists r.
Qed.
End FirstElement.

(** X19. A body with one flight-category element yields its content.
    When the first opening tag of the text is followed by [g], which has
    no line break, and a closing tag, and no further closing tag follows
    on the same line, the search returns [g], so that the attempt
    resolves to the category [g] parses to. *)
Theorem single_element_is_extracted (pre g post : string) :
  (forall a b,
     pre +:+ open_tag +:+ g +:+ close_tag +:+ post = a +:+ open_tag +:+ b ->
     (String.length pre <= String.length a)%nat) ->
  single_line g ->
  (forall a b, single_line a -> post <> a +:+ close_tag +:+ b) ->
  re_search_flight_category (pre +:+ open_tag +:+ g +:+ close_tag +:+ post) = Some g /\
  category_of_response (GetReturns (inr (pre +:+ open_tag +:+ g +:+ close_tag +:+ post)))
  = Ok (FlightCategory.from_string g).
Proof.
  intros Hfirst Hg Hlast.
  assert (re_search_flight_category (pre +:+ open_tag +:+ g +:+ close_tag +:+ post) = Some g)
    as Hsearch.
  { destruct (re_search_first_element _ pre g post (conj eq_refl Hg) Hfirst)
      as (g0 & post0 & -> & [_ Hg0] & r & -> & Hr).
    destruct (close_tag_no_overlap _ _ _ Hr) as [-> | Hlen]; [by rewrite sapp_nil_r |].
    exfalso. destruct (sapp_split _ _ _ _ Hr Hlen) as (r' & -> & Hpost).
    apply (Hlast r' post0); [| done].
    apply single_line_app in Hg0 as [_ Hg0]. by apply single_line_app in Hg0 as [_ Hg0]. }
  split; [exact Hsearch |]. cbn. by rewrite Hsearch.
Qed.

Lemma single_element_is_extracted_witness :
  (forall a b,
     "<METAR>" +:+ open_tag +:+ "VFR" +:+ close_tag +:+ "</METAR>" = a +:+ open_tag +:+ b ->
     (String.length "<METAR>" <= String.length a)%nat) /\
  single_line "VFR" /\
  (forall a b, single_line a -> "</METAR>" <> a +:+ close_tag +:+ b) /\
  re_search_flight_category ("<METAR>" +:+ open_tag +:+ "VFR" +:+ close_tag +:+ "</METAR>")
  = Some "VFR" /\
  category_of_response
    (GetReturns (inr ("<METAR>" +:+ open_tag +:+ "VFR" +:+ close_tag +:+ "</METAR>")))
  = Ok (FlightCategory.from_string "VFR").
Proof.
  assert (forall a b,
            "<METAR>" +:+ open_tag +:+ "VFR" +:+ close_tag +:+ "</METAR>"
            = a +:+ open_tag +:+ b ->
            (String.length "<METAR>" <= String.length a)%nat) as Hfirst.
  { intros a b Heq.
    do 7 (destruct a as [| ? a]; [discriminate Heq |];
          rewrite sapp_cons in Heq; injection Heq as <- Heq).
    cbn. lia. }
  assert (single_line "VFR") as Hg
    by (repeat (apply single_line_cons; split; [done |]); apply single_line_nil).
  assert (forall a b, single_line a -> "</METAR>" <> a +:+ close_tag +:+ b) as Hlast.
  { intros a b _ Heq. apply (f_equal String.length) in Heq.
    rewrite !slength_app in Heq. cbn in Heq. lia. }
  split; [exact Hfirst |]. split; [exact Hg |]. split; [exact Hlast |].
  exact (single_element_is_extracted "<METAR>" "VFR" "</METAR>" Hfirst Hg Hlast).
Defined.

(** X20. The group is greedy.  When two flight-category elements stand
    on one line, the first opening tag of the text being that of the
    first element, the text found runs from the content of the first
    element to that of the second, tags included; it is no category name,
    so the attempt counts as failed and parses to Unknown, whatever the
    two elements say. *)
Theorem elements_on_one_line_resolve_unknown (pre g1 mid g2 post : string) :
  (forall a b,
     pre +:+ open_tag +:+ (g1 +:+ close_tag +:+ mid +:+ open_tag +:+ g2)
     +:+ close_tag +:+ post = a +:+ open_tag +:+ b ->
     (String.length pre <= String.length a)%nat) ->
  single_line (g1 +:+ mid +:+ g2) ->
  exists g r,
    re_search_flight_category
      (pre +:+ open_tag +:+ (g1 +:+ close_tag +:+ mid +:+ open_tag +:+ g2)
       +:+ close_tag +:+ post)
    = Some g /\
    g = (g1 +:+ close_tag +:+ mid +:+ open_tag +:+ g2) +:+ r /\
    FlightCategory.from_string g = FlightCategory.UNKNOWN /\
    primary_failed
      (GetReturns (inr (pre +:+ open_tag +:+ (g1 +:+ close_tag +:+ mid +:+ open_tag +:+ g2)
                        +:+ close_tag +:+ post))).
Proof.
  intros Hfirst Hline.
  apply single_line_app in Hline as [Hg1 Hline]. apply single_line_app in Hline as [Hmid Hg2].
  assert (single_line (g1 +:+ close_tag +:+ mid +:+ open_tag +:+ g2)) as Hgroup.
  { repeat (apply single_line_app; split); try done; [apply single_line_close_tag |].
    unfold open_tag. repeat (apply single_line_cons; split; [done |]). apply single_line_nil. }
  destruct (re_search_first_element _ pre _ post (conj eq_refl Hgroup) Hfirst)
    as (g & post0 & Hsearch & _ & r & Hg & _).
  assert (FlightCategory.from_string g = FlightCategory.UNKNOWN) as Hunknown.
  { apply long_group_is_unknown. rewrite Hg, !slength_app. cbn. lia. }
  exists g, r. split; [exact Hsearch |]. split; [exact Hg |]. split; [exact Hunknown |].
  right. right. right. eexists _, g. done.
Qed.

Lemma elements_on_one_line_resolve_unknown_witness :
  (forall a b,
     "" +:+ open_tag +:+ ("VFR" +:+ close_tag +:+ " " +:+ open_tag +:+ "VFR")
     +:+ close_tag +:+ "" = a +:+ open_tag +:+ b ->
     (String.length "" <= String.length a)%nat) /\
  single_line ("VFR" +:+ " " +:+ "VFR") /\
  exists g r,
    re_search_flight_category
      ("" +:+ open_tag +:+ ("VFR" +:+ close_tag +:+ " " +:+ open_tag +:+ "VFR")
       +:+ close_tag +:+ "")
    = Some g /\
    g = ("VFR" +:+ close_tag +:+ " " +:+ open_tag +:+ "VFR") +:+ r /\
    FlightCategory.from_string g = FlightCategory.UNKNOWN /\
    primary_failed
      (GetReturns (inr ("" +:+ open_tag +:+ ("VFR" +:+ close_tag +:+ " " +:+ open_tag +:+ "VFR")
                        +:+ close_tag +:+ ""))).
Proof.
  assert (forall a b,
            "" +:+ open_tag +:+ ("VFR" +:+ close_tag +:+ " " +:+ open_tag +:+ "VFR")
            +:+ close_tag +:+ "" = a +:+ open_tag +:+ b ->
            (String.length "" <= String.length a)%nat) as Hfirst
    by (intros a b _; cbn; lia).
  assert (single_line ("VFR" +:+ " " +:+ "VFR")) as Hline
    by (repeat (apply single_line_cons; split; [done |]); apply single_line_nil).
  split; [exact Hfirst |]. split; [exact Hline |].
  exact (elements_on_one_line_resolve_unknown "" "VFR" " " "VFR" "" Hfirst Hline).
Defined.

(** ** Channel values are bytes *)

Section ProductBound.
Import PyFloat.

(** Shifting out bits that are all zero is exact. *)
Lemma shr_iter_exact (k : nat) (m : Z) :
  0 <= m -> m mod 2 ^ Z.of_nat k = 0 ->
  let mrs := Nat.iter k shr_1 (Build_shr_record m false false) in
  shr_r mrs = false /\ shr_s mrs = false.
Proof.
  revert m. induction k as [| k IH]; intros m Hm Hmod; [done |].
  rewrite Nat.iter_succ_r.
  rewrite Nat2Z.inj_succ, Z.pow_succ_r in Hmod by lia.
  assert (0 < 2 ^ Z.of_nat k) as Hpos by (apply Z.pow_pos_nonneg; lia).
  assert (m = 2 * (m / 2) /\ (m / 2) mod 2 ^ Z.of_nat k = 0) as [Hm2 Hmod2].
  { apply Z.mod_divide in Hmod as [q Hq]; [| lia]. subst m.
    replace (q * (2 * 2 ^ Z.of_nat k)) with ((q * 2 ^ Z.of_nat k) * 2) by lia.
    rewrite Z.div_mul by lia. split; [lia |]. by apply Z.mod_mul; lia. }
  assert (shr_1 (Build_shr_record m false false) = Build_shr_record (m / 2) false false)
    as ->.
  { rewrite Hm2 at 1. destruct (m / 2) as [| p | p]; [done | done | lia]. }
  apply IH; [| done]. apply Z.div_pos; lia.
Qed.

Lemma shr_fexp_exact (m e : Z) :
  0 <= m ->
  m mod 2 ^ Z.max 0 (fexp prec emax (Zdigits2 m + e) - e) = 0 ->
  loc_of_shr_record (fst (shr_fexp prec emax m e loc_Exact)) = loc_Exact.
Proof.
  intros Hm Hmod. unfold shr_fexp, shr. cbn [shr_record_of_loc].
  destruct (fexp prec emax (Zdigits2 m + e) - e) as [| p | p]; cbn [fst]; [done | | done].
  rewrite iter_pos_nat.
  rewrite Z.max_r, <- (positive_nat_Z p) in Hmod by lia.
  destruct (shr_iter_exact (Pos.to_nat p) m Hm Hmod) as [Hr Hs].
  destruct (Nat.iter _ _ _) as [m' r s]. cbn in Hr, Hs. by subst.
Qed.

(** One rounding step keeps a mantissa below an integer bound, scaled. *)
Lemma shr_fexp_round_le (m e N : Z) :
  0 <= m -> 0 <= N < 2 ^ 8 -> e <= 0 -> m <= N * 2 ^ (- e) ->
  let mrs := fst (shr_fexp prec emax m e loc_Exact) in
  let e' := snd (shr_fexp prec emax m e loc_Exact) in
  e' <= 0 /\ 0 <= shr_m mrs /\
  round_nearest_even (shr_m mrs) (loc_of_shr_record mrs) <= N * 2 ^ (- e').
Proof.
  intros Hm HN He Hle.
  pose proof (shr_fexp_m prec emax m e loc_Exact Hm) as [Hm1 He1].
  pose proof (shr_fexp_exact m e Hm) as Hexact.
  cbn zeta. set (mrs := fst (shr_fexp prec emax m e loc_Exact)) in *.
  set (e' := snd (shr_fexp prec emax m e loc_Exact)) in *.
  set (s := Z.max 0 (fexp prec emax (Zdigits2 m + e) - e)) in *.
  assert (0 <= s) as Hs by (unfold s; lia).
  assert (0 < 2 ^ s) as Hpos by (apply Z.pow_pos_nonneg; lia).
  assert (0 < 2 ^ (- e)) as Hpose by (apply Z.pow_pos_nonneg; lia).
  assert (Zdigits2 m + e <= 8) as Hdigits.
  { assert (Zdigits2 m <= 8 - e); [| lia].
    apply Zdigits2_le_iff; [lia | lia |].
    replace (8 - e) with (8 + - e) by lia. rewrite Z.pow_add_r by lia. nia. }
  assert (e' <= 0) as He'.
  { rewrite He1. unfold s, fexp, emin, prec, emax in *. lia. }
  assert (N * 2 ^ (- e) = N * 2 ^ (- e') * 2 ^ s) as Hscale.
  { rewrite <- Z.mul_assoc, <- Z.pow_add_r by lia. do 2 f_equal. lia. }
  clearbody mrs e' s.
  split; [done |]. split; [rewrite Hm1; apply Z.div_pos; lia |].
  destruct (decide (m mod 2 ^ s = 0)) as [Hzero | Hnonzero].
  - rewrite (Hexact Hzero). cbn [round_nearest_even]. rewrite Hm1.
    apply Z.div_le_upper_bound; [lia |]. rewrite Z.mul_comm, <- Hscale. exact Hle.
  - pose proof (round_nearest_even_bounds (shr_m mrs) (loc_of_shr_record mrs)) as [_ Hr].
    assert (shr_m mrs < N * 2 ^ (- e')) as Hlt; [| clear -Hr Hlt; lia].
    rewrite Hm1. apply Z.div_lt_upper_bound; [lia |].
    assert (m <> N * 2 ^ (- e') * 2 ^ s) as Hne; [| clear -Hne Hle Hscale; lia].
    intros ->. apply Hnonzero. apply Z.mod_mul. clear -Hpos. lia.
Qed.

(** The rounded product of two floats stays below every integer the
    exact product is below. *)
Lemma binary_round_aux_le (M : positive) (E N : Z) (m : positive) (e : Z) :
  0 <= N < 2 ^ 8 -> E <= 0 -> Z.pos M <= N * 2 ^ (- E) ->
  binary_round_aux prec emax false (Z.pos M) E loc_Exact = S754_finite false m e ->
  e <= 0 /\ Z.pos m <= N * 2 ^ (- e).
Proof.
  intros HN HE Hle. unfold binary_round_aux.
  pose proof (shr_fexp_round_le (Z.pos M) E N) as H1.
  destruct (shr_fexp prec emax (Z.pos M) E loc_Exact) as [mrs1 e1].
  cbn [fst snd] in H1. destruct H1 as (He1 & Hm1 & Hround); [lia | done | done | done |].
  set (m1 := round_nearest_even (shr_m mrs1) (loc_of_shr_record mrs1)) in *.
  assert (0 <= m1) as Hm1pos
    by (pose proof (round_nearest_even_bounds (shr_m mrs1) (loc_of_shr_record mrs1));
        unfold m1; lia).
  pose proof (shr_fexp_m prec emax m1 e1 loc_Exact Hm1pos) as H2.
  pose proof (shr_fexp_round_le m1 e1 N Hm1pos HN He1 Hround) as H3.
  destruct (shr_fexp prec emax m1 e1 loc_Exact) as [mrs2 e2].
  cbn [fst snd] in H2, H3. destruct H2 as [Hm2 He2]. destruct H3 as (He2' & _ & _).
  destruct (shr_m mrs2) as [| m2 | m2] eqn:Hshr; [done | | done].
  destruct (e2 <=? emax - prec); [| done].
  intros [= <- <-]. split; [done |].
  set (s := Z.max 0 (fexp prec emax (Zdigits2 m1 + e1) - e1)) in *.
  assert (0 <= s) as Hs by (unfold s; lia).
  assert (0 < 2 ^ s) as Hpos by (apply Z.pow_pos_nonneg; lia).
  assert (N * 2 ^ (- e1) = N * 2 ^ (- e2) * 2 ^ s) as Hscale.
  { rewrite <- Z.mul_assoc, <- Z.pow_add_r by lia. do 2 f_equal. lia. }
  clearbody s m1. rewrite Hm2. apply Z.div_le_upper_bound; [lia |].
  rewrite Z.mul_comm, <- Hscale. exact Hround.
Qed.

Lemma of_int_channel_exact (n : Z) :
  0 <= n <= 255 ->
  (n = 0 /\ exists s, of_int n = Ok (S754_zero s)) \/
  (exists m e, of_int n = Ok (S754_finite false m e) /\ e <= 0 /\ Z.pos m = n * 2 ^ (- e)).
Proof.
  intros Hn.
  assert (forallb of_int_exact (seqZ 0 256) = true) as Hall by (vm_compute; reflexivity).
  rewrite forallb_forall in Hall.
  specialize (Hall n). unfold of_int_exact in Hall.
  assert (In n (seqZ 0 256)) as Hin by (apply list_elem_of_In, elem_of_seqZ; lia).
  specialize (Hall Hin).
  destruct (of_int n) as [[s | | | [] m e] |]; try done.
  - left. apply Z.eqb_eq in Hall. eauto.
  - right. apply andb_true_iff in Hall as [He Hm].
    apply Z.leb_le in He. apply Z.eqb_eq in Hm. eauto.
Qed.

Lemma in_unit_interval_mantissa (m : positive) (e : Z) :
  in_unit_interval (S754_finite false m e) -> e <= 0 /\ Z.pos m <= 2 ^ (- e).
Proof.
  intros (q & Hq & _ & H1). cbn in Hq. injection Hq as <-. cbn [cond_Zopp] in H1.
  destruct e as [| p | p].
  - unfold Qle in H1. cbn in H1. cbn. lia.
  - unfold Qle in H1. cbn in H1.
    assert (2 ^ 1 <= 2 ^ Z.pos p) by (apply Z.pow_le_mono_r; lia).
    change (2 ^ 1) with 2 in *. nia.
  - unfold Qle in H1. cbn in H1. rewrite Pos2Z.inj_pow in H1.
    split; [lia |]. change (- Z.neg p) with (Z.pos p). lia.
Qed.

(** The value written for a channel is at most the channel byte. *)
Lemma int_of_product_le (n : Z) (x : float) (v : Z) :
  0 <= n <= 255 -> in_unit_interval x -> int_of_product n x = Ok v -> 0 <= v <= n.
Proof.
  intros Hn Hx. unfold int_of_product.
  destruct (of_int_channel_exact n Hn) as [[-> [s ->]] | (mn & en & -> & Hen & Hmn)];
    cbn [mbind outcome_bind].
  - destruct x as [| | |[] ? ?]; cbn; intros [=]; lia.
  - destruct x as [sx | sx | | sx m e]; cbn [mul SFmul to_int]; try done.
    + intros [= <-]. lia.
    + assert (sx = false) as ->.
      { destruct sx; [| done]. exfalso. destruct Hx as (q & Hq & H0 & _).
        cbn in Hq. injection Hq as <-. destruct e; unfold Qle in H0; cbn in H0; lia. }
      apply in_unit_interval_mantissa in Hx as [He Hm]. cbn [xorb].
      assert (0 < 2 ^ (- en)) by (apply Z.pow_pos_nonneg; lia).
      assert (0 < 2 ^ (- e)) by (apply Z.pow_pos_nonneg; lia).
      assert (Z.pos (mn * m) <= n * 2 ^ (- (en + e))) as Hle.
      { replace (- (en + e)) with (- en + - e) by lia.
        rewrite Z.pow_add_r, Pos2Z.inj_mul by lia. nia. }
      destruct (binary_round_aux prec emax false (Z.pos (mn * m)) (en + e) loc_Exact)
        as [s' | s' | | s' m' e'] eqn:Hround; cbn [to_int]; try done.
      * intros [= <-]. lia.
      * assert (s' = false) as ->.
        { unfold binary_round_aux in Hround.
          destruct (shr_fexp _ _ _ _ _) as [? ?]. destruct (shr_fexp _ _ _ _ _) as [? ?].
          destruct (shr_m _); [done | | done]. destruct (_ <=? _); congruence. }
        assert (0 <= n < 2 ^ 8) as Hn8 by (change (2 ^ 8) with 256; lia).
        assert (en + e <= 0) as HE by lia.
        destruct (binary_round_aux_le _ _ n _ _ Hn8 HE Hle Hround) as [He' Hm'].
        intros [= <-]. cbn [cond_Zopp].
        assert (0 < 2 ^ (- e')) by (apply Z.pow_pos_nonneg; lia).
        rewrite <- (Z.opp_involutive e'), Z.shiftl_opp_r, Z.shiftr_div_pow2 by lia.
        split; [apply Z.div_pos; lia |].
        apply Z.div_le_upper_bound; lia.
Qed.
End ProductBound.

Lemma int_of_product_one (n : Z) :
  0 <= n <= 255 -> PyFloat.int_of_product n PyFloat.one = Ok n.
Proof.
  intros Hn.
  assert (forallb (λ k, bool_decide (PyFloat.int_of_product k PyFloat.one = Ok k))
            (seqZ 0 256) = true) as Hall by (vm_compute; reflexivity).
  rewrite forallb_forall in Hall.
  apply (bool_decide_unpack _), Is_true_true, Hall, list_elem_of_In, elem_of_seqZ. lia.
Qed.

Lemma channel_values_bytes (color : Z) (brightness : float) (vr vg vb : Z) :
  0 <= color < 2 ^ 24 -> PyFloat.in_unit_interval brightness ->
  channel_values color brightness vr vg vb ->
  0 <= vr <= Z.shiftr color 16 /\
  0 <= vg <= Z.shiftr (Z.land color 0x00FF00) 8 /\
  0 <= vb <= Z.land color 0x0000FF /\
  vr <= 255 /\ vg <= 255 /\ vb <= 255.
Proof.
  intros Hc Hb (Hvr & Hvg & Hvb).
  destruct (red_channel color Hc) as [Hr _].
  destruct (green_channel color) as [Hg _]; [lia |].
  destruct (blue_channel color) as [Hbl _].
  pose proof (int_of_product_le _ _ _ Hr Hb Hvr).
  pose proof (int_of_product_le _ _ _ Hg Hb Hvg).
  pose proof (int_of_product_le _ _ _ Hbl Hb Hvb).
  lia.
Qed.

(** X21. Every value [set_color] writes is a byte, and no brighter than
    the color asks for.  For a 24-bit color and a brightness in the unit
    interval the three values written lie between zero and the red, green
    and blue byte of the color, so between 0 and 255, whatever the
    rounding of the float product does; at full brightness they are the
    three bytes themselves. *)
Theorem set_color_writes_bytes
    (self : RGBLED.t) (color : Z) (brightness : float) (w : World) :
  0 <= color < 2 ^ 24 ->
  PyFloat.in_unit_interval brightness ->
  (exists vr vg vb,
     run (RGBLED.set_color self color brightness) w
     = (Ok (), logged w (channel_writes self vr vg vb)) /\
     0 <= vr <= Z.shiftr color 16 /\
     0 <= vg <= Z.shiftr (Z.land color 0x00FF00) 8 /\
     0 <= vb <= Z.land color 0x0000FF /\
     vr <= 255 /\ vg <= 255 /\ vb <= 255) /\
  run (RGBLED.set_color self color PyFloat.one) w
  = (Ok (), logged w (channel_writes self (Z.shiftr color 16)
                        (Z.shiftr (Z.land color 0x00FF00) 8) (Z.land color 0x0000FF))).
Proof.
  intros Hc Hb. split.
  - destruct (channel_values_exist color brightness Hc Hb) as (vr & vg & vb & Hv).
    exists vr, vg, vb. split.
    + destruct Hv as (Hvr & Hvg & Hvb). by apply set_color_run.
    + by apply (channel_values_bytes color brightness).
  - destruct (red_channel color Hc) as [Hr _].
    destruct (green_channel color) as [Hg _]; [lia |].
    destruct (blue_channel color) as [Hbl _].
    apply set_color_run; by apply int_of_product_one.
Qed.

Lemma set_color_writes_bytes_witness :
  0 <= LEDColors.WIFI_BLUE < 2 ^ 24 /\
  PyFloat.in_unit_interval PyFloat.half /\
  exists vr vg vb,
    run (RGBLED.set_color (Airport.led sample_airport) LEDColors.WIFI_BLUE PyFloat.half)
      initial_world
    = (Ok (), logged initial_world (channel_writes (Airport.led sample_airport) vr vg vb)) /\
    0 <= vr <= Z.shiftr LEDColors.WIFI_BLUE 16 /\
    0 <= vg <= Z.shiftr (Z.land LEDColors.WIFI_BLUE 0x00FF00) 8 /\
    0 <= vb <= Z.land LEDColors.WIFI_BLUE 0x0000FF /\
    vr <= 255 /\ vg <= 255 /\ vb <= 255.
Proof.
  assert (0 <= LEDColors.WIFI_BLUE < 2 ^ 24) as Hc by apply wifi_blue_range.
  assert (PyFloat.in_unit_interval PyFloat.half) as Hb
    by (eexists; split; [reflexivity |]; split; unfold Qle; cbn; lia).
  split; [exact Hc |]. split; [exact Hb |].
  exact (proj1 (set_color_writes_bytes (Airport.led sample_airport) LEDColors.WIFI_BLUE
                  PyFloat.half initial_world Hc Hb)).
Defined.

(** ** Every register write of the program is a byte *)

Lemma in_range_refl (w : World) : in_range_since w w.
Proof. exists []. by rewrite app_nil_r. Qed.

Lemma in_range_trans (w1 w2 w3 : World) :
  in_range_since w1 w2 -> in_range_since w2 w3 -> in_range_since w1 w3.
Proof.
  intros (evs1 & H1 & Hall1) (evs2 & H2 & Hall2). exists (evs1 ++ evs2).
  split; [by rewrite H2, H1, app_assoc | by apply Forall_app].
Qed.

Lemma in_range_events (w : World) (evs : list event) (h n : nat) :
  Forall write_in_range evs -> in_range_since w (mkWorld (log w ++ evs) h n).
Proof. intros Hall. by exists evs. Qed.

Lemma in_range_logged (w : World) (evs : list event) :
  Forall write_in_range evs -> in_range_since w (logged w evs).
Proof. apply in_range_events. Qed.

Lemma channel_writes_in_range (led : RGBLED.t) (vr vg vb : Z) :
  0 <= vr <= 255 -> 0 <= vg <= 255 -> 0 <= vb <= 255 ->
  Forall write_in_range (channel_writes led vr vg vb).
Proof.
  intros. unfold channel_writes. repeat (constructor; [done |]). constructor.
Qed.

Lemma show_color_writes_in_range (airports : list Airport.t) (vr vg vb : Z) :
  0 <= vr <= 255 -> 0 <= vg <= 255 -> 0 <= vb <= 255 ->
  Forall write_in_range (show_color_writes airports vr vg vb).
Proof.
  intros Hr Hg Hb. unfold show_color_writes.
  induction airports as [| a rest IH]; [done |]. cbn [mbind list_bind].
  apply Forall_app. split; [by apply channel_writes_in_range | exact IH].
Qed.

Lemma chain_events_in_range (evs : list event) :
  Forall (λ e, is_chain_event e = true) evs -> Forall write_in_range evs.
Proof. intros Hall. eapply Forall_impl; [exact Hall |]. by intros []. Qed.

Lemma channel_values_in_byte_range (color : Z) (brightness : float) (vr vg vb : Z) :
  0 <= color < 2 ^ 24 -> PyFloat.in_unit_interval brightness ->
  channel_values color brightness vr vg vb ->
  0 <= vr <= 255 /\ 0 <= vg <= 255 /\ 0 <= vb <= 255.
Proof.
  intros Hc Hb Hv. pose proof (channel_values_bytes color brightness vr vg vb Hc Hb Hv). lia.
Qed.

Section InRange.
Context (env : Env).
Context (Hbrightness : PyFloat.in_unit_interval (LED_BRIGHTNESS env)).

Lemma show_color_in_range (color : Z) (airports : list Airport.t) (w : World) :
  0 <= color < 2 ^ 24 ->
  exists w',
    run (Map.show_color color (LED_BRIGHTNESS env)) (airports, w) = (Ok (), (airports, w')) /\
    in_range_since w w'.
Proof.
  intros Hc.
  destruct (channel_values_exist color (LED_BRIGHTNESS env) Hc Hbrightness)
    as (vr & vg & vb & Hv).
  destruct (channel_values_in_byte_range _ _ _ _ _ Hc Hbrightness Hv) as (Hr & Hg & Hb).
  eexists. split; [by apply (show_color_run _ _ vr vg vb) |].
  by apply in_range_logged, show_color_writes_in_range.
Qed.

Lemma update_in_range (session : Session.t) (self : Airport.t) (w : World) :
  exists self' w',
    run (Airport.update_flight_category env session) (self, w) = (Ok (), (self', w')) /\
    in_range_since w w'.
Proof.
  destruct (update_trace env session Hbrightness self w)
    as (c & evs1 & h & Hchain & [[_ ->] | (_ & vr & vg & vb & Hvr & Hvg & Hvb & ->)]).
  - eexists _, _. split; [done |]. by apply in_range_events, chain_events_in_range.
  - eexists _, _. split; [done |]. apply in_range_events, Forall_app.
    split; [by apply chain_events_in_range |].
    destruct (channel_values_in_byte_range _ (LED_BRIGHTNESS env) vr vg vb
                (policy_color_range c) Hbrightness) as (Hr & Hg & Hb); [done |].
    by apply channel_writes_in_range.
Qed.

Lemma update_all_in_range (session : Session.t) (airports : list Airport.t) (w : World) :
  exists airports' w',
    run (AirportManager.update_airport_flight_categories env session) (airports, w)
    = (Ok (), (airports', w')) /\
    in_range_since w w'.
Proof.
  unfold AirportManager.update_airport_flight_categories. rewrite run_for_each.
  revert w. induction airports as [| a rest IH]; intros w; cbn [for_each_from].
  - eexists _, _. split; [done |]. apply in_range_refl.
  - destruct (update_in_range session a w) as (a' & w1 & -> & H1).
    destruct (IH w1) as (rest' & w2 & -> & H2).
    eexists _, _. split; [done |]. by eapply in_range_trans.
Qed.

Lemma poll_in_range (cycles : nat) (airports : list Airport.t) (w : World) :
  exists airports' w',
    run (poll env cycles) (airports, w) = (Ok (), (airports', w')) /\
    in_range_since w w'.
Proof.
  revert airports w. induction cycles as [| n IH]; intros airports w; cbn [poll].
  - eexists _, _. rewrite run_ret. split; [done |]. apply in_range_refl.
  - rewrite run_bind.
    destruct (update_all_in_range (internet env) airports w) as (airports1 & w1 & -> & H1).
    run_simpl.
    destruct (IH airports1 (logged w1 [EvSleep 45])) as (airports2 & w2 & -> & H2).
    eexists _, _. split; [done |].
    eapply in_range_trans; [exact H1 |]. eapply in_range_trans; [| exact H2].
    by apply in_range_logged; repeat constructor.
Qed.

Lemma from_config_line_in_range (line : string) (board_manager : BoardManager.t) (w : World) :
  in_range_since w (run (Airport.from_config_line env line board_manager) w).2.
Proof.
  destruct (from_config_line_cases env line board_manager w)
    as [[e ->] | (code & rp & gp & bp & alt & host & ->)]; [apply in_range_refl |].
  rewrite run_init.
  destruct (channel_values_exist LEDColors.YELLOW (LED_BRIGHTNESS env) yellow_range
              Hbrightness) as (vr & vg & vb & Hv).
  destruct (channel_values_in_byte_range _ _ _ _ _ yellow_range Hbrightness Hv)
    as (Hr & Hg & Hb).
  destruct Hv as (Hvr & Hvg & Hvb).
  rewrite (set_color_run _ _ _ _ vr vg vb) by done. cbn [snd]. rewrite logged_logged.
  apply in_range_logged, Forall_app. split; [by repeat constructor |].
  by apply channel_writes_in_range.
Qed.

Lemma load_lines_in_range (lines : list string) (board_manager : BoardManager.t)
    (airports : list Airport.t) (w : World) :
  in_range_since w
    (run (AirportManager.load_lines env lines board_manager) (airports, w)).2.2.
Proof.
  revert airports w. induction lines as [| line rest IH]; intros airports w;
    cbn [AirportManager.load_lines].
  - rewrite run_ret. apply in_range_refl.
  - rewrite run_bind, run_in_world.
    pose proof (from_config_line_in_range line board_manager w) as H1.
    destruct (run (Airport.from_config_line env line board_manager) w) as [[a | e] w1];
      cbn [fst snd] in *; [| done].
    rewrite run_bind. cbn [AirportManager.append run].
    eapply in_range_trans; [exact H1 | apply IH].
Qed.

Lemma configure_in_range (airports : list Airport.t) (w : World) :
  in_range_since w (run (configure env) (airports, w)).2.2.
Proof.
  rewrite run_configure. unfold AirportManager.load_airports.
  assert (in_range_since w
            (logged w (map EvBoardInit (BoardManager.boards main_board_manager)))) as H1
    by (apply in_range_logged; by repeat constructor).
  destruct (files env "./lib/config.txt") as [lines |].
  - eapply in_range_trans; [exact H1 | apply load_lines_in_range].
  - by rewrite run_raise.
Qed.

Lemma attempt_events_in_range (airports : list Airport.t) (vr vg vb : Z) (attempt : Z)
    (ending : list event) :
  0 <= vr <= 255 -> 0 <= vg <= 255 -> 0 <= vb <= 255 ->
  Forall (λ e, is_set_current e = false) ending ->
  Forall write_in_range (attempt_events airports vr vg vb attempt ending).
Proof.
  intros Hr Hg Hb Hending. unfold attempt_events.
  apply Forall_app. split; [by apply show_color_writes_in_range |].
  repeat constructor. eapply Forall_impl; [exact Hending |]. by intros [].
Qed.

Lemma connect_wifi_for_in_range (attempts : list Z) (airports : list Airport.t) (w : World) :
  exists r w',
    run (Map.connect_wifi_for env attempts) (airports, w) = (r, (airports, w')) /\
    in_range_since w w'.
Proof.
  destruct (channel_values_exist LEDColors.WIFI_BLUE (LED_BRIGHTNESS env) wifi_blue_range
              Hbrightness) as (vr & vg & vb & Hv).
  destruct (channel_values_in_byte_range _ _ _ _ _ wifi_blue_range Hbrightness Hv)
    as (Hr & Hg & Hb).
  revert w. induction attempts as [| attempt rest IH]; intros w.
  - eexists _, _. split; [done |]. apply in_range_refl.
  - rewrite (connect_wifi_for_step env vr vg vb Hv).
    destruct (wifi_radio_connect env (wifi_n w)) as [[] | e].
    + eexists _, _. split; [done |].
      apply in_range_events, attempt_events_in_range; try done; by repeat constructor.
    + destruct (decide (e = ConnectionError)) as [-> | Hne].
      * destruct (IH (mkWorld (log w ++ attempt_events airports vr vg vb attempt [EvSleep 1])
                        (http_n w) (S (wifi_n w)))) as (r & w' & -> & H2).
        eexists _, _. split; [done |]. eapply in_range_trans; [| exact H2].
        apply in_range_events, attempt_events_in_range; try done; by repeat constructor.
      * exists (Raise e). eexists. split; [by destruct e |].
        apply in_range_events, attempt_events_in_range; try done; by repeat constructor.
Qed.

Lemma connect_and_indicate_in_range (airports : list Airport.t) (w : World) :
  exists r w',
    run (connect_and_indicate env) (airports, w) = (r, (airports, w')) /\
    in_range_since w w' /\
    (r = Ok () \/ exists e, r = Raise e).
Proof.
  unfold connect_and_indicate, Map.connect_wifi. rewrite run_bind.
  destruct (connect_wifi_for_in_range (seqZ 1 5) airports w) as (r & w1 & -> & H1).
  destruct r as [[] | e].
  - rewrite run_bind.
    destruct (show_color_in_range LEDColors.GREEN airports w1 green_range) as (w2 & -> & H2).
    run_simpl.
    destruct (show_color_in_range LEDColors.YELLOW airports (logged w2 [EvSleep 1])
                yellow_range) as (w3 & -> & H3).
    eexists _, _. split; [done |]. split; [| by left].
    eapply in_range_trans; [exact H1 |]. eapply in_range_trans; [exact H2 |].
    eapply in_range_trans; [| exact H3]. by apply in_range_logged; repeat constructor.
  - rewrite !run_bind.
    destruct (show_color_in_range LEDColors.RED airports w1 red_range) as (w2 & -> & H2).
    unfold sys_exit. rewrite run_raise.
    eexists _, _. split; [done |]. split; [| by eauto].
    by eapply in_range_trans.
  - eexists _, _. split; [done |]. split; [done | by eauto].
Qed.
End InRange.

(** X22. Every value the program writes to a constant-current register is
    a byte.  For any configuration file, any behaviour of the radio and of
    the weather service, and a brightness in the unit interval, every
    register write in the log of [main], however it ends and after any
    number of polling cycles, carries a value between 0 and 255. *)
Theorem main_writes_bytes (env : Env) (cycles : nat) :
  PyFloat.in_unit_interval (LED_BRIGHTNESS env) ->
  Forall write_in_range (log (after (main env cycles) ([], initial_world)).2).
Proof.
  intros Hb.
  assert (in_range_since initial_world (after (main env cycles) ([], initial_world)).2)
    as (evs & -> & Hall); [| done].
  unfold after. rewrite run_main, run_startup.
  pose proof (configure_in_range env Hb [] initial_world) as H1.
  destruct (run (configure env) ([], initial_world)) as [[[] | e] [airports w]];
    cbn [fst snd] in *; [| done].
  destruct (connect_and_indicate_in_range env Hb airports w) as (r & w1 & -> & H2 & Hr).
  destruct Hr as [-> | [e ->]]; [| by eapply in_range_trans].
  destruct (poll_in_range env Hb cycles airports w1) as (airports' & w2 & -> & H3).
  cbn [snd]. eapply in_range_trans; [exact H1 |]. by eapply in_range_trans.
Qed.

Lemma main_writes_bytes_witness :
  PyFloat.in_unit_interval (LED_BRIGHTNESS sample_env) /\
  Forall write_in_range (log (after (main sample_env 2) ([], initial_world)).2).
Proof.
  assert (PyFloat.in_unit_interval (LED_BRIGHTNESS sample_env)) as Hb
    by (eexists; split; [reflexivity |]; split; unfold Qle; cbn; lia).
  split; [exact Hb |]. exact (main_writes_bytes sample_env 2 Hb).
Defined.

(** ** Quiet updates *)

(** X23. An update is silent exactly when the primary station answers
    with a category other than Unknown: then nothing is printed, and in
    every other case the first line printed is the notice that the
    alternate is tried. *)
Theorem update_prints_iff_primary_failed
    (env : Env) (session : Session.t) (self : Airport.t) (w : World) :
  (printed (update_events_of env session self w) = [] <->
   exists c, primary_recognized
     (Session.responses session (http_n w) (metar_url (Airport.airport_code self))) c) /\
  (head (printed (update_events_of env session self w)) = Some (trying_alternate_line self) <->
   primary_failed
     (Session.responses session (http_n w) (metar_url (Airport.airport_code self)))).
Proof.
  destruct (primary_failed_or_recognized
              (Session.responses session (http_n w) (metar_url (Airport.airport_code self))))
    as [Hf | [c Hc]].
  - destruct (update_events_of_failed env session self w Hf) as (evs2 & -> & Hevs2 & _).
    rewrite printed_app, printed_alternate_events, (printed_writes _ Hevs2). split.
    + split; [done |]. intros [c Hc]. by eapply primary_failed_not_recognized in Hc.
    + done.
  - destruct (update_events_of_recognized env session self w c Hc) as (evs2 & -> & Hevs2 & _).
    rewrite printed_app, (printed_writes _ Hevs2). split.
    + split; [by eauto | done].
    + split; [done |]. intros Hf. by eapply primary_failed_not_recognized in Hc.
Qed.

(** ** The fields of a line *)

Lemma no_space_nil : no_space "".
Proof. intros [| x a] c b; done. Qed.

Lemma no_space_snoc (s : string) (c : ascii) :
  no_space s -> is_space c = false -> no_space (s +:+ String c "").
Proof.
  intros Hs Hc. induction s as [| x s IH]; intros a d b.
  - rewrite sapp_nil_l. destruct a as [| y a]; rewrite ?sapp_cons, ?sapp_nil_l.
    + by intros [= <- _].
    + intros [= _ Heq]. by destruct a.
  - rewrite sapp_cons. destruct a as [| y a]; rewrite ?sapp_cons, ?sapp_nil_l.
    + intros [= <- _]. by apply (Hs "" x s).
    + intros [= _ Heq]. apply (IH ltac:(intros a' c' b' ->; by apply (Hs (String x a') c' b'))
                                 a d b Heq).
Qed.

Lemma snoc_nonempty (s : string) (c : ascii) : s +:+ String c "" <> "".
Proof. by destruct s. Qed.

Lemma split_from_fields (cur s : string) :
  no_space cur -> Forall is_field (split_from cur s).
Proof.
  revert cur. induction s as [| c s IH]; intros cur Hcur; cbn [split_from].
  - destruct (decide (cur = "")); [done |]. by repeat constructor.
  - destruct (is_space c) eqn:Hc.
    + destruct (decide (cur = "")).
      * apply IH, no_space_nil.
      * constructor; [done |]. apply IH, no_space_nil.
    + apply IH. by apply no_space_snoc.
Qed.

Lemma is_ascii_snoc (s : string) (c : ascii) :
  is_ascii (s +:+ String c "") = is_ascii s && (code_of c <? 128).
Proof.
  induction s as [| x s IH]; rewrite ?sapp_cons, ?sapp_nil_l; cbn [is_ascii].
  - by rewrite andb_true_r.
  - by rewrite IH, andb_assoc.
Qed.

Lemma split_from_ascii (cur s : string) :
  is_ascii cur = true -> is_ascii s = true ->
  Forall (λ f, is_ascii f = true) (split_from cur s).
Proof.
  revert cur. induction s as [| c s IH]; intros cur Hcur Hs; cbn [split_from].
  - destruct (decide (cur = "")); [done |]. by repeat constructor.
  - cbn [is_ascii] in Hs. apply andb_true_iff in Hs as [Hc Hs].
    destruct (is_space c).
    + destruct (decide (cur = "")); [by apply IH |]. constructor; [done | by apply IH].
    + apply IH; [| done]. by rewrite is_ascii_snoc, Hcur, Hc.
Qed.

(** X24. The fields of a configuration line of ASCII characters are its
    maximal runs of characters that are not whitespace: every field
    [split] yields is made of ASCII characters, is not empty and contains
    no whitespace.  So the code and the alternate of an airport
    [from_config_line] returns for such a line are not empty and contain
    no blank, tab or line break, the line break that ends the line
    included. *)
Theorem config_fields_have_no_whitespace
    (env : Env) (line : string) (board_manager : BoardManager.t) (airport : Airport.t)
    (w w' : World) :
  is_ascii line = true ->
  Forall (λ f, is_ascii f = true /\ is_field f) (split line) /\
  (run (Airport.from_config_line env line board_manager) w = (Ok airport, w') ->
   (is_ascii (Airport.airport_code airport) = true /\
    is_field (Airport.airport_code airport)) /\
   (is_ascii (Airport.alternate airport) = true /\
    is_field (Airport.alternate airport))).
Proof.
  intros Hascii.
  assert (Forall (λ f, is_ascii f = true /\ is_field f) (split line)) as Hfields.
  { apply Forall_and. split.
    - by apply split_from_ascii.
    - apply split_from_fields, no_space_nil. }
  split; [exact Hfields |]. intros Hrun.
  apply from_config_line_ok_inv in Hrun
    as (code & ci & addr & r & g & b & alt & extra & i & a & Hsplit & _ & _ & _ & _ & _ & _
        & -> & -> & _).
  rewrite Hsplit in Hfields.
  apply Forall_cons in Hfields as [Hcode Hfields]. split; [exact Hcode |].
  do 5 apply Forall_cons in Hfields as [_ Hfields].
  by apply Forall_cons in Hfields as [Halt _].
Qed.

Lemma config_fields_have_no_whitespace_witness :
  is_ascii ("KJFK 0 58 0 1 2 KLGA" +:+ newline) = true /\
  run (Airport.from_config_line sample_env ("KJFK 0 58 0 1 2 KLGA" +:+ newline)
         main_board_manager) initial_world
  = (Ok sample_airport,
     (after (Airport.from_config_line sample_env ("KJFK 0 58 0 1 2 KLGA" +:+ newline)
               main_board_manager) initial_world)) /\
  (is_ascii (Airport.airport_code sample_airport) = true /\
   is_field (Airport.airport_code sample_airport)) /\
  (is_ascii (Airport.alternate sample_airport) = true /\
   is_field (Airport.alternate sample_airport)).
Proof.
  assert (is_ascii ("KJFK 0 58 0 1 2 KLGA" +:+ newline) = true) as Hascii by reflexivity.
  assert (run (Airport.from_config_line sample_env ("KJFK 0 58 0 1 2 KLGA" +:+ newline)
                 main_board_manager) initial_world
          = (Ok sample_airport,
             (after (Airport.from_config_line sample_env
                       ("KJFK 0 58 0 1 2 KLGA" +:+ newline) main_board_manager)
                initial_world))) as Hrun by (vm_compute; reflexivity).
  split; [exact Hascii |]. split; [exact Hrun |].
  exact (proj2 (config_fields_have_no_whitespace sample_env
                  ("KJFK 0 58 0 1 2 KLGA" +:+ newline) main_board_manager sample_airport
                  initial_world _ Hascii) Hrun).
Defined.

(** ** The float product against the exact product *)

Section ExactProduct.
Import PyFloat.




End ExactProduct.



